(** * md2conf: markdown to Confluence upload tool

    A shallow embedding of [md2conf.py] and the properties of its page
    reconciler, local-reference rewriter, attachment uploader and start-up
    configuration.

    Python [str] values are modelled as [string] (ASCII text), except the
    text of the markdown file from which the title is read, which is a
    list of Unicode code points; Python [int] as [Z], [None]-able values as
    [option], dictionaries that are only read and written by key as
    [gmap], dictionaries that are iterated as insertion-ordered association
    lists.  A name the module does not bind raises [NameError] where it is
    evaluated. *)

From Stdlib Require Import ZArith List Ascii String Bool Lia.
From stdpp Require Import base option list strings gmap pretty.

Local Open Scope string_scope.
Local Open Scope list_scope.
Local Open Scope Z_scope.

(** ** Python string primitives *)

Module Py.

(** The double-quote character, as a one-character string. *)
Definition QUOTE : string := String (ascii_of_nat 34) EmptyString.

(** [sep.join(parts)] *)
Definition join (sep : string) (parts : list string) : string :=
  String.concat sep parts.

(** [s.startswith(p)] *)
Definition startswith (p s : string) : bool := String.prefix p s.

(** [s.endswith(p)] *)
Definition endswith (p s : string) : bool :=
  (String.length p <=? String.length s)%nat
  && String.eqb (substring (String.length s - String.length p) (String.length p) s) p.

(** [sub in s], [s.find(sub) != -1] *)
Fixpoint contains (sub s : string) : bool :=
  String.prefix sub s
  || match s with
     | EmptyString => false
     | String _ s' => contains sub s'
     end.

(** Characters that [str.split()] treats as separators (ASCII range). *)
Definition isspace (c : ascii) : bool :=
  let n := nat_of_ascii c in
  ((9 <=? n) && (n <=? 13) || (28 <=? n) && (n <=? 32))%nat.

(** [s.split()]: the maximal runs of non-blank characters. [cur] holds the
    run being read, if any. *)
Fixpoint split_ws_aux (cur : option string) (s : string) : list string :=
  match s with
  | EmptyString => match cur with Some w => [w] | None => [] end
  | String c s' =>
      if isspace c
      then match cur with
           | Some w => w :: split_ws_aux None s'
           | None => split_ws_aux None s'
           end
      else split_ws_aux (Some (default "" cur +:+ String c "")) s'
  end.

Definition split_ws (s : string) : list string := split_ws_aux None s.

(** [s.split(sep)] for a one-character separator. *)
Fixpoint split_chr_aux (sep : ascii) (cur : string) (s : string) : list string :=
  match s with
  | EmptyString => [cur]
  | String c s' =>
      if Ascii.eqb c sep
      then cur :: split_chr_aux sep "" s'
      else split_chr_aux sep (cur +:+ String c "") s'
  end.

Definition split_chr (sep : ascii) (s : string) : list string :=
  split_chr_aux sep "" s.

(** [s.replace(old, new)] for non-empty [old]: occurrences are replaced from
    left to right without overlap. [skip] counts the characters of the
    occurrence just replaced that are still to be dropped. *)
Fixpoint replace_aux (old new : string) (skip : nat) (s : string) : string :=
  match s with
  | EmptyString => ""
  | String c s' =>
      match skip with
      | S k => replace_aux old new k s'
      | O =>
          if String.prefix old s
          then new +:+ replace_aux old new (String.length old - 1) s'
          else String c (replace_aux old new O s')
      end
  end.

(** With an empty [old], Python inserts [new] before every character and at
    the end. *)
Fixpoint replace_empty (new : string) (s : string) : string :=
  match s with
  | EmptyString => new
  | String c s' => new +:+ String c (replace_empty new s')
  end.

Definition replace (old new s : string) : string :=
  match old with
  | EmptyString => replace_empty new s
  | _ => replace_aux old new O s
  end.

(** ['%d' % n] *)
Definition fmt_d (n : Z) : string := pretty n.

(** [os.path.basename] and [os.path.join] on POSIX paths. *)
Fixpoint basename_aux (cur : string) (p : string) : string :=
  match p with
  | EmptyString => cur
  | String c p' =>
      if Ascii.eqb c "/" then basename_aux "" p'
      else basename_aux (cur +:+ String c "") p'
  end.

Definition basename (p : string) : string := basename_aux "" p.

Definition path_join (a b : string) : string :=
  if startswith "/" b then b
  else if String.eqb a "" || endswith "/" a then a +:+ b
  else a +:+ "/" +:+ b.

End Py.

(** ** The fragment of [re] the program uses

    Every pattern of the program is a sequence of literal characters,
    quantified character classes ([.*], [.*?], [.+?], [\d+]) and
    non-nested capture groups.  Matching is by backtracking: a lazy
    quantifier tries the rest of the pattern first, a greedy one tries to
    consume first. *)

Module Re.

Inductive cclass :=
| Dot      (* [.]  : anything but a newline *)
| DotAll   (* [.] under [re.DOTALL] *)
| Digit.   (* [\d] *)

Definition cclass_ok (k : cclass) (c : ascii) : bool :=
  match k with
  | Dot => negb (Ascii.eqb c "010")
  | DotAll => true
  | Digit => let n := nat_of_ascii c in ((48 <=? n) && (n <=? 57))%nat
  end.

Inductive atom :=
| Lit (c : ascii)
| Rep (lazy : bool) (least : nat) (k : cclass)
| GOpen
| GClose.

Definition regex := list atom.

Fixpoint lits (s : string) : regex :=
  match s with
  | EmptyString => []
  | String c s' => Lit c :: lits s'
  end.

(** [match_here r s i opened closed] matches [r] at the head of [s], which
    starts at offset [i] of the subject; it returns the end offset and the
    spans of the groups in the order they were closed. *)
Fixpoint match_here (r : regex) (s : string) (i : nat)
    (opened : list nat) (closed : list (nat * nat)) {struct r}
  : option (nat * list (nat * nat)) :=
  match r with
  | [] => Some (i, rev closed)
  | Lit c :: r' =>
      match s with
      | String d s' =>
          if Ascii.eqb c d then match_here r' s' (S i) opened closed else None
      | EmptyString => None
      end
  | GOpen :: r' => match_here r' s i (i :: opened) closed
  | GClose :: r' =>
      match opened with
      | o :: os => match_here r' s i os ((o, i) :: closed)
      | [] => match_here r' s i [] closed
      end
  | Rep lazy least k :: r' =>
      (fix rep (s : string) (i : nat) (need : nat) {struct s} :=
         if lazy then
           match match need with
                 | O => match_here r' s i opened closed
                 | S _ => None
                 end with
           | Some res => Some res
           | None =>
               match s with
               | String d s' =>
                   if cclass_ok k d then rep s' (S i) (Nat.pred need) else None
               | EmptyString => None
               end
           end
         else
           match match s with
                 | String d s' =>
                     if cclass_ok k d then rep s' (S i) (Nat.pred need) else None
                 | EmptyString => None
                 end with
           | Some res => Some res
           | None =>
               match need with
               | O => match_here r' s i opened closed
               | S _ => None
               end
           end) s i least
  end.

(** A match object: [group 0] is the whole match. *)
Record mobj := { m_start : nat; m_end : nat; m_groups : list string }.

Definition mk_mobj (subject : string) (st en : nat) (gs : list (nat * nat)) : mobj :=
  {| m_start := st; m_end := en;
     m_groups := substring st (en - st) subject
                 :: map (fun g => substring (fst g) (snd g - fst g) subject) gs |}.

Definition group (n : nat) (m : mobj) : string :=
  nth n (m_groups m) "".

Fixpoint search_from (r : regex) (subject s : string) (i : nat) : option mobj :=
  match match_here r s i [] [] with
  | Some (en, gs) => Some (mk_mobj subject i en gs)
  | None =>
      match s with
      | String _ s' => search_from r subject s' (S i)
      | EmptyString => None
      end
  end.

(** [re.search(r, s)] *)
Definition search (r : regex) (s : string) : option mobj :=
  search_from r s s O.

(** Truth value of [re.search(r, s)] *)
Definition found (r : regex) (s : string) : bool :=
  match search r s with Some _ => true | None => false end.

(** The matches [re.findall] walks through, left to right without overlap. *)
Fixpoint finditer_from (r : regex) (subject s : string) (i skip : nat) : list mobj :=
  match skip with
  | S k =>
      match s with
      | String _ s' => finditer_from r subject s' (S i) k
      | EmptyString => []
      end
  | O =>
      match match_here r s i [] [] with
      | Some (en, gs) =>
          mk_mobj subject i en gs ::
          match s with
          | String _ s' => finditer_from r subject s' (S i) (en - i - 1)
          | EmptyString => []
          end
      | None =>
          match s with
          | String _ s' => finditer_from r subject s' (S i) O
          | EmptyString => []
          end
      end
  end.

(** [re.findall(r, s)] for a pattern without group ([g = 0]) or with one
    group ([g = 1]). *)
Definition findall (g : nat) (r : regex) (s : string) : list string :=
  map (group g) (finditer_from r s s O O).

(** The patterns of the program. *)

(** ['<img(.*?)\/>'] *)
Definition img_tag : regex :=
  lits "<img" ++ [GOpen; Rep true 0 Dot; GClose] ++ lits "/>".

(** ['src="(.*?)"'] *)
Definition src_attr : regex :=
  lits ("src=" +:+ Py.QUOTE) ++ [GOpen; Rep true 0 Dot; GClose] ++ lits Py.QUOTE.

(** ['alt="(.*?)"'] *)
Definition alt_attr : regex :=
  lits ("alt=" +:+ Py.QUOTE) ++ [GOpen; Rep true 0 Dot; GClose] ++ lits Py.QUOTE.

(** ['http.*'] *)
Definition http_any : regex := lits "http" ++ [Rep false 0 Dot].

(** [r'<h\d+>(.*?)</h\d+>'] with [re.DOTALL] *)
Definition heading : regex :=
  lits "<h" ++ [Rep false 1 Digit] ++ lits ">"
  ++ [GOpen; Rep true 0 DotAll; GClose]
  ++ lits "</h" ++ [Rep false 1 Digit] ++ lits ">".

(** [r'<a href="#.+?">.+?</a>'] *)
Definition local_link : regex :=
  lits ("<a href=" +:+ Py.QUOTE +:+ "#") ++ [Rep true 1 Dot] ++ lits (Py.QUOTE +:+ ">")
  ++ [Rep true 1 Dot] ++ lits "</a>".

(** [r'<a href="(#.+?)">(.+?)</a>'] *)
Definition local_link_groups : regex :=
  lits ("<a href=" +:+ Py.QUOTE) ++ [GOpen; Lit "#"; Rep true 1 Dot; GClose] ++ lits (Py.QUOTE +:+ ">")
  ++ [GOpen; Rep true 1 Dot; GClose] ++ lits "</a>".

End Re.

(** ** Data exchanged with the remote service *)

(** A content property as the lookup returns it under
    [metadata.properties.<key>]: only [version.number] is read. *)
Record remote_property := { rp_value : string; rp_number : Z }.

(** One element of [data['results']] of the lookup by title;
    [r_properties] is [None] when [metadata.properties] is missing
    (the [KeyError] branch of [get_page]). *)
Record page_result := {
  r_id : string;
  r_number : Z;
  r_webui : string;
  r_properties : option (gmap string remote_property) }.

(** The named tuple [PageInfo]. *)
Module PageInfo.
Record t := {
  id : string;
  version : Z;
  link : string;
  properties : gmap string remote_property }.
End PageInfo.

(** The named tuple [AttachmentInfo]. *)
Module AttachmentInfo.
Record t := { id : string }.
End AttachmentInfo.

(** [{'type': 'page', 'id': ...}] *)
Record ancestor := { a_type : string; a_id : string }.

(** An entry of the [properties] dictionary that [main] and [create_page]
    hand to [update_page]: [{"key": .., "version": .., "value": ..}]. *)
Record prop_entry := { pe_key : string; pe_version : Z; pe_value : string }.

(** The body of the create request. *)
Record new_page := {
  np_title : string;
  np_space : string;
  np_body : string;
  np_ancestors : list ancestor;
  np_editor : string }.

(** The body of the page update request; [pj_labels] is the optional
    [metadata.labels] entry. *)
Record page_json := {
  pj_id : string;
  pj_title : string;
  pj_space : string;
  pj_body : string;
  pj_number : Z;
  pj_minorEdit : bool;
  pj_ancestors : list ancestor;
  pj_labels : option (list string) }.

(** The body of a property update request. *)
Record prop_json := { pr_key : string; pr_number : Z; pr_value : string }.

(** The multipart body of an attachment upload. *)
Record file_upload := {
  fu_comment : string;
  fu_filename : string;
  fu_path : string;
  fu_content_type : option string }.

(** What the create call answers. *)
Record created_page := {
  c_space_name : string;
  c_id : string;
  c_number : Z;
  c_webui : string }.

Record response (A : Type) := {
  status_code : Z;
  content : string;
  json : A }.
Arguments status_code {A} _.
Arguments content {A} _.
Arguments json {A} _.

(** ** Effects

    A run is observed through the calls it makes: log calls, HTTP requests,
    files opened for upload and browser navigation. *)

Inductive level := DEBUG | INFO | WARNING | ERROR.

(** An argument of a log call; [AObj] stands for a value whose text is not
    modelled (a parsed JSON document, an exception). *)
Inductive arg := AStr (s : string) | AInt (n : Z) | AObj.

Inductive payload :=
| NoBody
| NewPage (p : new_page)
| PageJson (p : page_json)
| PropJson (p : prop_json)
| Files (f : file_upload).

Inductive verb := Get | Post | Put | Delete.

Inductive event :=
| Log (lvl : level) (fmt : string) (args : list arg)
| Http (v : verb) (url : string) (body : payload)
| FileOpen (path : string)
| Browser (url : string).

Inductive exn :=
| KeyError (key : string)
| AttributeError
| UnboundLocalError (name : string)
| NameError (name : string)
| HTTPError (status : Z).

(** How a computation ends: a value, [sys.exit(code)], or an uncaught
    exception. *)
Inductive outcome (A : Type) :=
| Ret (a : A)
| Exit (code : Z)
| Raise (e : exn).
Arguments Ret {A} _.
Arguments Exit {A} _.
Arguments Raise {A} _.

(** A computation reads the events issued so far and yields the events it
    issues itself, in order, with its outcome. *)
Definition M (A : Type) : Type := list event -> list event * outcome A.

Definition ret {A} (a : A) : M A := fun _ => ([], Ret a).

Definition bind {A B} (m : M A) (f : A -> M B) : M B :=
  fun h =>
    match m h with
    | (e1, Ret a) => let (e2, o) := f a (h ++ e1) in (e1 ++ e2, o)
    | (e1, Exit c) => (e1, Exit c)
    | (e1, Raise x) => (e1, Raise x)
    end.

Definition emit (e : event) : M unit := fun _ => ([e], Ret tt).
Definition sys_exit {A} (code : Z) : M A := fun _ => ([], Exit code).
Definition raise {A} (x : exn) : M A := fun _ => ([], Raise x).

(** [try: m  except E: handler] for the exceptions selected by [catches]. *)
Definition try_except {A} (m : M A) (catches : exn -> bool) (handler : exn -> M A) : M A :=
  fun h =>
    match m h with
    | (e1, Raise x) =>
        if catches x
        then let (e2, o) := handler x (h ++ e1) in (e1 ++ e2, o)
        else (e1, Raise x)
    | r => r
    end.

Notation "'let!' x ':=' m 'in' k" := (bind m (fun x => k))
  (at level 10, x name, m at level 100, k at level 200).
Notation "m '>>' k" := (bind m (fun _ => k))
  (at level 100, k at level 200, right associativity).

(** [for x in xs: body(x)] *)
Fixpoint for_each {A} (xs : list A) (body : A -> M unit) : M unit :=
  match xs with
  | [] => ret tt
  | x :: xs' => body x >> for_each xs' body
  end.

(** A loop that rebinds one local variable. *)
Fixpoint for_fold {A S} (xs : list A) (s : S) (body : S -> A -> M S) : M S :=
  match xs with
  | [] => ret s
  | x :: xs' => let! s' := body s x in for_fold xs' s' body
  end.

Definition LOGGER_debug (fmt : string) (args : list arg) : M unit := emit (Log DEBUG fmt args).
Definition LOGGER_info (fmt : string) (args : list arg) : M unit := emit (Log INFO fmt args).
Definition LOGGER_warning (fmt : string) (args : list arg) : M unit := emit (Log WARNING fmt args).
Definition LOGGER_error (fmt : string) (args : list arg) : M unit := emit (Log ERROR fmt args).

(** [response.raise_for_status()] *)
Definition raise_for_status {A} (r : response A) : M unit :=
  if (400 <=? status_code r) && (status_code r <? 600)
  then raise (HTTPError (status_code r))
  else ret tt.

(** An HTTP request: the event is recorded and the remote side answers,
    possibly depending on what it has been sent before.  Every request gets
    an answer; failures of the transport itself are not modelled. *)
Definition session_request {A} (v : verb) (url : string) (b : payload)
    (answer : list event -> response A) : M (response A) :=
  fun h => ([Http v url b], Ret (answer h)).

(** ** Insertion-ordered dictionaries with string keys *)

Module Dict.

Definition t (V : Type) : Type := list (string * V).

Fixpoint set {V} (k : string) (v : V) (d : t V) : t V :=
  match d with
  | [] => [(k, v)]
  | (k', v') :: d' =>
      if String.eqb k k' then (k, v) :: d' else (k', v') :: set k v d'
  end.

Fixpoint get {V} (k : string) (d : t V) : option V :=
  match d with
  | [] => None
  | (k', v') :: d' => if String.eqb k k' then Some v' else get k d'
  end.

Definition keys {V} (d : t V) : list string := map fst d.

(** [dict(pairs)]: every element must have exactly two components
    (otherwise Python raises [ValueError], here [None]). *)
Fixpoint of_pairs (acc : t string) (pairs : list (list string)) : option (t string) :=
  match pairs with
  | [] => Some acc
  | [k; v] :: rest => of_pairs (set k v acc) rest
  | _ :: _ => None
  end.

End Dict.

(** ** Command line and start-up configuration *)

(** The parsed command line. *)
Module ARGS.
Record t := {
  markdownFile : string;
  spacekey : option string;
  username : option string;
  apikey : option string;
  orgname : option string;
  ancestor : option string;
  attachment : option (list string);
  contents : bool;
  nogo : bool;
  nossl : bool;
  delete : bool;
  loglevel : string;
  simulate : bool;
  version : Z;
  markdownsrc : string;
  labels : list string;
  properties : list (list string);
  sha_tag : option string;
  scm_prefix : option string }.
End ARGS.

(** The [type] of [--property]: [lambda kv: kv.split("=")]. *)
Definition property_type (kv : string) : list string := Py.split_chr "=" kv.

(** The module globals assigned at start-up. *)
Record config := {
  MARKDOWN_FILE : string;
  SPACE_KEY : string;
  USERNAME : string;
  API_KEY : string;
  ORGNAME : string;
  ANCESTOR : option string;
  NOSSL : bool;
  DELETE : bool;
  SIMULATE : bool;
  VERSION : Z;
  MARKDOWN_SOURCE : string;
  LABELS : list string;
  PROPERTIES : Dict.t string;
  ATTACHMENTS : option (list string);
  GO_TO_PAGE : bool;
  CONTENTS : bool;
  SHA_TAG : option string;
  SCM_PREFIX : option string;
  CONFLUENCE_API_URL : string }.

(** What the program reads from its surroundings: the environment, the
    file system, library functions whose results depend on the platform,
    and the answers of the remote service to each operation it consumes. *)
Record world := {
  environ : string -> option string;
  path_exists : string -> bool;
  path_isfile : string -> bool;
  (** [os.path.dirname(os.path.abspath(p))] *)
  dirname_abspath : string -> string;
  (** [mimetypes.guess_type(p)[0]] *)
  guess_type : string -> option string;
  (** [urllib.parse.quote_plus] *)
  quote_plus : string -> string;
  (** whether [LOGGER.setLevel(getattr(logging, name.upper(), None))]
      accepts the level name *)
  known_loglevel : string -> bool;
  content_lookup : list event -> string -> response (list page_result);
  content_create : list event -> string -> new_page -> response created_page;
  (** the update answers with [_links.webui] *)
  content_update : list event -> string -> page_json -> response string;
  property_update : list event -> string -> prop_json -> response unit;
  content_delete : list event -> string -> response unit;
  (** the ids of the attachments found under a file name *)
  attachment_lookup : list event -> string -> response (list string);
  attachment_upload : list event -> string -> file_upload -> response unit }.

(** [os.getenv(name, default)] *)
Definition getenv (w : world) (name : string) (dflt : option string) : option string :=
  match environ w name with
  | Some v => Some v
  | None => dflt
  end.

(** The base URL chosen from the organisation name. The statement
    [CONFLUENCE_API_URL.replace('https://', 'http://')] under [NOSSL]
    computes a string that is not assigned; [nossl_replaced] is that
    discarded value. *)
Definition base_url (orgname : string) : string :=
  if Py.contains "." orgname
  then "https://" +:+ orgname
  else "https://" +:+ orgname +:+ ".atlassian.net/wiki".

Definition nossl_replaced (url : string) : string :=
  Py.replace "https://" "http://" url.

(** The assignments of the module globals (the [try] block after
    [parse_args]); any [Exception] inside it is reported and ends the
    process with status 1. *)
Definition assign_globals (w : world) (a : ARGS.t) : M config :=
  let failed {A} : M A :=
    LOGGER_error "\n\nException caught:\n%s " [AObj] >>
    LOGGER_error "\nFailed to process command line arguments. Exiting." [] >>
    sys_exit 1 in
  if negb (known_loglevel w (ARGS.loglevel a)) then failed else
  let MARKDOWN_FILE := ARGS.markdownFile a in
  let USERNAME := getenv w "CONFLUENCE_USERNAME" (ARGS.username a) in
  let API_KEY := getenv w "CONFLUENCE_API_KEY" (ARGS.apikey a) in
  let ORGNAME := getenv w "CONFLUENCE_ORGNAME" (ARGS.orgname a) in
  match Dict.of_pairs [] (ARGS.properties a) with
  | None => failed
  | Some PROPERTIES =>
  match USERNAME with
  | None =>
      LOGGER_error "Error: Username not specified by environment variable or option." [] >>
      sys_exit 1
  | Some USERNAME =>
  match API_KEY with
  | None =>
      LOGGER_error "Error: API key not specified by environment variable or option." [] >>
      sys_exit 1
  | Some API_KEY =>
  if negb (path_exists w MARKDOWN_FILE) then
    LOGGER_error "Error: Markdown file: %s does not exist." [AStr MARKDOWN_FILE] >>
    sys_exit 1
  else
  let SPACE_KEY := match ARGS.spacekey a with
                   | Some k => k
                   | None => "~" +:+ USERNAME
                   end in
  match ORGNAME with
  | None =>
      LOGGER_error "Error: Org Name not specified by environment variable or option." [] >>
      sys_exit 1
  | Some ORGNAME =>
  let CONFLUENCE_API_URL := base_url ORGNAME in
  let _ := if ARGS.nossl a then nossl_replaced CONFLUENCE_API_URL else "" in
  ret {| MARKDOWN_FILE := MARKDOWN_FILE;
         SPACE_KEY := SPACE_KEY;
         USERNAME := USERNAME;
         API_KEY := API_KEY;
         ORGNAME := ORGNAME;
         ANCESTOR := ARGS.ancestor a;
         NOSSL := ARGS.nossl a;
         DELETE := ARGS.delete a;
         SIMULATE := ARGS.simulate a;
         VERSION := ARGS.version a;
         MARKDOWN_SOURCE := ARGS.markdownsrc a;
         LABELS := ARGS.labels a;
         PROPERTIES := PROPERTIES;
         ATTACHMENTS := ARGS.attachment a;
         GO_TO_PAGE := negb (ARGS.nogo a);
         CONTENTS := ARGS.contents a;
         SHA_TAG := ARGS.sha_tag a;
         SCM_PREFIX := ARGS.scm_prefix a;
         CONFLUENCE_API_URL := CONFLUENCE_API_URL |}
  end end end end.

(** ** The program *)

Section Program.

Variable w : world.
Variable cfg : config.

Definition is_HTTPError (x : exn) : bool :=
  match x with HTTPError _ => true | _ => false end.

(** Truth value of a list or of an optional list ([None] and [[]] are
    false). *)
Definition truthy {A} (l : option (list A)) : bool :=
  match l with
  | Some (_ :: _) => true
  | _ => false
  end.

Definition nonempty {A} (l : list A) : bool :=
  match l with [] => false | _ => true end.

(** The [url] of [get_page]: lookup by title and space, expanding the
    configured content properties. *)
Definition lookup_url (title : string) : string :=
  let url := CONFLUENCE_API_URL cfg +:+ "/rest/api/content?title="
             +:+ quote_plus w title +:+ "&spaceKey=" +:+ SPACE_KEY cfg
             +:+ "&expand=version,ancestors" in
  if nonempty (PROPERTIES cfg)
  then url +:+ "," +:+
       Py.join "," (map (fun v => "metadata.properties." +:+ v)
                        (Dict.keys (PROPERTIES cfg)))
  else url.

Definition get_page (title : string) : M (option PageInfo.t) :=
  LOGGER_info "\tRetrieving page information: %s" [AStr title] >>
  let url := lookup_url title in
  let! response := session_request Get url NoBody (fun h => content_lookup w h url) in
  try_except (raise_for_status response) is_HTTPError
    (fun err =>
       LOGGER_error "err.response: %s" [AObj] >>
       (if status_code response =? 404 then
          LOGGER_error "Error: Page not found. Check the following are correct:" [] >>
          LOGGER_error "\tSpace Key : %s" [AStr (SPACE_KEY cfg)] >>
          LOGGER_error "\tOrganisation Name: %s" [AStr (ORGNAME cfg)]
        else
          LOGGER_error "Error: %d - %s"
            [AInt (status_code response); AStr (content response)]) >>
       sys_exit 1) >>
  let data := json response in
  LOGGER_debug "data: %s" [AObj] >>
  match data with
  | r :: _ =>
      let page_id := r_id r in
      let version_num := r_number r in
      let link := CONFLUENCE_API_URL cfg +:+ r_webui r in
      (* [LOGGER.info(str(data))]: the text of [data] is the message *)
      LOGGER_info "%s" [AObj] >>
      let properties := match r_properties r with
                        | Some ps => ps
                        | None => ∅
                        end in
      ret (Some {| PageInfo.id := page_id; PageInfo.version := version_num;
                   PageInfo.link := link; PageInfo.properties := properties |})
  | [] => ret None
  end.

Definition get_attachment (page_id filename : string) : M (option AttachmentInfo.t) :=
  let url := CONFLUENCE_API_URL cfg +:+ "/rest/api/content/" +:+ page_id
             +:+ "/child/attachment?filename=" +:+ filename in
  let! response := session_request Get url NoBody (fun h => attachment_lookup w h url) in
  raise_for_status response >>
  let data := json response in
  match data with
  | att_id :: _ => ret (Some {| AttachmentInfo.id := att_id |})
  | [] => ret None
  end.

Definition upload_attachment (page_id file comment : string) : M bool :=
  if Re.found Re.http_any file then ret false else
  let content_type := guess_type w file in
  let filename := Py.basename file in
  if negb (path_isfile w file) then
    LOGGER_error "File %s cannot be found --> skip " [AStr file] >>
    ret false
  else
  emit (FileOpen file) >>
  let file_to_upload := {| fu_comment := comment; fu_filename := filename;
                           fu_path := file; fu_content_type := content_type |} in
  let! attachment := get_attachment page_id filename in
  let url := match attachment with
             | Some att =>
                 CONFLUENCE_API_URL cfg +:+ "/rest/api/content/" +:+ page_id
                 +:+ "/child/attachment/" +:+ AttachmentInfo.id att +:+ "/data"
             | None =>
                 CONFLUENCE_API_URL cfg +:+ "/rest/api/content/" +:+ page_id
                 +:+ "/child/attachment/"
             end in
  LOGGER_info "\tUploading attachment %s..." [AStr filename] >>
  let! response := session_request Post url (Files file_to_upload)
                     (fun h => attachment_upload w h url file_to_upload) in
  raise_for_status response >>
  ret true.

(** [m.group(1)] on the result of [re.search]: [None] has no [group]. *)
Definition group_of (m : option Re.mobj) (n : nat) : M string :=
  match m with
  | Some m => ret (Re.group n m)
  | None => raise AttributeError
  end.

Definition add_images (page_id html : string) : M string :=
  let source_folder := dirname_abspath w (MARKDOWN_FILE cfg) in
  for_fold (Re.findall 1 Re.img_tag html) html (fun html tag =>
    let! rel_path := group_of (Re.search Re.src_attr tag) 1 in
    let! alt_text := group_of (Re.search Re.alt_attr tag) 1 in
    let abs_path := Py.path_join source_folder rel_path in
    let basename := Py.basename rel_path in
    upload_attachment page_id abs_path alt_text >>
    if Re.found Re.http_any rel_path then ret html
    else if Py.endswith "/wiki" (CONFLUENCE_API_URL cfg) then
      ret (Py.replace rel_path
             ("/wiki/download/attachments/" +:+ page_id +:+ "/" +:+ basename) html)
    else
      ret (Py.replace rel_path
             ("/download/attachments/" +:+ page_id +:+ "/" +:+ basename) html)).

Definition add_attachments (page_id : string) (files : option (list string)) : M unit :=
  let source_folder := dirname_abspath w (MARKDOWN_FILE cfg) in
  match files with
  | Some files =>
      for_each files (fun file =>
        upload_attachment page_id (Py.path_join source_folder file) "" >> ret tt)
  | None => ret tt
  end.

(** The [%] operator for a format with one [%d]. *)
Definition percent_d (fmt : string) (n : Z) : string :=
  Py.replace "%d" (Py.fmt_d n) fmt.

Definition ref_prefixes : gmap string string :=
  {[ "bitbucket" := "#markdown-header-" ]}.
Definition ref_postfixes : gmap string string :=
  {[ "bitbucket" := "_%d" ]}.

(** A read of a local variable that may not have been assigned. *)
Definition local {A} (name : string) (v : option A) : M A :=
  match v with
  | Some a => ret a
  | None => raise (UnboundLocalError name)
  end.

(** [d[key]] *)
Definition subscript {V} (d : gmap string V) (key : string) : M V :=
  match d !! key with
  | Some v => ret v
  | None => raise (KeyError key)
  end.

(** [slug(string, lowercase)]: [md2conf.py] calls [slug] and neither
    defines nor imports it ([import convert] binds the name [convert]
    only), so the name is unbound when the call is evaluated. *)
Definition slug (s : string) (lowercase : bool) : M string :=
  raise (NameError "slug").

(** The body of [for header in headers] in [add_local_refs]; the state is
    the pair [(headers_map, headers_count)]. *)
Definition headers_step (ref_prefix ref_postfix : string)
    (st : gmap string string * gmap string Z) (header : string)
  : M (gmap string string * gmap string Z) :=
  let '(headers_map, headers_count) := st in
  let! slugged := slug header true in
  let key := ref_prefix +:+ slugged in
  let value := if VERSION cfg =? 1 then Some (Py.join "" (Py.split_ws header))
               else None in
  let! value := if VERSION cfg =? 2
                then let! slugged := slug header false in ret (Some slugged)
                else ret value in
  match headers_map !! key with
  | Some _ =>
      let! alt_count := subscript headers_count key in
      let alt_key := key +:+ percent_d ref_postfix alt_count in
      let! value := local "value" value in
      let alt_value := value +:+ "." +:+ Py.fmt_d alt_count in
      ret (<[alt_key := alt_value]> headers_map, <[key := alt_count + 1]> headers_count)
  | None =>
      let! value := local "value" value in
      ret (<[key := value]> headers_map, <[key := 1]> headers_count)
  end.

(** The body of [for link in links] in [add_local_refs]. *)
Definition links_step (page_id title : string) (headers_map : gmap string string)
    (html link : string) : M string :=
  let matches := Re.search Re.local_link_groups link in
  let! ref := group_of matches 1 in
  let! alt := group_of matches 2 in
  let! result_ref := subscript headers_map ref in
  if negb (String.eqb result_ref "") then
    let base_uri := CONFLUENCE_API_URL cfg +:+ "/spaces/" +:+ SPACE_KEY cfg
                    +:+ "/pages/" +:+ page_id +:+ "/"
                    +:+ Py.join "+" (Py.split_ws title) in
    let replacement_uri :=
      if VERSION cfg =? 1
      then Some (base_uri +:+ "#" +:+ Py.join "" (Py.split_ws title)
                 +:+ "-" +:+ result_ref)
      else None in
    let replacement_uri :=
      if VERSION cfg =? 2 then Some (base_uri +:+ "#" +:+ result_ref)
      else replacement_uri in
    let! replacement_uri := local "replacement_uri" replacement_uri in
    let replacement := "<a href=" +:+ Py.QUOTE +:+ replacement_uri +:+ Py.QUOTE
                       +:+ " title=" +:+ Py.QUOTE +:+ alt +:+ Py.QUOTE +:+ ">"
                       +:+ alt +:+ "</a>" in
    ret (Py.replace link replacement html)
  else ret html.

Definition add_local_refs (page_id title html : string) : M string :=
  match ref_prefixes !! MARKDOWN_SOURCE cfg, ref_postfixes !! MARKDOWN_SOURCE cfg with
  | Some ref_prefix, Some ref_postfix =>
      LOGGER_info "Converting confluence local links..." [] >>
      let headers := Re.findall 1 Re.heading html in
      if nonempty headers then
        let! st := for_fold headers (∅, ∅) (headers_step ref_prefix ref_postfix) in
        let headers_map := fst st in
        let links := Re.findall 0 Re.local_link html in
        for_fold links html (links_step page_id title headers_map)
      else ret html
  | _, _ =>
      LOGGER_warning ("Local references werent processed because "
                      +:+ "--markdownsrc wasnt set or specified source isnt supported") [] >>
      ret html
  end.

Definition update_page (page_id title body : string) (version : Z)
    (ancestors : list ancestor) (properties : Dict.t prop_entry)
    (attachments : option (list string)) : M unit :=
  LOGGER_info "Updating page..." [] >>
  let! body := add_images page_id body in
  add_attachments page_id attachments >>
  let! body := add_local_refs page_id title body in
  let url := CONFLUENCE_API_URL cfg +:+ "/rest/api/content/" +:+ page_id in
  let page_json := {| pj_id := page_id;
                      pj_title := title;
                      pj_space := SPACE_KEY cfg;
                      pj_body := body;
                      pj_number := version + 1;
                      pj_minorEdit := true;
                      pj_ancestors := ancestors;
                      pj_labels := if nonempty (LABELS cfg)
                                   then Some (LABELS cfg) else None |} in
  let! response := session_request Put url (PageJson page_json)
                     (fun h => content_update w h url page_json) in
  raise_for_status response >>
  if status_code response =? 200 then
    let data := json response in
    let link := CONFLUENCE_API_URL cfg +:+ data in
    LOGGER_info "Page updated successfully." [] >>
    LOGGER_info "URL: %s" [AStr link] >>
    (if nonempty properties then
       LOGGER_info "Updating page content properties..." [] >>
       for_each properties (fun '(key, entry) =>
         let prop_url := url +:+ "/property/" +:+ key in
         let prop_json := {| pr_key := key;
                             pr_number := pe_version entry;
                             pr_value := pe_value entry |} in
         let! response := session_request Put prop_url (PropJson prop_json)
                            (fun h => property_update w h prop_url prop_json) in
         raise_for_status response >>
         if status_code response =? 200
         then LOGGER_info "\tUpdated property %s" [AStr key]
         else ret tt)
     else ret tt) >>
    if GO_TO_PAGE cfg then emit (Browser link) else ret tt
  else
    LOGGER_error "Page could not be updated." [].

(** The [properties] dictionary [create_page] builds: every configured
    property at version 1. *)
Definition create_properties : Dict.t prop_entry :=
  fold_left (fun properties key =>
               Dict.set key {| pe_key := key; pe_version := 1;
                               pe_value := default "" (Dict.get key (PROPERTIES cfg)) |}
                        properties)
            (Dict.keys (PROPERTIES cfg)) [].

Definition create_page (title body : string) (ancestors : list ancestor) : M unit :=
  LOGGER_info "Creating page..." [] >>
  let url := CONFLUENCE_API_URL cfg +:+ "/rest/api/content/" in
  let new_page := {| np_title := title;
                     np_space := SPACE_KEY cfg;
                     np_body := body;
                     np_ancestors := ancestors;
                     np_editor := "v" +:+ Py.fmt_d (VERSION cfg) |} in
  LOGGER_debug "data: %s" [AObj] >>
  let! response := session_request Post url (NewPage new_page)
                     (fun h => content_create w h url new_page) in
  try_except (raise_for_status response) is_HTTPError
    (fun excpt =>
       LOGGER_error "error: %s - %s" [AObj; AStr (content response)] >>
       sys_exit 1) >>
  if status_code response =? 200 then
    let data := json response in
    let space_name := c_space_name data in
    let page_id := c_id data in
    let version := c_number data in
    let link := CONFLUENCE_API_URL cfg +:+ c_webui data in
    LOGGER_info "Page created in %s with ID: %s." [AStr space_name; AStr page_id] >>
    LOGGER_info "URL: %s" [AStr link] >>
    let properties := create_properties in
    let img_check := Re.found Re.img_tag body in
    let local_ref_check := Re.found Re.local_link_groups body in
    if img_check || local_ref_check || nonempty properties
       || truthy (ATTACHMENTS cfg) || nonempty (LABELS cfg)
    then
      LOGGER_info "\tAttachments, local references, content properties or labels found, update procedure called." [] >>
      update_page page_id title body version ancestors properties (ATTACHMENTS cfg)
    else
      if GO_TO_PAGE cfg then emit (Browser link) else ret tt
  else
    LOGGER_error "Could not create page." [] >>
    sys_exit 1.

Definition delete_page (page_id : string) : M unit :=
  LOGGER_info "Deleting page..." [] >>
  let url := CONFLUENCE_API_URL cfg +:+ "/rest/api/content/" +:+ page_id in
  let! response := session_request Delete url NoBody (fun h => content_delete w h url) in
  raise_for_status response >>
  if status_code response =? 204
  then LOGGER_info "Page %s deleted successfully." [AStr page_id]
  else LOGGER_error "Page %s could not be deleted." [AStr page_id].

(** The [properties] dictionary [main] builds for a page that exists. *)
Definition main_properties (page : PageInfo.t) : Dict.t prop_entry :=
  fold_left (fun properties key =>
               let value := default "" (Dict.get key (PROPERTIES cfg)) in
               match PageInfo.properties page !! key with
               | Some p =>
                   Dict.set key {| pe_key := key; pe_version := rp_number p + 1;
                                   pe_value := value |} properties
               | None =>
                   Dict.set key {| pe_key := key; pe_version := 1;
                                   pe_value := value |} properties
               end)
            (Dict.keys (PROPERTIES cfg)) [].

(** [main], from the point where the title and the converted HTML are
    known: reading the markdown file, rendering it and the passes of the
    [convert] module happen before and are not part of [md2conf.py]. *)
Definition main (title html : string) : M unit :=
  LOGGER_debug "html: %s" [AStr html] >>
  (if SIMULATE cfg then
     LOGGER_info "Simulate mode is active - stop processing here." [] >>
     sys_exit 0
   else ret tt) >>
  LOGGER_info "Checking if Atlas page exists..." [] >>
  let! page := get_page title in
  (match page with
   | Some p => if DELETE cfg then delete_page (PageInfo.id p) >> sys_exit 1 else ret tt
   | None => ret tt
   end) >>
  let! ancestors :=
    match ANCESTOR cfg with
    | Some (String _ _ as parent) =>
        let! parent_page := get_page parent in
        match parent_page with
        | Some pp => ret [{| a_type := "page"; a_id := PageInfo.id pp |}]
        | None =>
            LOGGER_error "Error: Parent page does not exist: %s" [AStr parent] >>
            sys_exit 1
        end
    | _ => ret []
    end in
  match page with
  | Some p =>
      let properties := main_properties p in
      update_page (PageInfo.id p) title html (PageInfo.version p) ancestors
                  properties (ATTACHMENTS cfg)
  | None => create_page title html ancestors
  end >>
  LOGGER_info "Markdown Converter completed successfully." [].

End Program.

(** ** Observations on runs *)

(** A computation that issues none of the events [f] selects. *)
Definition quiet {A X} (f : event -> option X) (m : M A) : Prop :=
  forall h, omap f (fst (m h)) = [].

(** The value a computation returned, if it returned. *)
Definition returned {A} (r : list event * outcome A) : option A :=
  match snd r with
  | Ret a => Some a
  | _ => None
  end.

(** The command line with other credential flags. *)
Definition with_flags (u k o : option string) (a : ARGS.t) : ARGS.t :=
  {| ARGS.markdownFile := ARGS.markdownFile a;
     ARGS.spacekey := ARGS.spacekey a;
     ARGS.username := u;
     ARGS.apikey := k;
     ARGS.orgname := o;
     ARGS.ancestor := ARGS.ancestor a;
     ARGS.attachment := ARGS.attachment a;
     ARGS.contents := ARGS.contents a;
     ARGS.nogo := ARGS.nogo a;
     ARGS.nossl := ARGS.nossl a;
     ARGS.delete := ARGS.delete a;
     ARGS.loglevel := ARGS.loglevel a;
     ARGS.simulate := ARGS.simulate a;
     ARGS.version := ARGS.version a;
     ARGS.markdownsrc := ARGS.markdownsrc a;
     ARGS.labels := ARGS.labels a;
     ARGS.properties := ARGS.properties a;
     ARGS.sha_tag := ARGS.sha_tag a;
     ARGS.scm_prefix := ARGS.scm_prefix a |}.

(** The command line with the [--nossl] toggle set to [b]. *)
Definition with_nossl (b : bool) (a : ARGS.t) : ARGS.t :=
  {| ARGS.markdownFile := ARGS.markdownFile a;
     ARGS.spacekey := ARGS.spacekey a;
     ARGS.username := ARGS.username a;
     ARGS.apikey := ARGS.apikey a;
     ARGS.orgname := ARGS.orgname a;
     ARGS.ancestor := ARGS.ancestor a;
     ARGS.attachment := ARGS.attachment a;
     ARGS.contents := ARGS.contents a;
     ARGS.nogo := ARGS.nogo a;
     ARGS.nossl := b;
     ARGS.delete := ARGS.delete a;
     ARGS.loglevel := ARGS.loglevel a;
     ARGS.simulate := ARGS.simulate a;
     ARGS.version := ARGS.version a;
     ARGS.markdownsrc := ARGS.markdownsrc a;
     ARGS.labels := ARGS.labels a;
     ARGS.properties := ARGS.properties a;
     ARGS.sha_tag := ARGS.sha_tag a;
     ARGS.scm_prefix := ARGS.scm_prefix a |}.

(** The value a credential setting takes according to its variable and
    its flag: the value of the environment variable when that is set, and
    the value of the flag only when the variable is unset. *)
Definition supplied (w : world) (name : string) (flag : option string) (v : string)
  : Prop :=
  environ w name = Some v \/ (environ w name = None /\ flag = Some v).

(** The base URL a start-up ends with, if it does not exit. *)
Definition url_of (r : list event * outcome config) : option string :=
  CONFLUENCE_API_URL <$> returned r.

(** [s[n:]] *)
Fixpoint string_drop (n : nat) (s : string) : string :=
  match n, s with
  | O, _ => s
  | S n', String _ s' => string_drop n' s'
  | S _, EmptyString => EmptyString
  end.

(** Whether an error was logged among the events. *)
Definition logs_error (evs : list event) : Prop :=
  exists fmt args, In (Log ERROR fmt args) evs.

(** The version numbers carried by the page update calls, in order. *)
Definition page_update (e : event) : option Z :=
  match e with
  | Http Put _ (PageJson p) => Some (pj_number p)
  | _ => None
  end.
Definition page_updates (evs : list event) : list Z := omap page_update evs.

(** The page ids the page update calls are addressed to. *)
Definition page_update_id (e : event) : option string :=
  match e with
  | Http Put _ (PageJson p) => Some (pj_id p)
  | _ => None
  end.

(** Key and version number of the property update calls, in order. *)
Definition prop_update (e : event) : option (string * Z) :=
  match e with
  | Http Put _ (PropJson p) => Some (pr_key p, pr_number p)
  | _ => None
  end.
Definition prop_updates (evs : list event) : list (string * Z) := omap prop_update evs.

(** The page create calls. *)
Definition page_create (e : event) : option new_page :=
  match e with
  | Http Post _ (NewPage p) => Some p
  | _ => None
  end.
Definition page_creates (evs : list event) : list new_page := omap page_create evs.

(** The delete calls. *)
Definition page_delete (e : event) : option string :=
  match e with
  | Http Delete url _ => Some url
  | _ => None
  end.
Definition page_deletes (evs : list event) : list string := omap page_delete evs.

(** All [PUT] requests. *)
Definition put_request (e : event) : option event :=
  match e with
  | Http Put _ _ => Some e
  | _ => None
  end.

(** Entries into [update_page], which opens with a log line of its own. *)
Definition update_pass (e : event) : option unit :=
  match e with
  | Log INFO fmt [] => if String.eqb fmt "Updating page..." then Some tt else None
  | _ => None
  end.
Definition update_passes (evs : list event) : list unit := omap update_pass evs.

(** A selector that ignores whatever the steps before and around the
    requests of [update_page] and [create_page] issue: log lines other
    than the opening line of [update_page], requests other than [PUT] and
    page creation, file accesses and browser navigation. *)
Record passive {X} (f : event -> option X) : Prop := {
  passive_log : forall lvl fmt args, fmt <> "Updating page..." -> f (Log lvl fmt args) = None;
  passive_get : forall url b, f (Http Get url b) = None;
  passive_files : forall url u, f (Http Post url (Files u)) = None;
  passive_open : forall p, f (FileOpen p) = None;
  passive_browser : forall u, f (Browser u) = None }.

(** Whether a status passes [raise_for_status]. *)
Definition status_ok (s : Z) : bool := negb ((400 <=? s) && (s <? 600)).

(** Events no passive selector picks up. *)
Definition silent (evs : list event) : Prop :=
  forall X (f : event -> option X), passive f -> omap f evs = [].

Section Update_parts.

Variable w : world.
Variable cfg : config.

(** The body of [for key in properties] in [update_page]. *)
Definition update_property (url : string) (kv : string * prop_entry) : M unit :=
  let '(key, entry) := kv in
  let prop_url := url +:+ "/property/" +:+ key in
  let prop_json := {| pr_key := key;
                      pr_number := pe_version entry;
                      pr_value := pe_value entry |} in
  let! response := session_request Put prop_url (PropJson prop_json)
                     (fun h => property_update w h prop_url prop_json) in
  raise_for_status response >>
  if status_code response =? 200
  then LOGGER_info "\tUpdated property %s" [AStr key]
  else ret tt.

(** The requests of [update_page] once the body is prepared: everything
    from [url = ...] to the end of the function. *)
Definition update_submit (page_id title body : string) (version : Z)
    (ancestors : list ancestor) (properties : Dict.t prop_entry) : M unit :=
  let url := CONFLUENCE_API_URL cfg +:+ "/rest/api/content/" +:+ page_id in
  let page_json := {| pj_id := page_id;
                      pj_title := title;
                      pj_space := SPACE_KEY cfg;
                      pj_body := body;
                      pj_number := version + 1;
                      pj_minorEdit := true;
                      pj_ancestors := ancestors;
                      pj_labels := if nonempty (LABELS cfg)
                                   then Some (LABELS cfg) else None |} in
  let! response := session_request Put url (PageJson page_json)
                     (fun h => content_update w h url page_json) in
  raise_for_status response >>
  if status_code response =? 200 then
    let data := json response in
    let link := CONFLUENCE_API_URL cfg +:+ data in
    LOGGER_info "Page updated successfully." [] >>
    LOGGER_info "URL: %s" [AStr link] >>
    (if nonempty properties then
       LOGGER_info "Updating page content properties..." [] >>
       for_each properties (update_property url)
     else ret tt) >>
    if GO_TO_PAGE cfg then emit (Browser link) else ret tt
  else
    LOGGER_error "Page could not be updated." [].

(** The steps of [main] around the lookup of the page. *)
Definition simulate_stop : M unit :=
  if SIMULATE cfg then
    LOGGER_info "Simulate mode is active - stop processing here." [] >>
    sys_exit 0
  else ret tt.

Definition delete_stop (page : option PageInfo.t) : M unit :=
  match page with
  | Some p => if DELETE cfg then delete_page w cfg (PageInfo.id p) >> sys_exit 1 else ret tt
  | None => ret tt
  end.

Definition main_ancestors : M (list ancestor) :=
  match ANCESTOR cfg with
  | Some (String _ _ as parent) =>
      let! parent_page := get_page w cfg parent in
      match parent_page with
      | Some pp => ret [{| a_type := "page"; a_id := PageInfo.id pp |}]
      | None =>
          LOGGER_error "Error: Parent page does not exist: %s" [AStr parent] >>
          sys_exit 1
      end
  | _ => ret []
  end.

End Update_parts.

(** The opening log line of [update_page]. *)
Definition updating_page : event := Log INFO "Updating page..." [].

(** A page as [get_page] reports it from the first lookup result. *)
Definition page_of (cfg : config) (r : page_result) : PageInfo.t :=
  {| PageInfo.id := r_id r;
     PageInfo.version := r_number r;
     PageInfo.link := CONFLUENCE_API_URL cfg +:+ r_webui r;
     PageInfo.properties := default ∅ (r_properties r) |}.

(** The page with the given title exists remotely as [r]: the lookup by
    that title succeeds and [r] is its first result. *)
Definition exists_remotely (w : world) (cfg : config) (title : string)
    (r : page_result) : Prop :=
  forall h,
    status_ok (status_code (content_lookup w h (lookup_url w cfg title))) = true
    /\ head (json (content_lookup w h (lookup_url w cfg title))) = Some r.

(** No page with the given title exists remotely: the lookup succeeds
    with no result. *)
Definition absent_remotely (w : world) (cfg : config) (title : string) : Prop :=
  forall h,
    status_ok (status_code (content_lookup w h (lookup_url w cfg title))) = true
    /\ json (content_lookup w h (lookup_url w cfg title)) = [].

(** The version number [main] submits for the property [key] of a page
    found as [r]. *)
Definition next_property_version (r : page_result) (key : string) : Z :=
  match default ∅ (r_properties r) !! key with
  | Some p => rp_number p + 1
  | None => 1
  end.

(** The entry [main] makes for a property key. *)
Definition main_entry (cfg : config) (page : PageInfo.t) (key : string) : prop_entry :=
  {| pe_key := key;
     pe_version := match PageInfo.properties page !! key with
                   | Some p => rp_number p + 1
                   | None => 1
                   end;
     pe_value := default "" (Dict.get key (PROPERTIES cfg)) |}.

(** The condition under which [create_page] goes on with an update pass,
    in terms of the body and the configuration. *)
Definition needs_update (cfg : config) (body : string) : bool :=
  Re.found Re.img_tag body || Re.found Re.local_link_groups body
  || nonempty (PROPERTIES cfg) || truthy (ATTACHMENTS cfg) || nonempty (LABELS cfg).

(** What [create_page] sends, and what it issues up to the point where it
    has logged the new page. *)
Definition create_request (cfg : config) (title body : string)
    (ancestors : list ancestor) : new_page :=
  {| np_title := title;
     np_space := SPACE_KEY cfg;
     np_body := body;
     np_ancestors := ancestors;
     np_editor := "v" +:+ Py.fmt_d (VERSION cfg) |}.

Definition create_answer (w : world) (cfg : config) (title body : string)
    (ancestors : list ancestor) (h : list event) : response created_page :=
  content_create w (h ++ [Log INFO "Creating page..." []; Log DEBUG "data: %s" [AObj]])
    (CONFLUENCE_API_URL cfg +:+ "/rest/api/content/")
    (create_request cfg title body ancestors).

Definition created_events (w : world) (cfg : config) (title body : string)
    (ancestors : list ancestor) (h : list event) : list event :=
  let data := json (create_answer w cfg title body ancestors h) in
  [Log INFO "Creating page..." [];
   Log DEBUG "data: %s" [AObj];
   Http Post (CONFLUENCE_API_URL cfg +:+ "/rest/api/content/")
     (NewPage (create_request cfg title body ancestors));
   Log INFO "Page created in %s with ID: %s." [AStr (c_space_name data); AStr (c_id data)];
   Log INFO "URL: %s" [AStr (CONFLUENCE_API_URL cfg +:+ c_webui data)]].

(** The answer to the delete call of a run of [main] in delete mode on a
    page found as [r]: the call comes after the lookup of the page. *)
Definition delete_answer (w : world) (cfg : config) (title html : string)
    (r : page_result) (h : list event) : response unit :=
  content_delete w
    (h ++ [Log DEBUG "html: %s" [AStr html];
           Log INFO "Checking if Atlas page exists..." [];
           Log INFO "\tRetrieving page information: %s" [AStr title];
           Http Get (lookup_url w cfg title) NoBody;
           Log DEBUG "data: %s" [AObj];
           Log INFO "%s" [AObj];
           Log INFO "Deleting page..." []])
    (CONFLUENCE_API_URL cfg +:+ "/rest/api/content/" +:+ r_id r).

(** The answer to the upload request of [upload_attachment] for a file
    that exists, sent to [target] after the attachment lookup. *)
Definition upload_answer (w : world) (cfg : config) (page_id file comment target : string)
    (h : list event) : response unit :=
  attachment_upload w
    (h ++ [FileOpen file;
           Http Get (CONFLUENCE_API_URL cfg +:+ "/rest/api/content/" +:+ page_id
                     +:+ "/child/attachment?filename=" +:+ Py.basename file) NoBody;
           Log INFO "\tUploading attachment %s..." [AStr (Py.basename file)]])
    target
    {| fu_comment := comment; fu_filename := Py.basename file;
       fu_path := file; fu_content_type := guess_type w file |}.

(** The log line with which [create_page] announces the update pass. *)
Definition update_called : event :=
  Log INFO "\tAttachments, local references, content properties or labels found, update procedure called." [].

(** ** Sample surroundings

    A small remote service, command line and configuration on which the
    program can be run. *)

Module Sample.

(** Writes a text with single quotes where the HTML has double quotes. *)
Fixpoint html (s : string) : string :=
  match s with
  | EmptyString => EmptyString
  | String c s' =>
      String (if Ascii.eqb c "'" then ascii_of_nat 34 else c) (html s')
  end.

Definition ok {A} (status : Z) (data : A) : response A :=
  {| status_code := status; content := EmptyString; json := data |}.

(** The page the sample service holds: version 7, with the property
    [owner] at version 3. *)
Definition page : page_result :=
  {| r_id := "4711";
     r_number := 7;
     r_webui := "/spaces/DOC/pages/4711";
     r_properties := Some {[ "owner" := {| rp_value := "bob"; rp_number := 3 |} ]} |}.

(** A service that answers every lookup with [found], accepts every
    request, and on a file system where [isfile] tells the files. *)
Definition service (env : string -> option string) (isfile : string -> bool)
    (found : list page_result) : world :=
  {| environ := env;
     path_exists := fun _ => true;
     path_isfile := isfile;
     dirname_abspath := fun _ => "/docs";
     guess_type := fun _ => Some "image/png";
     quote_plus := fun s => Py.replace " " "+" s;
     known_loglevel := fun _ => true;
     content_lookup := fun _ _ => ok 200 found;
     content_create := fun _ _ _ =>
       ok 200 {| c_space_name := "Docs"; c_id := "4712"; c_number := 1;
                 c_webui := "/spaces/DOC/pages/4712" |};
     content_update := fun _ _ _ => ok 200 "/spaces/DOC/pages/4711";
     property_update := fun _ _ _ => ok 200 tt;
     content_delete := fun _ _ => ok 204 tt;
     attachment_lookup := fun _ _ => ok 200 [];
     attachment_upload := fun _ _ _ => ok 200 tt |}.

Definition no_env (name : string) : option string := None.

(** An environment that sets the three credential variables. *)
Definition full_env (name : string) : option string :=
  if String.eqb name "CONFLUENCE_USERNAME" then Some "alice"
  else if String.eqb name "CONFLUENCE_API_KEY" then Some "s3cret"
  else if String.eqb name "CONFLUENCE_ORGNAME" then Some "acme"
  else None.

(** An environment that sets the API key and the organisation, and not
    the user name. *)
Definition keys_env (name : string) : option string :=
  if String.eqb name "CONFLUENCE_API_KEY" then Some "s3cret"
  else if String.eqb name "CONFLUENCE_ORGNAME" then Some "acme"
  else None.

Definition no_files (path : string) : bool := false.

(** A command line with all three credential flags and [--nossl]. *)
Definition command_line : ARGS.t :=
  {| ARGS.markdownFile := "/docs/page.md";
     ARGS.spacekey := Some "DOC";
     ARGS.username := Some "bob";
     ARGS.apikey := Some "other";
     ARGS.orgname := Some "wiki.example.org";
     ARGS.ancestor := None;
     ARGS.attachment := None;
     ARGS.contents := false;
     ARGS.nogo := true;
     ARGS.nossl := true;
     ARGS.delete := false;
     ARGS.loglevel := "INFO";
     ARGS.simulate := false;
     ARGS.version := 1;
     ARGS.markdownsrc := "bitbucket";
     ARGS.labels := [];
     ARGS.properties := [property_type "owner=alice"];
     ARGS.sha_tag := None;
     ARGS.scm_prefix := None |}.

(** A configuration with the given delete flag and properties. *)
Definition configuration (delete : bool) (props : Dict.t string) : config :=
  {| MARKDOWN_FILE := "/docs/page.md";
     SPACE_KEY := "DOC";
     USERNAME := "alice";
     API_KEY := "s3cret";
     ORGNAME := "acme";
     ANCESTOR := None;
     NOSSL := false;
     DELETE := delete;
     SIMULATE := false;
     VERSION := 1;
     MARKDOWN_SOURCE := "bitbucket";
     LABELS := [];
     PROPERTIES := props;
     ATTACHMENTS := None;
     GO_TO_PAGE := false;
     CONTENTS := false;
     SHA_TAG := None;
     SCM_PREFIX := None;
     CONFLUENCE_API_URL := "https://acme.atlassian.net/wiki" |}.

End Sample.

(** The sample runs used below. *)
Module Runs.

(** The page exists; two properties are configured. *)
Definition present_world : world :=
  Sample.service Sample.no_env Sample.no_files [Sample.page].
Definition present_config : config :=
  Sample.configuration false [("owner", "alice"); ("team", "docs")].

(** Delete mode. *)
Definition delete_config : config := Sample.configuration true [].

(** No page with the title exists. *)
Definition absent_world : world :=
  Sample.service Sample.no_env Sample.no_files [].

(** Every path names a file. *)
Definition files_world : world :=
  Sample.service Sample.no_env (fun _ => true) [].

(** The credential variables are set. *)
Definition env_world : world :=
  Sample.service Sample.full_env Sample.no_files [].

(** Only the API key and the organisation are set in the environment. *)
Definition keys_world : world :=
  Sample.service Sample.keys_env Sample.no_files [].

Definition plain_config : config := Sample.configuration false [].

(** What the start-up yields for the sample command line when the
    credential variables are set. *)
Definition env_config : config :=
  {| MARKDOWN_FILE := "/docs/page.md";
     SPACE_KEY := "DOC";
     USERNAME := "alice";
     API_KEY := "s3cret";
     ORGNAME := "acme";
     ANCESTOR := None;
     NOSSL := true;
     DELETE := false;
     SIMULATE := false;
     VERSION := 1;
     MARKDOWN_SOURCE := "bitbucket";
     LABELS := [];
     PROPERTIES := [("owner", "alice")];
     ATTACHMENTS := None;
     GO_TO_PAGE := false;
     CONTENTS := false;
     SHA_TAG := None;
     SCM_PREFIX := None;
     CONFLUENCE_API_URL := "https://acme.atlassian.net/wiki" |}.

Definition two_setups : string :=
  Sample.html "<h1>Setup</h1><h2>Setup</h2><p><a href='#markdown-header-setup_1'>second</a></p>".

Definition dangling_link : string :=
  Sample.html "<h1>Setup</h1><p><a href='#nowhere'>x</a></p>".


Definition with_image : string :=
  Sample.html "<p><img alt='a' src='img.png' /></p>".

End Runs.

(** ** The remaining steps of the program *)

(** The text of the markdown file as [open(MARKDOWN_FILE, 'r')] decodes
    it: a sequence of Unicode code points. *)
Module Lines.

Definition text : Type := list N.

(** [c.isspace()]: the code points Python 3 takes for whitespace, which
    are the ones [str.strip()] removes. *)
Definition isspace (c : N) : bool :=
  ((9 <=? c) && (c <=? 13) || (28 <=? c) && (c <=? 32)
   || (c =? 133) || (c =? 160) || (c =? 5760)
   || (8192 <=? c) && (c <=? 8202)
   || (c =? 8232) || (c =? 8233) || (c =? 8239) || (c =? 8287) || (c =? 12288))%N.

(** A line ending of the file: line feed or carriage return. *)
Definition line_break (c : N) : bool := ((c =? 10) || (c =? 13))%N.

(** [s.lstrip(c)] for a single character. *)
Fixpoint lstrip_chr (c : N) (s : text) : text :=
  match s with
  | [] => []
  | d :: s' => if (d =? c)%N then lstrip_chr c s' else s
  end.

Fixpoint lstrip (s : text) : text :=
  match s with
  | [] => []
  | d :: s' => if isspace d then lstrip s' else s
  end.

Fixpoint rstrip (s : text) : text :=
  match s with
  | [] => []
  | d :: s' =>
      match rstrip s' with
      | [] => if isspace d then [] else [d]
      | r => d :: r
      end
  end.

(** [s.strip()] *)
Definition strip (s : text) : text := rstrip (lstrip s).

(** [f.readline()] on a file opened in text mode with the default
    [newline=None]: the text up to its first line ending.  A line ends at
    a line feed, at a carriage return, or at the two in a row, and the
    ending is handed over as one line feed; a text without line ending is
    one line. *)
Fixpoint readline (s : text) : text :=
  match s with
  | [] => []
  | d :: s' => if line_break d then [10%N] else d :: readline s'
  end.

(** The code points of an ASCII text. *)
Fixpoint of_string (s : string) : text :=
  match s with
  | EmptyString => []
  | String c s' => N_of_ascii c :: of_string s'
  end.

End Lines.

(** The title [main] reads from the markdown text:
    [mdfile.readline().lstrip('#').strip()]. *)
Definition main_title (text : Lines.text) : Lines.text :=
  Lines.strip (Lines.lstrip_chr 35 (Lines.readline text)).

(** The body [main] keeps of the rendered HTML:
    ['\n'.join(html.split('\n')[1:])], the HTML without its first line. *)
Definition main_body (rendered : string) : string :=
  Py.join (String "010" EmptyString) (tail (Py.split_chr "010" rendered)).

(** ** Further observations on runs *)

(** The requests that change something remotely. *)
Definition modifying (e : event) : option (verb * string) :=
  match e with
  | Http Post url _ => Some (Post, url)
  | Http Put url _ => Some (Put, url)
  | Http Delete url _ => Some (Delete, url)
  | _ => None
  end.

(** All requests. *)
Definition request_of (e : event) : option (verb * string) :=
  match e with
  | Http v url _ => Some (v, url)
  | _ => None
  end.

(** The attachment uploads: the address and the file name. *)
Definition file_upload_of (e : event) : option (string * string) :=
  match e with
  | Http Post url (Files u) => Some (url, fu_filename u)
  | _ => None
  end.

(** Whether a text begins, or ends, with a whitespace character. *)
Definition starts_blank (s : Lines.text) : bool :=
  match s with
  | c :: _ => Lines.isspace c
  | [] => false
  end.

Fixpoint ends_blank (s : Lines.text) : bool :=
  match s with
  | [] => false
  | [c] => Lines.isspace c
  | _ :: s' => ends_blank s'
  end.

(** A text with no line ending, except possibly as its last character. *)
Fixpoint one_line (s : Lines.text) : bool :=
  match s with
  | [] => true
  | [c] => true
  | c :: s' => negb (Lines.line_break c) && one_line s'
  end.

(** How often a character occurs in a text. *)
Fixpoint count_chr (c : ascii) (s : string) : nat :=
  match s with
  | EmptyString => O
  | String d s' => (if Ascii.eqb d c then 1 else 0) + count_chr c s'
  end.

(** The outcome is a normal return. *)
Definition returns {A} (o : outcome A) : Prop :=
  match o with Ret _ => True | _ => False end.

(** The lookup of the page with the given title is answered with an error
    status. *)
Definition lookup_fails (w : world) (cfg : config) (title : string) : Prop :=
  forall h, status_ok (status_code (content_lookup w h (lookup_url w cfg title))) = false.

(** The pages opened in the browser. *)
Definition browser_of (e : event) : option string :=
  match e with
  | Browser url => Some url
  | _ => None
  end.

(** More sample surroundings. *)
Module More.

(** A service as [Sample.service], with chosen statuses for the page
    lookup and the create call. *)
Definition service (lookup_status create_status : Z) (isfile : string -> bool)
    (found : list page_result) : world :=
  {| environ := Sample.no_env;
     path_exists := fun _ => true;
     path_isfile := isfile;
     dirname_abspath := fun _ => "/docs";
     guess_type := fun _ => Some "image/png";
     quote_plus := fun s => Py.replace " " "+" s;
     known_loglevel := fun _ => true;
     content_lookup := fun _ _ => Sample.ok lookup_status found;
     content_create := fun _ _ _ =>
       Sample.ok create_status
         {| c_space_name := "Docs"; c_id := "4712"; c_number := 1;
            c_webui := "/spaces/DOC/pages/4712" |};
     content_update := fun _ _ _ => Sample.ok 200 "/spaces/DOC/pages/4711";
     property_update := fun _ _ _ => Sample.ok 200 tt;
     content_delete := fun _ _ => Sample.ok 204 tt;
     attachment_lookup := fun _ _ => Sample.ok 200 ["att9"];
     attachment_upload := fun _ _ _ => Sample.ok 200 tt |}.

(** A configuration with the given simulate flag, parent page and
    markdown source. *)
Definition configuration (simulate : bool) (parent : option string) (source : string)
  : config :=
  {| MARKDOWN_FILE := "/docs/page.md";
     SPACE_KEY := "DOC";
     USERNAME := "alice";
     API_KEY := "s3cret";
     ORGNAME := "acme";
     ANCESTOR := parent;
     NOSSL := false;
     DELETE := false;
     SIMULATE := simulate;
     VERSION := 1;
     MARKDOWN_SOURCE := source;
     LABELS := ["doc"];
     PROPERTIES := [("owner", "alice")];
     ATTACHMENTS := Some ["a.png"; "b.png"];
     GO_TO_PAGE := true;
     CONTENTS := false;
     SHA_TAG := None;
     SCM_PREFIX := None;
     CONFLUENCE_API_URL := "https://acme.atlassian.net/wiki" |}.

(** The sample command line with other [--property] values. *)
Definition command_line (props : list string) : ARGS.t :=
  {| ARGS.markdownFile := "/docs/page.md";
     ARGS.spacekey := Some "DOC";
     ARGS.username := Some "bob";
     ARGS.apikey := Some "other";
     ARGS.orgname := Some "wiki.example.org";
     ARGS.ancestor := None;
     ARGS.attachment := None;
     ARGS.contents := false;
     ARGS.nogo := true;
     ARGS.nossl := false;
     ARGS.delete := false;
     ARGS.loglevel := "INFO";
     ARGS.simulate := false;
     ARGS.version := 1;
     ARGS.markdownsrc := "bitbucket";
     ARGS.labels := [];
     ARGS.properties := map property_type props;
     ARGS.sha_tag := None;
     ARGS.scm_prefix := None |}.

(** A service that holds the sample page and answers delete calls and
    attachment uploads with the given statuses. *)
Definition guarded (delete_status upload_status : Z) : world :=
  {| environ := Sample.no_env;
     path_exists := fun _ => true;
     path_isfile := fun _ => true;
     dirname_abspath := fun _ => "/docs";
     guess_type := fun _ => Some "image/png";
     quote_plus := fun s => Py.replace " " "+" s;
     known_loglevel := fun _ => true;
     content_lookup := fun _ _ => Sample.ok 200 [Sample.page];
     content_create := fun _ _ _ =>
       Sample.ok 200
         {| c_space_name := "Docs"; c_id := "4712"; c_number := 1;
            c_webui := "/spaces/DOC/pages/4712" |};
     content_update := fun _ _ _ => Sample.ok 200 "/spaces/DOC/pages/4711";
     property_update := fun _ _ _ => Sample.ok 200 tt;
     content_delete := fun _ _ => Sample.ok delete_status tt;
     attachment_lookup := fun _ _ => Sample.ok 200 [];
     attachment_upload := fun _ _ _ => Sample.ok upload_status tt |}.

Definition refusing_delete : world := guarded 403 200.
Definition refusing_upload : world := guarded 204 413.

Definition broken_lookup : world := service 500 200 Sample.no_files [].
Definition rejecting_create : world := service 200 201 Sample.no_files [].
Definition with_files : world := service 200 200 (fun _ => true) [].

Definition simulating : config := configuration true None "bitbucket".
Definition under_parent : config := configuration false (Some "Parent") "bitbucket".
Definition other_source : config := configuration false None "github".

Definition image_without_alt : string := Sample.html "<p><img src='x.png' /></p>".
Definition remote_image : string :=
  Sample.html "<p><img alt='logo' src='http://example.org/logo.png' /></p>".

End More.

(** * Properties *)

(** ** Strings *)

Lemma prefix_empty s : String.prefix "" s = true.
Proof. destruct s; reflexivity. Qed.

Lemma prefix_append p s : String.prefix p (p +:+ s) = true.
Proof.
  induction p as [|c p IH].
  - apply prefix_empty.
  - change (String.prefix (String c p) (String c (p +:+ s)) = true). simpl.
    destruct (ascii_dec c c); [exact IH | congruence].
Qed.

Lemma append_empty_r s : s +:+ "" = s.
Proof.
  induction s as [|c s IH]; [reflexivity|].
  change (String c (s +:+ "") = String c s). rewrite IH. reflexivity.
Qed.

(** ** Reasoning about computations *)

Section Monad_facts.

Context {A B : Type}.

Lemma bind_run (m : M A) (k : A -> M B) (h : list event) :
  bind m k h =
  match m h with
  | (e1, Ret a) => (e1 ++ fst (k a (h ++ e1)), snd (k a (h ++ e1)))
  | (e1, Exit c) => (e1, Exit c)
  | (e1, Raise x) => (e1, Raise x)
  end.
Proof.
  unfold bind. destruct (m h) as [e1 [a|c|x]]; try reflexivity.
  destruct (k a (h ++ e1)); reflexivity.
Qed.

Lemma bind_ret_run (a : A) (k : A -> M B) (h : list event) :
  bind (ret a) k h = k a h.
Proof.
  rewrite bind_run. cbn. rewrite app_nil_r. destruct (k a h); reflexivity.
Qed.

End Monad_facts.

Lemma bind_emit_run {B} (e : event) (k : unit -> M B) (h : list event) :
  bind (emit e) k h = (e :: fst (k tt (h ++ [e])), snd (k tt (h ++ [e]))).
Proof. rewrite bind_run. reflexivity. Qed.

Section Quiet.

Context {X : Type} (f : event -> option X).

Lemma quiet_ret {A} (a : A) : quiet f (ret a).
Proof. intros h. reflexivity. Qed.

Lemma quiet_exit {A} c : quiet f (@sys_exit A c).
Proof. intros h. reflexivity. Qed.

Lemma quiet_raise {A} x : quiet f (@raise A x).
Proof. intros h. reflexivity. Qed.

Lemma quiet_emit e : f e = None -> quiet f (emit e).
Proof. intros He h. cbn. rewrite He. reflexivity. Qed.

Lemma quiet_request {A} v url b (answer : list event -> response A) :
  f (Http v url b) = None -> quiet f (session_request v url b answer).
Proof. intros He h. cbn. rewrite He. reflexivity. Qed.

Lemma quiet_bind {A B} (m : M A) (k : A -> M B) :
  quiet f m -> (forall a, quiet f (k a)) -> quiet f (bind m k).
Proof.
  intros Hm Hk h. rewrite bind_run. specialize (Hm h).
  destruct (m h) as [e1 [a|c|x]]; cbn in *; try assumption.
  rewrite omap_app, Hm. apply Hk.
Qed.

Lemma quiet_try {A} (m : M A) catches handler :
  quiet f m -> (forall x, quiet f (handler x)) -> quiet f (try_except m catches handler).
Proof.
  intros Hm Hk h. unfold try_except. specialize (Hm h).
  destruct (m h) as [e1 [a|c|x]]; cbn in *; try assumption.
  destruct (catches x); cbn; try assumption.
  specialize (Hk x (h ++ e1)). destruct (handler x (h ++ e1)); cbn in *.
  rewrite omap_app, Hm, Hk. reflexivity.
Qed.

Lemma quiet_for_each {A} (xs : list A) body :
  (forall x, quiet f (body x)) -> quiet f (for_each xs body).
Proof.
  intros Hb. induction xs as [|x xs IH]; cbn.
  - apply quiet_ret.
  - apply quiet_bind; auto.
Qed.

Lemma quiet_for_fold {A S} (xs : list A) (s : S) body :
  (forall s x, quiet f (body s x)) -> quiet f (for_fold xs s body).
Proof.
  intros Hb. revert s. induction xs as [|x xs IH]; intros s; cbn.
  - apply quiet_ret.
  - apply quiet_bind; auto.
Qed.

Lemma quiet_raise_for_status {A} (r : response A) : quiet f (raise_for_status r).
Proof. unfold raise_for_status. destruct (_ && _); [apply quiet_raise | apply quiet_ret]. Qed.

Lemma quiet_bind_events {A B} (m : M A) (k : A -> M B) h :
  quiet f m ->
  omap f (fst (bind m k h)) =
  match m h with
  | (e1, Ret a) => omap f (fst (k a (h ++ e1)))
  | _ => []
  end.
Proof.
  intros Hm. rewrite bind_run. specialize (Hm h).
  destruct (m h) as [e1 [a|c|x]]; cbn in *; try assumption.
  rewrite omap_app, Hm. reflexivity.
Qed.

End Quiet.

Lemma bind_outcome {A B} (m : M A) (k : A -> M B) h :
  snd (bind m k h) =
  match m h with
  | (e1, Ret a) => snd (k a (h ++ e1))
  | (_, Exit c) => Exit c
  | (_, Raise x) => Raise x
  end.
Proof. rewrite bind_run. destruct (m h) as [e1 [a|c|x]]; reflexivity. Qed.

(** Discharges [f e = None] for a concrete selector or a passive one. *)
Ltac quiet_event :=
  solve [ reflexivity
        | eapply passive_log; [eassumption | discriminate]
        | eapply passive_get; eassumption
        | eapply passive_files; eassumption
        | eapply passive_open; eassumption
        | eapply passive_browser; eassumption ].

(** Decomposes a goal [quiet f m] along the structure of [m]. *)
Ltac quiet_step :=
  lazymatch goal with
  | |- quiet _ (bind _ _) => apply quiet_bind; [| intros ?]
  | |- quiet _ (ret _) => apply quiet_ret
  | |- quiet _ (sys_exit _) => apply quiet_exit
  | |- quiet _ (raise _) => apply quiet_raise
  | |- quiet _ (emit _) => apply quiet_emit; quiet_event
  | |- quiet _ (LOGGER_debug _ _) => apply quiet_emit; quiet_event
  | |- quiet _ (LOGGER_info _ _) => apply quiet_emit; quiet_event
  | |- quiet _ (LOGGER_warning _ _) => apply quiet_emit; quiet_event
  | |- quiet _ (LOGGER_error _ _) => apply quiet_emit; quiet_event
  | |- quiet _ (session_request _ _ _ _) => apply quiet_request; quiet_event
  | |- quiet _ (raise_for_status _) => apply quiet_raise_for_status
  | |- quiet _ (try_except _ _ _) => apply quiet_try; [| intros ?]
  | |- quiet _ (for_each _ _) => apply quiet_for_each; intros ?
  | |- quiet _ (for_fold _ _ _) => apply quiet_for_fold; intros ? ?
  | |- quiet _ (group_of _ _) => unfold group_of
  | |- quiet _ (local _ _) => unfold local
  | |- quiet _ (subscript _ _) => unfold subscript
  | |- quiet _ (slug _ _) => unfold slug
  | |- quiet _ (if ?b then _ else _) => destruct b
  | |- quiet _ (match ?x with _ => _ end) => destruct x
  | |- quiet _ (let '(_, _) := ?x in _) => destruct x
  end.

Ltac quiet_auto := repeat quiet_step.

(** ** Start-up configuration *)

Section Startup.

Variable w : world.

(** What [assign_globals] returns when it returns. *)
Lemma assign_globals_Ret a h evs cfg :
  assign_globals w a h = (evs, Ret cfg) ->
  getenv w "CONFLUENCE_USERNAME" (ARGS.username a) = Some (USERNAME cfg)
  /\ getenv w "CONFLUENCE_API_KEY" (ARGS.apikey a) = Some (API_KEY cfg)
  /\ getenv w "CONFLUENCE_ORGNAME" (ARGS.orgname a) = Some (ORGNAME cfg)
  /\ CONFLUENCE_API_URL cfg = base_url (ORGNAME cfg)
  /\ NOSSL cfg = ARGS.nossl a.
Proof.
  unfold assign_globals.
  destruct (negb (known_loglevel w (ARGS.loglevel a))); [discriminate|].
  destruct (Dict.of_pairs [] (ARGS.properties a)); [|discriminate].
  destruct (getenv w "CONFLUENCE_USERNAME" (ARGS.username a)); [|discriminate].
  destruct (getenv w "CONFLUENCE_API_KEY" (ARGS.apikey a)); [|discriminate].
  destruct (negb (path_exists w (ARGS.markdownFile a))); [discriminate|].
  destruct (getenv w "CONFLUENCE_ORGNAME" (ARGS.orgname a)); [|discriminate].
  intros [= _ <-]. cbn. auto.
Qed.

(** Sufficient conditions for the start-up to go through. *)
Lemma assign_globals_returns a h ps u k o :
  known_loglevel w (ARGS.loglevel a) = true ->
  Dict.of_pairs [] (ARGS.properties a) = Some ps ->
  getenv w "CONFLUENCE_USERNAME" (ARGS.username a) = Some u ->
  getenv w "CONFLUENCE_API_KEY" (ARGS.apikey a) = Some k ->
  getenv w "CONFLUENCE_ORGNAME" (ARGS.orgname a) = Some o ->
  path_exists w (ARGS.markdownFile a) = true ->
  exists cfg, assign_globals w a h = ([], Ret cfg)
              /\ USERNAME cfg = u /\ API_KEY cfg = k /\ ORGNAME cfg = o
              /\ CONFLUENCE_API_URL cfg = base_url o.
Proof.
  intros Hl Hp Hu Hk Ho He. unfold assign_globals.
  rewrite Hl, Hp, Hu, Hk, Ho, He. cbn. eexists. split; [reflexivity|]. cbn. auto.
Qed.

Lemma getenv_set name v dflt :
  environ w name = Some v -> getenv w name dflt = Some v.
Proof. unfold getenv. intros ->. reflexivity. Qed.

Lemma getenv_unset name dflt :
  environ w name = None -> getenv w name dflt = dflt.
Proof. unfold getenv. intros ->. reflexivity. Qed.

Lemma supplied_getenv name flag v :
  supplied w name flag v -> getenv w name flag = Some v.
Proof. unfold getenv. intros [->|[-> ->]]; reflexivity. Qed.

Lemma base_url_https o : Py.startswith "https://" (base_url o) = true.
Proof.
  unfold base_url, Py.startswith.
  destruct (Py.contains "." o); apply prefix_append.
Qed.

Lemma assign_globals_flags a u k o h :
  getenv w "CONFLUENCE_USERNAME" u = getenv w "CONFLUENCE_USERNAME" (ARGS.username a) ->
  getenv w "CONFLUENCE_API_KEY" k = getenv w "CONFLUENCE_API_KEY" (ARGS.apikey a) ->
  getenv w "CONFLUENCE_ORGNAME" o = getenv w "CONFLUENCE_ORGNAME" (ARGS.orgname a) ->
  assign_globals w (with_flags u k o a) h = assign_globals w a h.
Proof.
  intros Hu Hk Ho. unfold assign_globals. cbn. rewrite Hu, Hk, Ho. reflexivity.
Qed.

(** C7: for the user name, the API key and the organisation name, a set
    environment variable supplies the value and the command-line flag is
    ignored (changing the flag changes nothing in the start-up); the flag
    supplies the value only when the variable is unset, and then it does:
    whenever each of the three settings is supplied by its variable, or
    by its flag with the variable unset, and the rest of the command line
    is accepted, the start-up yields a configuration with exactly those
    three values. *)
Theorem C7_environment_before_flag a h :
  (forall evs cfg,
     assign_globals w a h = (evs, Ret cfg) ->
     (forall v, environ w "CONFLUENCE_USERNAME" = Some v ->
        USERNAME cfg = v
        /\ forall u, assign_globals w (with_flags u (ARGS.apikey a) (ARGS.orgname a) a) h
                    = assign_globals w a h)
     /\ (environ w "CONFLUENCE_USERNAME" = None -> ARGS.username a = Some (USERNAME cfg))
     /\ (forall v, environ w "CONFLUENCE_API_KEY" = Some v ->
        API_KEY cfg = v
        /\ forall k, assign_globals w (with_flags (ARGS.username a) k (ARGS.orgname a) a) h
                    = assign_globals w a h)
     /\ (environ w "CONFLUENCE_API_KEY" = None -> ARGS.apikey a = Some (API_KEY cfg))
     /\ (forall v, environ w "CONFLUENCE_ORGNAME" = Some v ->
        ORGNAME cfg = v
        /\ forall o, assign_globals w (with_flags (ARGS.username a) (ARGS.apikey a) o a) h
                    = assign_globals w a h)
     /\ (environ w "CONFLUENCE_ORGNAME" = None -> ARGS.orgname a = Some (ORGNAME cfg)))
  /\ (forall ps u k o,
       known_loglevel w (ARGS.loglevel a) = true ->
       Dict.of_pairs [] (ARGS.properties a) = Some ps ->
       path_exists w (ARGS.markdownFile a) = true ->
       supplied w "CONFLUENCE_USERNAME" (ARGS.username a) u ->
       supplied w "CONFLUENCE_API_KEY" (ARGS.apikey a) k ->
       supplied w "CONFLUENCE_ORGNAME" (ARGS.orgname a) o ->
       exists cfg, assign_globals w a h = ([], Ret cfg)
                   /\ USERNAME cfg = u /\ API_KEY cfg = k /\ ORGNAME cfg = o).
Proof.
  split.
  - intros evs cfg H. destruct (assign_globals_Ret _ _ _ _ H) as (Hu & Hk & Ho & _).
    repeat split.
    + rewrite (getenv_set _ _ _ H0) in Hu. congruence.
    + intros u. apply assign_globals_flags; try reflexivity.
      rewrite !(getenv_set _ _ _ H0). reflexivity.
    + intros Hn. rewrite (getenv_unset _ _ Hn) in Hu. exact Hu.
    + rewrite (getenv_set _ _ _ H0) in Hk. congruence.
    + intros k. apply assign_globals_flags; try reflexivity.
      rewrite !(getenv_set _ _ _ H0). reflexivity.
    + intros Hn. rewrite (getenv_unset _ _ Hn) in Hk. exact Hk.
    + rewrite (getenv_set _ _ _ H0) in Ho. congruence.
    + intros o. apply assign_globals_flags; try reflexivity.
      rewrite !(getenv_set _ _ _ H0). reflexivity.
    + intros Hn. rewrite (getenv_unset _ _ Hn) in Ho. exact Ho.
  - intros ps u k o Hl Hp He Hu Hk Ho.
    destruct (assign_globals_returns a h ps u k o Hl Hp) as (cfg & -> & Hcu & Hck & Hco & _);
      try (apply supplied_getenv; assumption); [exact He|].
    exists cfg. auto.
Qed.

(** C9: the no-SSL toggle has no effect on the base URL: whenever the
    start-up yields a configuration its base URL begins with [https://],
    and setting or clearing the toggle leaves the events of the start-up
    and the base URL unchanged. *)
Theorem C9_nossl_has_no_effect a h :
  (forall evs cfg, assign_globals w a h = (evs, Ret cfg) ->
     Py.startswith "https://" (CONFLUENCE_API_URL cfg) = true)
  /\ (forall b, fst (assign_globals w (with_nossl b a) h) = fst (assign_globals w a h)
             /\ url_of (assign_globals w (with_nossl b a) h)
                = url_of (assign_globals w a h)).
Proof.
  split.
  - intros evs cfg H. destruct (assign_globals_Ret _ _ _ _ H) as (_ & _ & _ & -> & _).
    apply base_url_https.
  - intros b. unfold url_of, returned, assign_globals. cbn.
    destruct (negb (known_loglevel w (ARGS.loglevel a))); [auto|].
    destruct (Dict.of_pairs [] (ARGS.properties a)); [|auto].
    destruct (getenv w "CONFLUENCE_USERNAME" (ARGS.username a)); [|auto].
    destruct (getenv w "CONFLUENCE_API_KEY" (ARGS.apikey a)); [|auto].
    destruct (negb (path_exists w (ARGS.markdownFile a))); [auto|].
    destruct (getenv w "CONFLUENCE_ORGNAME" (ARGS.orgname a)); auto.
Qed.

End Startup.

(** ** The patterns *)

Lemma match_lits p r s i opened closed :
  Re.match_here (Re.lits p ++ r) s i opened closed =
  if String.prefix p s
  then Re.match_here r (string_drop (String.length p) s) (i + String.length p) opened closed
  else None.
Proof.
  revert s i. induction p as [|c p IH]; intros s i.
  - rewrite prefix_empty. cbn. rewrite Nat.add_0_r. reflexivity.
  - destruct s as [|d s]; [reflexivity|].
    cbn [Re.lits app Re.match_here String.prefix String.length string_drop].
    destruct (Ascii.eqb_spec c d) as [->|Hne].
    + destruct (ascii_dec d d); [|congruence].
      rewrite IH. replace (S i + String.length p)%nat with (i + S (String.length p))%nat by lia.
      reflexivity.
    + destruct (ascii_dec c d); [congruence | reflexivity].
Qed.

(** A greedy [k*] at the end of a pattern never fails. *)
Lemma match_greedy_tail k s i opened closed :
  is_Some (Re.match_here [Re.Rep false 0 k] s i opened closed).
Proof.
  revert i. induction s as [|d s IH]; intros i.
  - cbn. eauto.
  - specialize (IH (S i)). cbn in *.
    destruct (Re.cclass_ok k d); [|eauto].
    destruct IH as [res ->]. eauto.
Qed.

Lemma match_http_any s i :
  is_Some (Re.match_here Re.http_any s i [] []) <-> String.prefix "http" s = true.
Proof.
  unfold Re.http_any. rewrite match_lits.
  destruct (String.prefix "http" s).
  - split; [reflexivity|]. intros _. apply match_greedy_tail.
  - split; [intros [? [=]] | discriminate].
Qed.

Lemma search_from_http_any subject s i :
  is_Some (Re.search_from Re.http_any subject s i) <-> Py.contains "http" s = true.
Proof.
  revert i. induction s as [|d s IH]; intros i.
  - cbn. split; [intros [? [=]] | discriminate].
  - cbn [Re.search_from Py.contains].
    pose proof (match_http_any (String d s) i) as Hm.
    destruct (Re.match_here Re.http_any (String d s) i [] []) as [[en gs]|].
    + split; [|eauto]. intros _.
      destruct Hm as [Hm _]. rewrite Hm by eauto. reflexivity.
    + destruct (String.prefix "http" (String d s)).
      * destruct Hm as [_ Hm]. destruct (Hm eq_refl) as [? [=]].
      * rewrite orb_false_l. apply IH.
Qed.

(** The guard [re.search('http.*', s)] holds exactly when [http] occurs
    somewhere in [s]. *)
Lemma found_http_any s : Re.found Re.http_any s = Py.contains "http" s.
Proof.
  unfold Re.found, Re.search.
  pose proof (search_from_http_any s s O) as H.
  destruct (Re.search_from Re.http_any s s O), (Py.contains "http" s); try reflexivity.
  - destruct H as [H _]. specialize (H (ex_intro _ _ eq_refl)). discriminate.
  - destruct H as [_ H]. destruct (H eq_refl) as [? [=]].
Qed.

(** ** Attachment uploader *)

Section Uploader.

Variable w : world.
Variable cfg : config.

Lemma remote_guard page_id file comment h :
  Py.contains "http" file = true ->
  upload_attachment w cfg page_id file comment h = ([], Ret false).
Proof.
  intros H. unfold upload_attachment. rewrite found_http_any, H. reflexivity.
Qed.

(** C10: [upload_attachment] returns [False] at once, without a request,
    a file access or a log call, for every path in which [http] occurs
    anywhere, whether or not the path names an existing local file. *)
Theorem C10_http_substring_skips_upload page_id file comment h :
  Py.contains "http" file = true ->
  upload_attachment w cfg page_id file comment h = ([], Ret false).
Proof.
  intros H. unfold upload_attachment. rewrite found_http_any, H. reflexivity.
Qed.

Lemma upload_attachment_missing page_id file comment h :
  Py.contains "http" file = false ->
  path_isfile w file = false ->
  upload_attachment w cfg page_id file comment h =
  ([Log ERROR "File %s cannot be found --> skip " [AStr file]], Ret false).
Proof.
  intros H1 H2. unfold upload_attachment. rewrite found_http_any, H1, H2. reflexivity.
Qed.

(** C8, as amended: an attachment whose path does not contain [http] and
    does not name an existing file makes the uploader log one error and
    return [False] without opening a file or sending a request; the
    attachment list containing it goes on with the attachments after it. *)
Theorem C8_missing_file_logged_and_skipped page_id file comment h :
  Py.contains "http" file = false ->
  path_isfile w file = false ->
  upload_attachment w cfg page_id file comment h =
    ([Log ERROR "File %s cannot be found --> skip " [AStr file]], Ret false)
  /\ forall name rest,
       file = Py.path_join (dirname_abspath w (MARKDOWN_FILE cfg)) name ->
       let skipped := [Log ERROR "File %s cannot be found --> skip " [AStr file]] in
       add_attachments w cfg page_id (Some (name :: rest)) h =
       (skipped ++ fst (add_attachments w cfg page_id (Some rest) (h ++ skipped)),
        snd (add_attachments w cfg page_id (Some rest) (h ++ skipped))).
Proof.
  intros H1 H2. split; [apply upload_attachment_missing; assumption|].
  intros name rest -> skipped. unfold add_attachments.
  cbn [for_each]. rewrite bind_run.
  rewrite bind_run, upload_attachment_missing by assumption.
  reflexivity.
Qed.

End Uploader.

(** ** What the steps of a run issue *)

Section Steps.

Variable w : world.
Variable cfg : config.

Context {X : Type} (f : event -> option X) (Hf : passive f).

Lemma quiet_get_page title : quiet f (get_page w cfg title).
Proof using Hf. unfold get_page. quiet_auto. Qed.

Lemma quiet_get_attachment page_id filename :
  quiet f (get_attachment w cfg page_id filename).
Proof using Hf. unfold get_attachment. quiet_auto. Qed.

Lemma quiet_upload_attachment page_id file comment :
  quiet f (upload_attachment w cfg page_id file comment).
Proof using Hf.
  unfold upload_attachment. quiet_auto. apply quiet_get_attachment.
Qed.

Lemma quiet_add_images page_id html : quiet f (add_images w cfg page_id html).
Proof using Hf.
  unfold add_images. quiet_auto; apply quiet_upload_attachment.
Qed.

Lemma quiet_add_attachments page_id files :
  quiet f (add_attachments w cfg page_id files).
Proof using Hf.
  unfold add_attachments. quiet_auto. apply quiet_upload_attachment.
Qed.

Lemma quiet_add_local_refs page_id title html :
  quiet f (add_local_refs cfg page_id title html).
Proof using Hf.
  unfold add_local_refs. quiet_auto.
  - unfold headers_step. quiet_auto.
  - unfold links_step. quiet_auto.
Qed.

End Steps.

(** ** The update pass *)

Section Update.

Variable w : world.
Variable cfg : config.

Lemma silent_nil : silent [].
Proof. intros X f _. reflexivity. Qed.

Lemma silent_app e1 e2 : silent e1 -> silent e2 -> silent (e1 ++ e2).
Proof. intros H1 H2 X f Hf. rewrite omap_app, H1, H2; auto. Qed.

Lemma silent_quiet {A} (m : M A) h :
  (forall X (f : event -> option X), passive f -> quiet f m) -> silent (fst (m h)).
Proof. intros H X f Hf. apply (H X f Hf). Qed.

Lemma update_page_eq page_id title body version ancestors properties attachments h :
  update_page w cfg page_id title body version ancestors properties attachments h =
  (emit updating_page >>
   let! body := add_images w cfg page_id body in
   add_attachments w cfg page_id attachments >>
   let! body := add_local_refs cfg page_id title body in
   update_submit w cfg page_id title body version ancestors properties) h.
Proof. reflexivity. Qed.

(** [update_page] is its opening log line, the preparation of the body,
    which issues no update, and then [update_submit]; when the preparation
    fails the pass ends there. *)
Lemma update_page_run page_id title body version ancestors properties attachments h :
  let run := update_page w cfg page_id title body version ancestors
               properties attachments h in
  exists pre, silent pre /\
    ((fst run = updating_page :: pre /\ snd run <> Ret tt)
     \/ exists body',
          let sub := update_submit w cfg page_id title body' version ancestors
                       properties (h ++ updating_page :: pre) in
          fst run = updating_page :: pre ++ fst sub /\ snd run = snd sub).
Proof.
  intros run. subst run. rewrite update_page_eq.
  rewrite bind_emit_run. cbn [fst snd].
  set (h1 := h ++ [updating_page]).
  rewrite bind_run.
  pose proof (silent_quiet (add_images w cfg page_id body) h1
                (fun X f Hf => quiet_add_images w cfg f Hf page_id body)) as S1.
  destruct (add_images w cfg page_id body h1) as [e1 [body1|c|x]]; cbn [fst snd] in *;
    [| exists e1; split; [exact S1 | left; cbn; split; [reflexivity | discriminate]] ..].
  rewrite bind_run.
  pose proof (silent_quiet (add_attachments w cfg page_id attachments) (h1 ++ e1)
                (fun X f Hf => quiet_add_attachments w cfg f Hf page_id attachments)) as S2.
  destruct (add_attachments w cfg page_id attachments (h1 ++ e1)) as [e2 [[]|c|x]];
    cbn [fst snd] in *;
    [| exists (e1 ++ e2); split; [apply silent_app; assumption
                                 | left; cbn; split; [reflexivity | discriminate]] ..].
  rewrite bind_run.
  pose proof (silent_quiet (add_local_refs cfg page_id title body1) ((h1 ++ e1) ++ e2)
                (fun X f Hf => quiet_add_local_refs cfg f Hf page_id title body1)) as S3.
  destruct (add_local_refs cfg page_id title body1 ((h1 ++ e1) ++ e2))
    as [e3 [body2|c|x]]; cbn [fst snd] in *.
  - exists (e1 ++ e2 ++ e3). split; [auto using silent_app|].
    right. exists body2. cbn zeta.
    replace (h ++ updating_page :: e1 ++ e2 ++ e3) with (((h1 ++ e1) ++ e2) ++ e3)
      by (subst h1; unfold updating_page; rewrite <- !app_assoc; reflexivity).
    split; [|reflexivity].
    unfold updating_page. rewrite <- ?app_assoc. reflexivity.
  - exists (e1 ++ e2 ++ e3). split; [auto using silent_app|].
    left. cbn. split; [rewrite <- ?app_assoc; reflexivity | discriminate].
  - exists (e1 ++ e2 ++ e3). split; [auto using silent_app|].
    left. cbn. split; [rewrite <- ?app_assoc; reflexivity | discriminate].
Qed.

End Update.

(** ** The requests of the update pass *)

Section Submit.

Variable w : world.
Variable cfg : config.

Lemma prop_updates_app a b : prop_updates (a ++ b) = prop_updates a ++ prop_updates b.
Proof. apply omap_app. Qed.

Lemma prop_updates_log lvl fmt args evs :
  prop_updates (Log lvl fmt args :: evs) = prop_updates evs.
Proof. reflexivity. Qed.

Lemma request_run {A B} v url b (answer : list event -> response A) (k : response A -> M B) h :
  bind (session_request v url b answer) k h =
  (Http v url b :: fst (k (answer h) (h ++ [Http v url b])),
   snd (k (answer h) (h ++ [Http v url b]))).
Proof. rewrite bind_run. reflexivity. Qed.

Lemma raise_for_status_run {A B} (r : response A) (k : unit -> M B) h :
  bind (raise_for_status r) k h =
  if status_ok (status_code r) then k tt h else ([], Raise (HTTPError (status_code r))).
Proof.
  unfold raise_for_status, status_ok.
  destruct (_ && _); cbn [negb]; [reflexivity | apply bind_ret_run].
Qed.

(** Each property of the dictionary is submitted with the version its
    entry carries, in the order of the dictionary; the loop stops at the
    first rejected request. *)
Lemma update_property_updates url kv h :
  prop_updates (fst (update_property w url kv h)) = [(fst kv, pe_version (snd kv))].
Proof.
  destruct kv as [key entry]. unfold update_property. rewrite request_run.
  cbn [fst snd prop_updates omap prop_update pr_key pr_number].
  rewrite raise_for_status_run.
  destruct (status_ok _); [|reflexivity].
  destruct (_ =? 200); reflexivity.
Qed.

Lemma property_loop_updates url properties h :
  exists n,
    prop_updates (fst (for_each properties (update_property w url) h))
    = map (fun kv => (fst kv, pe_version (snd kv))) (take n properties)
    /\ (snd (for_each properties (update_property w url) h) = Ret tt ->
        (length properties <= n)%nat).
Proof.
  revert h. induction properties as [|kv ps IH]; intros h.
  - exists O. split; [reflexivity | intros _; cbn; lia].
  - cbn [for_each]. rewrite bind_run.
    pose proof (update_property_updates url kv h) as Hkv.
    destruct (update_property w url kv h) as [e1 [[]|c|x]]; cbn [fst snd] in *.
    + destruct (IH (h ++ e1)) as (n & Hn & Hlen). exists (S n).
      unfold prop_updates in *. rewrite omap_app, Hkv, Hn. cbn.
      split; [reflexivity | intros Hr; specialize (Hlen Hr); lia].
    + exists 1%nat. rewrite Hkv. cbn. rewrite take_0. split; [reflexivity | discriminate].
    + exists 1%nat. rewrite Hkv. cbn. rewrite take_0. split; [reflexivity | discriminate].
Qed.

Lemma quiet_update_property {X} (f : event -> option X) url kv :
  (forall u b, f (Http Put u (PropJson b)) = None) ->
  (forall lvl fmt args, fmt <> "Updating page..." -> f (Log lvl fmt args) = None) ->
  quiet f (update_property w url kv).
Proof.
  intros Hp Hl. destruct kv as [key entry]. unfold update_property.
  apply quiet_bind; [apply quiet_request, Hp | intros r].
  apply quiet_bind; [apply quiet_raise_for_status | intros _].
  destruct (_ =? 200); [|apply quiet_ret].
  apply quiet_emit, Hl. discriminate.
Qed.

(** What follows the page update request in [update_submit]. *)
Lemma update_submit_run page_id title body version ancestors properties h :
  exists pj tail,
    pj_id pj = page_id /\ pj_number pj = version + 1 /\
    update_submit w cfg page_id title body version ancestors properties h
    = (Http Put (CONFLUENCE_API_URL cfg +:+ "/rest/api/content/" +:+ page_id) (PageJson pj)
         :: tail,
       snd (update_submit w cfg page_id title body version ancestors properties h))
    /\ (forall X (f : event -> option X),
          (forall u b, f (Http Put u (PropJson b)) = None) ->
          (forall lvl fmt args, fmt <> "Updating page..." -> f (Log lvl fmt args) = None) ->
          (forall u, f (Browser u) = None) ->
          omap f tail = [])
    /\ exists n,
         prop_updates tail
         = map (fun kv => (fst kv, pe_version (snd kv))) (take n properties)
         /\ ((forall h u p, status_code (content_update w h u p) = 200) ->
             snd (update_submit w cfg page_id title body version ancestors properties h)
             = Ret tt -> (length properties <= n)%nat).
Proof.
  unfold update_submit. rewrite request_run. cbn [fst snd].
  set (url := CONFLUENCE_API_URL cfg +:+ "/rest/api/content/" +:+ page_id).
  set (pj := Build_page_json _ _ _ _ _ _ _ _).
  set (h1 := h ++ [Http Put url (PageJson pj)]).
  exists pj. eexists. split; [reflexivity|]. split; [reflexivity|].
  split; [reflexivity|].
  split.
  - intros X f Hp Hl Hb.
    assert (Hq : quiet f (raise_for_status (content_update w h url pj) >>
      if status_code (content_update w h url pj) =? 200
      then
        LOGGER_info "Page updated successfully." [] >>
        LOGGER_info "URL: %s" [AStr (CONFLUENCE_API_URL cfg +:+ json (content_update w h url pj))] >>
        (if nonempty properties
         then LOGGER_info "Updating page content properties..." [] >>
              for_each properties (update_property w url)
         else ret tt) >>
        (if GO_TO_PAGE cfg
         then emit (Browser (CONFLUENCE_API_URL cfg +:+ json (content_update w h url pj)))
         else ret tt)
      else LOGGER_error "Page could not be updated." [])).
    { apply quiet_bind; [apply quiet_raise_for_status | intros _].
      destruct (_ =? 200); [|apply quiet_emit, Hl; discriminate].
      apply quiet_bind; [apply quiet_emit, Hl; discriminate | intros _].
      apply quiet_bind; [apply quiet_emit, Hl; discriminate | intros _].
      apply quiet_bind; [| intros _; destruct (GO_TO_PAGE cfg);
                           [apply quiet_emit, Hb | apply quiet_ret]].
      destruct (nonempty properties); [|apply quiet_ret].
      apply quiet_bind; [apply quiet_emit, Hl; discriminate | intros _].
      apply quiet_for_each. intros kv. apply quiet_update_property; assumption. }
    apply (Hq h1).
  - unfold LOGGER_info, LOGGER_error. rewrite raise_for_status_run.
    destruct (status_ok (status_code (content_update w h url pj))) eqn:Hok;
      [| exists O; split; [reflexivity | intros _; discriminate]].
    destruct (status_code (content_update w h url pj) =? 200) eqn:H200.
    + rewrite !bind_emit_run. cbn [fst snd].
      set (h2 := (h1 ++ _) ++ _).
      rewrite bind_run.
      destruct (nonempty properties) eqn:Hne.
      * rewrite bind_emit_run. cbn [fst snd].
        destruct (property_loop_updates
                    url properties (h2 ++ [Log INFO "Updating page content properties..." []]))
          as (n & Hn & Hlen).
        destruct (for_each properties (update_property w url) _) as [e1 [[]|c|x]];
          cbn [fst snd] in *.
        -- exists n. split; [| intros _ _; apply Hlen; reflexivity].
           rewrite !prop_updates_log, prop_updates_app, prop_updates_log, Hn.
           destruct (GO_TO_PAGE cfg); cbn; rewrite app_nil_r; reflexivity.
        -- exists n. split; [exact Hn | intros _; discriminate].
        -- exists n. split; [exact Hn | intros _; discriminate].
      * exists O. destruct properties; [|discriminate].
        split; [| intros _ _; cbn; lia].
        cbn. destruct (GO_TO_PAGE cfg); reflexivity.
    + exists O. split; [reflexivity|].
      intros H. specialize (H h url pj). rewrite H in H200. discriminate.
Qed.

End Submit.

(** ** Dictionaries *)

Lemma dict_set_In {V} (k k' : string) (v e : V) (d : Dict.t V) :
  In (k, e) (Dict.set k' v d) -> (k = k' /\ e = v) \/ In (k, e) d.
Proof.
  induction d as [|[k0 v0] d IH]; cbn.
  - intros [[= -> ->]|[]]. left. auto.
  - destruct (String.eqb_spec k' k0) as [->|Hne]; cbn.
    + intros [[= -> ->]|H]; auto.
    + intros [[= -> ->]|H]; auto. destruct (IH H); auto.
Qed.

Lemma dict_set_key {V} (k : string) (v : V) (d : Dict.t V) :
  exists e, In (k, e) (Dict.set k v d).
Proof.
  induction d as [|[k0 v0] d IH]; cbn.
  - eauto.
  - destruct (String.eqb_spec k k0) as [->|Hne]; cbn; [eauto|].
    destruct IH as [e He]. eauto.
Qed.

Lemma dict_set_keeps {V} (k k' : string) (v e : V) (d : Dict.t V) :
  In (k, e) d -> exists e', In (k, e') (Dict.set k' v d).
Proof.
  induction d as [|[k0 v0] d IH]; cbn; [intros []|].
  destruct (String.eqb_spec k' k0) as [->|Hne]; cbn.
  - intros [[= -> ->]|H]; eauto.
  - intros [[= -> ->]|H]; eauto. destruct (IH H) as [e' He']. eauto.
Qed.

(** A dictionary filled key by key holds, under each key given, an entry
    made for that key, and nothing else. *)
Lemma dict_fill_In {V} (g : string -> V) (ks : list string) (d : Dict.t V) k e :
  In (k, e) (fold_left (fun d k => Dict.set k (g k) d) ks d) ->
  (In k ks /\ e = g k) \/ In (k, e) d.
Proof.
  revert d. induction ks as [|k0 ks IH]; intros d; cbn; [auto|].
  intros H. destruct (IH _ H) as [[Hin ->]|H']; [auto|].
  destruct (dict_set_In _ _ _ _ _ H') as [[-> ->]|]; auto.
Qed.

Lemma dict_fill_keeps {V} (g : string -> V) (ks : list string) (d : Dict.t V) k e :
  In (k, e) d -> exists e', In (k, e') (fold_left (fun d k => Dict.set k (g k) d) ks d).
Proof.
  revert d e. induction ks as [|k0 ks IH]; intros d e; cbn; [eauto|].
  intros H. destruct (dict_set_keeps k k0 (g k0) e d H) as [e' He']. eauto.
Qed.

Lemma dict_fill_key {V} (g : string -> V) (ks : list string) (d : Dict.t V) k :
  In k ks -> exists e, In (k, e) (fold_left (fun d k => Dict.set k (g k) d) ks d).
Proof.
  revert d. induction ks as [|k0 ks IH]; intros d; cbn; [intros []|].
  intros [->|H]; [|auto].
  destruct (dict_set_key k (g k) d) as [e He]. eapply dict_fill_keeps; eauto.
Qed.

Lemma dict_fill_nonempty {V} (g : string -> V) (ks : list string) :
  nonempty (fold_left (fun d k => Dict.set k (g k) d) ks []) = nonempty ks.
Proof.
  destruct ks as [|k ks]; [reflexivity|]. cbn.
  destruct (dict_fill_key g (k :: ks) [] k (or_introl eq_refl)) as [e He].
  cbn in He. destruct (fold_left _ ks _); [destruct He | reflexivity].
Qed.

(** ** The reconciler *)

Section Reconciler.

Variable w : world.
Variable cfg : config.

Lemma main_properties_fill page :
  main_properties cfg page =
  fold_left (fun d k => Dict.set k (main_entry cfg page k) d) (Dict.keys (PROPERTIES cfg)) [].
Proof.
  unfold main_properties. generalize (@nil (string * prop_entry)).
  induction (Dict.keys (PROPERTIES cfg)) as [|k ks IH]; intros d; [reflexivity|].
  cbn [fold_left]. rewrite IH. f_equal. unfold main_entry.
  destruct (PageInfo.properties page !! k); reflexivity.
Qed.

Lemma main_properties_In r k e :
  In (k, e) (main_properties cfg (page_of cfg r)) ->
  In k (Dict.keys (PROPERTIES cfg)) /\ pe_version e = next_property_version r k.
Proof.
  rewrite main_properties_fill. intros H.
  destruct (dict_fill_In _ _ _ _ _ H) as [[Hin ->]|[]]. auto.
Qed.

Lemma main_properties_key r k :
  In k (Dict.keys (PROPERTIES cfg)) ->
  exists e, In (k, e) (main_properties cfg (page_of cfg r)).
Proof. rewrite main_properties_fill. apply dict_fill_key. Qed.

Lemma try_raise_for_status_run {A B} (r : response A) handler (k : unit -> M B) h :
  status_ok (status_code r) = true ->
  bind (try_except (raise_for_status r) is_HTTPError handler) k h = k tt h.
Proof.
  intros H. rewrite bind_run. unfold try_except, raise_for_status.
  unfold status_ok in H. apply negb_true_iff in H. rewrite H. cbn.
  rewrite app_nil_r. destruct (k tt h); reflexivity.
Qed.

Lemma get_page_present title r h :
  exists_remotely w cfg title r ->
  exists evs, get_page w cfg title h = (evs, Ret (Some (page_of cfg r))).
Proof.
  intros H. unfold get_page, LOGGER_info, LOGGER_debug.
  rewrite bind_emit_run, request_run. cbn [fst snd].
  destruct (H (h ++ [Log INFO "\tRetrieving page information: %s" [AStr title]]))
    as [Hok Hhead].
  rewrite try_raise_for_status_run by exact Hok.
  rewrite bind_emit_run. cbn [fst snd].
  destruct (json (content_lookup w _ (lookup_url w cfg title))) as [|r' rs];
    [discriminate|]. injection Hhead as ->.
  rewrite bind_emit_run. cbn. eauto.
Qed.

Lemma get_page_present_run title r h :
  exists_remotely w cfg title r ->
  get_page w cfg title h =
  ([Log INFO "\tRetrieving page information: %s" [AStr title];
    Http Get (lookup_url w cfg title) NoBody;
    Log DEBUG "data: %s" [AObj];
    Log INFO "%s" [AObj]],
   Ret (Some (page_of cfg r))).
Proof.
  intros H. unfold get_page, LOGGER_info, LOGGER_debug.
  rewrite bind_emit_run, request_run. cbn [fst snd].
  destruct (H (h ++ [Log INFO "\tRetrieving page information: %s" [AStr title]]))
    as [Hok Hhead].
  rewrite try_raise_for_status_run by exact Hok.
  rewrite bind_emit_run. cbn [fst snd].
  destruct (json (content_lookup w _ (lookup_url w cfg title))) as [|r' rs];
    [discriminate|]. injection Hhead as ->.
  rewrite bind_emit_run. reflexivity.
Qed.

Lemma get_page_absent title h :
  absent_remotely w cfg title ->
  exists evs, get_page w cfg title h = (evs, Ret None)
              /\ page_creates evs = [] /\ page_deletes evs = [].
Proof.
  intros H. unfold get_page, LOGGER_info, LOGGER_debug.
  rewrite bind_emit_run, request_run. cbn [fst snd].
  destruct (H (h ++ [Log INFO "\tRetrieving page information: %s" [AStr title]]))
    as [Hok Hjson].
  rewrite try_raise_for_status_run by exact Hok.
  rewrite bind_emit_run. cbn [fst snd]. rewrite Hjson. cbn. eauto.
Qed.

Lemma main_eq title html h :
  main w cfg title html h =
  (LOGGER_debug "html: %s" [AStr html] >>
   simulate_stop cfg >>
   LOGGER_info "Checking if Atlas page exists..." [] >>
   let! page := get_page w cfg title in
   delete_stop w cfg page >>
   let! ancestors := main_ancestors w cfg in
   match page with
   | Some p =>
       update_page w cfg (PageInfo.id p) title html (PageInfo.version p)
         ancestors (main_properties cfg p) (ATTACHMENTS cfg)
   | None => create_page w cfg title html ancestors
   end >>
   LOGGER_info "Markdown Converter completed successfully." []) h.
Proof. reflexivity. Qed.

Lemma bind_quiet_case {A B X} (f : event -> option X) (m : M A) (k : A -> M B) h
    (P : list X -> outcome B -> Prop) :
  quiet f m ->
  (forall e1 a, m h = (e1, Ret a) ->
     P (omap f (fst (k a (h ++ e1)))) (snd (k a (h ++ e1)))) ->
  (forall c, P [] (Exit c)) ->
  (forall x, P [] (Raise x)) ->
  P (omap f (fst (bind m k h))) (snd (bind m k h)).
Proof.
  intros Hq HR HE HX. rewrite bind_run. specialize (Hq h).
  destruct (m h) as [e1 [a|c|x]]; cbn [fst snd] in *.
  - rewrite omap_app, Hq. apply HR. reflexivity.
  - rewrite Hq. apply HE.
  - rewrite Hq. apply HX.
Qed.

Lemma quiet_simulate_stop {X} (f : event -> option X) :
  passive f -> quiet f (simulate_stop cfg).
Proof. intros Hf. unfold simulate_stop. quiet_auto. Qed.

Lemma quiet_delete_stop {X} (f : event -> option X) page :
  passive f -> (forall u b, f (Http Delete u b) = None) ->
  quiet f (delete_stop w cfg page).
Proof.
  intros Hf Hd. unfold delete_stop, delete_page. quiet_auto.
  apply quiet_request, Hd.
Qed.

Lemma quiet_main_ancestors {X} (f : event -> option X) :
  passive f -> quiet f (main_ancestors w cfg).
Proof.
  intros Hf. unfold main_ancestors. quiet_auto. apply quiet_get_page, Hf.
Qed.

(** A run on a page that exists either stops before the update pass,
    having issued nothing a passive selector sees, or continues with
    exactly the update pass on that page. *)
Lemma main_present_run {X} (f : event -> option X) title html r h :
  passive f -> (forall u b, f (Http Delete u b) = None) ->
  exists_remotely w cfg title r ->
  let run := main w cfg title html h in
  (omap f (fst run) = [] /\ snd run <> Ret tt)
  \/ exists ancestors h',
       let u := update_page w cfg (r_id r) title html (r_number r) ancestors
                  (main_properties cfg (page_of cfg r)) (ATTACHMENTS cfg) h' in
       omap f (fst run) = omap f (fst u) /\ (snd run = Ret tt <-> snd u = Ret tt).
Proof.
  intros Hf Hd Hr run. subst run. rewrite main_eq.
  set (P := fun (us : list X) (out : outcome unit) =>
    (us = [] /\ out <> Ret tt)
    \/ exists ancestors h',
         let u := update_page w cfg (r_id r) title html (r_number r) ancestors
                    (main_properties cfg (page_of cfg r)) (ATTACHMENTS cfg) h' in
         us = omap f (fst u) /\ (out = Ret tt <-> snd u = Ret tt)).
  assert (HE : forall c, P [] (Exit c)) by (intros c; left; split; [reflexivity|discriminate]).
  assert (HX : forall x, P [] (Raise x)) by (intros x; left; split; [reflexivity|discriminate]).
  apply (bind_quiet_case f _ _ _ P); [apply quiet_emit; quiet_event | | exact HE | exact HX].
  intros e0 [] _.
  apply (bind_quiet_case f _ _ _ P); [apply quiet_simulate_stop, Hf | | exact HE | exact HX].
  intros e1 [] _.
  apply (bind_quiet_case f _ _ _ P); [apply quiet_emit; quiet_event | | exact HE | exact HX].
  intros e2 [] _.
  apply (bind_quiet_case f _ _ _ P); [apply quiet_get_page, Hf | | exact HE | exact HX].
  intros e3 page Hpage.
  destruct (get_page_present title r (((h ++ e0) ++ e1) ++ e2) Hr) as [evs Hg].
  rewrite Hg in Hpage. injection Hpage as _ <-.
  apply (bind_quiet_case f _ _ _ P); [apply quiet_delete_stop; assumption | | exact HE | exact HX].
  intros e4 [] _.
  apply (bind_quiet_case f _ _ _ P); [apply quiet_main_ancestors, Hf | | exact HE | exact HX].
  intros e5 ancestors _.
  right. exists ancestors, ((((((h ++ e0) ++ e1) ++ e2) ++ e3) ++ e4) ++ e5). cbn zeta.
  rewrite bind_run. cbn [page_of PageInfo.id PageInfo.version].
  destruct (update_page _ _ _ _ _ _ _ _ _ _) as [eu [[]|c|x]]; cbn [fst snd].
  - split; [|cbn; tauto]. rewrite omap_app. cbn.
    rewrite (passive_log f Hf) by discriminate. apply app_nil_r.
  - split; [reflexivity | tauto].
  - split; [reflexivity | tauto].
Qed.

Lemma passive_page_update : passive page_update.
Proof. split; reflexivity. Qed.

Lemma passive_prop_update : passive prop_update.
Proof. split; reflexivity. Qed.

(** The update pass issues at most one page update, with the version it
    was given plus one; it issues none only when it fails before. *)
Lemma update_page_page_updates page_id title body version ancestors properties attachments h :
  let u := update_page w cfg page_id title body version ancestors
             properties attachments h in
  (page_updates (fst u) = [] /\ snd u <> Ret tt)
  \/ page_updates (fst u) = [version + 1].
Proof.
  intros u.
  destruct (update_page_run w cfg page_id title body version ancestors
              properties attachments h) as (pre & Hpre & [[Hev Hout]|(body' & Hev & Hout)]);
    fold u in Hev, Hout.
  - left. split; [|exact Hout]. rewrite Hev. unfold page_updates. cbn.
    apply (Hpre _ _ passive_page_update).
  - right. rewrite Hev.
    destruct (update_submit_run w cfg page_id title body' version ancestors properties
                (h ++ updating_page :: pre))
      as (pj & tail & _ & Hnum & -> & Htail & _).
    unfold page_updates. cbn [fst omap]. change (updating_page :: pre ++ ?l)
      with ((updating_page :: pre) ++ l).
    rewrite omap_app. cbn. rewrite (Hpre _ _ passive_page_update). cbn.
    rewrite Hnum, Htail by (intros; reflexivity). reflexivity.
Qed.

(** The property updates of the update pass are those of its dictionary,
    in order, up to the point where the pass stops. *)
Lemma update_page_prop_updates page_id title body version ancestors properties attachments h :
  let u := update_page w cfg page_id title body version ancestors
             properties attachments h in
  exists n,
    prop_updates (fst u)
    = map (fun kv => (fst kv, pe_version (snd kv))) (take n properties)
    /\ ((forall h u p, status_code (content_update w h u p) = 200) ->
        snd u = Ret tt -> (length properties <= n)%nat).
Proof.
  intros u.
  destruct (update_page_run w cfg page_id title body version ancestors
              properties attachments h) as (pre & Hpre & [[Hev Hout]|(body' & Hev & Hout)]);
    fold u in Hev, Hout.
  - exists O. rewrite Hev, take_0. split; [|intros _ Hr; contradiction].
    unfold prop_updates. cbn. apply (Hpre _ _ passive_prop_update).
  - destruct (update_submit_run w cfg page_id title body' version ancestors properties
                (h ++ updating_page :: pre))
      as (pj & tail & _ & _ & Heq & _ & n & Hn & Hlen).
    exists n. rewrite Hev, Hout. split; [|exact Hlen].
    rewrite Heq. cbn [fst]. change (updating_page :: pre ++ ?l)
      with ((updating_page :: pre) ++ l).
    rewrite prop_updates_app. unfold prop_updates at 1. cbn.
    rewrite (Hpre _ _ passive_prop_update). exact Hn.
Qed.

(** C2, as amended: when the page exists remotely with version N, a run
    of [main] that completes has issued exactly one page update, carrying
    N + 1; a run that stops early (delete mode, simulate mode, a missing
    parent page, a failed request or pass) has issued either no page
    update or that same single one. *)
Theorem C2_one_update_with_next_version title html r h :
  exists_remotely w cfg title r ->
  let run := main w cfg title html h in
  (snd run = Ret tt -> page_updates (fst run) = [r_number r + 1])
  /\ (page_updates (fst run) = [] \/ page_updates (fst run) = [r_number r + 1]).
Proof.
  intros Hr run.
  destruct (main_present_run page_update title html r h passive_page_update
              (fun _ _ => eq_refl) Hr) as [[Hev Hout]|(anc & h' & Hev & Hout)];
    fold run in Hev, Hout; fold (page_updates (fst run)) in Hev.
  - split; [intros; contradiction | left; exact Hev].
  - rewrite Hev.
    destruct (update_page_page_updates (r_id r) title html (r_number r) anc
                (main_properties cfg (page_of cfg r)) (ATTACHMENTS cfg) h')
      as [[Hu Hne]|Hu]; fold (page_updates) in *.
    + split; [intros Hret; apply Hout in Hret; contradiction | left; exact Hu].
    + split; [intros _; exact Hu | right; exact Hu].
Qed.

(** C3: when the page exists remotely, every property update call of a
    run carries a configured key and, as its version number, 1 when the
    key is absent from the page's property set and K + 1 when it is there
    with version K, the page version playing no role; and when the run
    completes against a service that answers the page update with 200,
    every configured property has been submitted so. *)
Theorem C3_property_versions title html r h :
  exists_remotely w cfg title r ->
  let run := main w cfg title html h in
  (forall key n, In (key, n) (prop_updates (fst run)) ->
     In key (Dict.keys (PROPERTIES cfg))
     /\ n = match default ∅ (r_properties r) !! key with
            | Some p => rp_number p + 1
            | None => 1
            end)
  /\ ((forall h u p, status_code (content_update w h u p) = 200) ->
      snd run = Ret tt ->
      forall key, In key (Dict.keys (PROPERTIES cfg)) ->
        In (key, next_property_version r key) (prop_updates (fst run))).
Proof.
  intros Hr run.
  destruct (main_present_run prop_update title html r h passive_prop_update
              (fun _ _ => eq_refl) Hr) as [[Hev Hout]|(anc & h' & Hev & Hout)];
    fold run in Hev, Hout; fold (prop_updates (fst run)) in Hev.
  - rewrite Hev. split; [intros key n [] | intros _ Hret; contradiction].
  - rewrite Hev.
    destruct (update_page_prop_updates (r_id r) title html (r_number r) anc
                (main_properties cfg (page_of cfg r)) (ATTACHMENTS cfg) h')
      as (n & Hn & Hlen).
    unfold prop_updates in Hn. rewrite Hn. split.
    + intros key v Hin. apply in_map_iff in Hin as ([k e] & [= <- <-] & Hin).
      apply list_elem_of_In, elem_of_take in Hin as (i & Hi & _).
      apply list_elem_of_lookup_2, list_elem_of_In in Hi.
      apply (main_properties_In r k e Hi).
    + intros H200 Hret key Hkey.
      rewrite take_ge by (apply Hlen; [exact H200 | apply Hout, Hret]).
      destruct (main_properties_key r key Hkey) as [e He].
      apply in_map_iff. exists (key, e). split; [|exact He].
      cbn. f_equal. apply (main_properties_In r key e He).
Qed.

Lemma passive_update_pass : passive update_pass.
Proof.
  split; try reflexivity.
  intros lvl fmt args Hne. cbn.
  destruct lvl, args; try reflexivity.
  destruct (String.eqb_spec fmt "Updating page..."); [contradiction | reflexivity].
Qed.

Lemma passive_page_update_id : passive page_update_id.
Proof. split; reflexivity. Qed.

Lemma passive_put_request : passive put_request.
Proof. split; reflexivity. Qed.

Lemma create_properties_nonempty :
  nonempty (create_properties cfg) = nonempty (PROPERTIES cfg).
Proof.
  unfold create_properties.
  rewrite (dict_fill_nonempty
             (fun key => {| pe_key := key; pe_version := 1;
                            pe_value := default "" (Dict.get key (PROPERTIES cfg)) |})).
  unfold Dict.keys. destruct (PROPERTIES cfg); reflexivity.
Qed.

(** [create_page] when the service answers the create call with 200. *)
Lemma create_page_run title body ancestors h :
  status_code (create_answer w cfg title body ancestors h) = 200 ->
  let data := json (create_answer w cfg title body ancestors h) in
  let created := created_events w cfg title body ancestors h in
  create_page w cfg title body ancestors h =
  if needs_update cfg body then
    let u := update_page w cfg (c_id data) title body (c_number data) ancestors
               (create_properties cfg) (ATTACHMENTS cfg)
               (h ++ created ++ [update_called]) in
    (created ++ update_called :: fst u, snd u)
  else
    (created ++ (if GO_TO_PAGE cfg
                 then [Browser (CONFLUENCE_API_URL cfg +:+ c_webui data)] else []),
     Ret tt).
Proof.
  intros H200 data created. unfold create_page, LOGGER_info, LOGGER_debug.
  rewrite !bind_emit_run. cbn [fst snd]. rewrite request_run. cbn [fst snd].
  rewrite <- !app_assoc. cbn [app].
  fold (create_request cfg title body ancestors).
  fold (create_answer w cfg title body ancestors h).
  rewrite try_raise_for_status_run by (rewrite H200; reflexivity).
  rewrite H200. cbn [Z.eqb Pos.eqb].
  rewrite !bind_emit_run. cbn [fst snd].
  rewrite create_properties_nonempty. fold (needs_update cfg body).
  fold data. rewrite <- !app_assoc. cbn [app].
  destruct (needs_update cfg body).
  - rewrite bind_emit_run. cbn [fst snd]. rewrite <- !app_assoc. reflexivity.
  - destruct (GO_TO_PAGE cfg); reflexivity.
Qed.

(** The update pass logs its opening line once, and addresses its page
    update to the page it was given. *)
Lemma update_page_passes page_id title body version ancestors properties attachments h :
  let u := update_page w cfg page_id title body version ancestors
             properties attachments h in
  update_passes (fst u) = [tt]
  /\ forall i, In i (omap page_update_id (fst u)) -> i = page_id.
Proof.
  intros u.
  destruct (update_page_run w cfg page_id title body version ancestors
              properties attachments h) as (pre & Hpre & [[Hev Hout]|(body' & Hev & Hout)]);
    fold u in Hev, Hout; rewrite Hev; unfold update_passes.
  - cbn. rewrite (Hpre _ _ passive_update_pass), (Hpre _ _ passive_page_update_id).
    split; [reflexivity | intros i []].
  - destruct (update_submit_run w cfg page_id title body' version ancestors properties
                (h ++ updating_page :: pre))
      as (pj & tail & Hid & _ & -> & Htail & _).
    cbn [fst]. change (updating_page :: pre ++ ?l) with ((updating_page :: pre) ++ l).
    rewrite !omap_app. cbn.
    rewrite (Hpre _ _ passive_update_pass), (Hpre _ _ passive_page_update_id). cbn.
    rewrite (Htail _ update_pass), (Htail _ page_update_id), Hid;
      try (intros; reflexivity).
    + split; [reflexivity | intros i [<-|[]]; reflexivity].
    + intros lvl fmt args Hne. apply (passive_log _ passive_update_pass), Hne.
Qed.

(** The page update of the update pass: either the pass sends exactly
    one, to the page it was given and with the next version number, or it
    sends no [PUT] request at all, and then it has not returned. *)
Lemma update_page_put page_id title body version ancestors properties attachments h :
  let u := update_page w cfg page_id title body version ancestors
             properties attachments h in
  (omap page_update_id (fst u) = [page_id] /\ page_updates (fst u) = [version + 1])
  \/ (omap put_request (fst u) = [] /\ snd u <> Ret tt).
Proof.
  intros u.
  destruct (update_page_run w cfg page_id title body version ancestors
              properties attachments h) as (pre & Hpre & [[Hev Hout]|(body' & Hev & Hout)]);
    fold u in Hev, Hout; rewrite Hev.
  - right. split; [|exact Hout]. cbn. apply (Hpre _ _ passive_put_request).
  - left.
    destruct (update_submit_run w cfg page_id title body' version ancestors properties
                (h ++ updating_page :: pre))
      as (pj & tail & Hid & Hnum & -> & Htail & _).
    cbn [fst]. change (updating_page :: pre ++ ?l) with ((updating_page :: pre) ++ l).
    unfold page_updates. rewrite !omap_app. cbn.
    rewrite (Hpre _ _ passive_page_update_id), (Hpre _ _ passive_page_update). cbn.
    rewrite (Htail _ page_update_id), (Htail _ page_update), Hid, Hnum;
      try (intros; reflexivity).
    split; reflexivity.
Qed.

(** C6: after a create call answered with 200, when the body holds an
    image tag or a local anchor link, or properties, attachments or labels
    are configured, [create_page] goes on with exactly one update pass on
    the page id and version of the answer: the pass is entered once, and
    it sends exactly one page update, addressed to the new page and
    carrying its version plus one, unless it fails before, in which case
    no [PUT] is sent and [create_page] does not return.  Otherwise
    [create_page] issues no update pass and no [PUT] request at all and
    returns. *)
Theorem C6_update_pass_after_create title body ancestors h :
  status_code (create_answer w cfg title body ancestors h) = 200 ->
  let run := create_page w cfg title body ancestors h in
  let data := json (create_answer w cfg title body ancestors h) in
  let created := created_events w cfg title body ancestors h in
  if Re.found Re.img_tag body || Re.found Re.local_link_groups body
     || nonempty (PROPERTIES cfg) || truthy (ATTACHMENTS cfg) || nonempty (LABELS cfg)
  then
    (let u := update_page w cfg (c_id data) title body (c_number data) ancestors
                (create_properties cfg) (ATTACHMENTS cfg)
                (h ++ created ++ [update_called]) in
     run = (created ++ update_called :: fst u, snd u))
    /\ update_passes (fst run) = [tt]
    /\ (forall i, In i (omap page_update_id (fst run)) -> i = c_id data)
    /\ ((omap page_update_id (fst run) = [c_id data]
         /\ page_updates (fst run) = [c_number data + 1])
        \/ (omap put_request (fst run) = [] /\ snd run <> Ret tt))
  else
    update_passes (fst run) = []
    /\ omap put_request (fst run) = []
    /\ snd run = Ret tt.
Proof.
  intros H200 run data created. subst run.
  rewrite (create_page_run title body ancestors h H200).
  fold (needs_update cfg body). fold data. fold created.
  destruct (needs_update cfg body); cbn zeta.
  - split; [reflexivity|]. cbn [fst snd].
    destruct (update_page_passes (c_id data) title body (c_number data) ancestors
                (create_properties cfg) (ATTACHMENTS cfg)
                (h ++ created ++ [update_called])) as [Hp Hi].
    pose proof (update_page_put (c_id data) title body (c_number data) ancestors
                  (create_properties cfg) (ATTACHMENTS cfg)
                  (h ++ created ++ [update_called])) as Hput.
    cbv zeta in Hput.
    change (created ++ update_called :: ?l) with (created ++ [update_called] ++ l).
    unfold update_passes, page_updates in *. rewrite !omap_app, Hp.
    split; [reflexivity|]. split; [intros i Hin; apply Hi; exact Hin|].
    exact Hput.
  - cbn [fst snd]. unfold update_passes. rewrite !omap_app.
    destruct (GO_TO_PAGE cfg); repeat split; reflexivity.
Qed.

Lemma passive_page_create : passive page_create.
Proof. split; reflexivity. Qed.

Lemma passive_page_delete : passive page_delete.
Proof. split; reflexivity. Qed.

Lemma quiet_update_page {X} (f : event -> option X)
    page_id title body version ancestors properties attachments :
  passive f -> (forall u b, f (Http Put u b) = None) -> f updating_page = None ->
  quiet f (update_page w cfg page_id title body version ancestors
             properties attachments).
Proof.
  intros Hf Hp Hu. unfold update_page.
  apply quiet_bind; [apply quiet_emit, Hu | intros _].
  apply quiet_bind; [apply quiet_add_images, Hf | intros body1].
  apply quiet_bind; [apply quiet_add_attachments, Hf | intros _].
  apply quiet_bind; [apply quiet_add_local_refs, Hf | intros body2].
  apply quiet_bind; [apply quiet_request, Hp | intros r].
  quiet_auto. apply quiet_request, Hp.
Qed.

(** In delete mode a page that exists is deleted and the run ends there:
    one delete call, no create, no update, and no normal completion. *)
Lemma delete_of_present_page title html r h :
  DELETE cfg = true -> SIMULATE cfg = false ->
  exists_remotely w cfg title r ->
  let run := main w cfg title html h in
  page_deletes (fst run) = [CONFLUENCE_API_URL cfg +:+ "/rest/api/content/" +:+ r_id r]
  /\ page_creates (fst run) = []
  /\ page_updates (fst run) = []
  /\ (snd run = Exit 1 \/ exists status, snd run = Raise (HTTPError status)).
Proof.
  intros HD HS Hr run. subst run. rewrite main_eq.
  unfold LOGGER_debug, LOGGER_info, simulate_stop. rewrite HS.
  rewrite bind_emit_run, bind_ret_run, bind_emit_run. cbn [fst snd].
  set (h0 := (h ++ _) ++ _).
  rewrite bind_run. destruct (get_page_present title r h0 Hr) as [evs Hg].
  pose proof (quiet_get_page w cfg page_delete passive_page_delete title h0) as Q1.
  pose proof (quiet_get_page w cfg page_create passive_page_create title h0) as Q2.
  pose proof (quiet_get_page w cfg page_update passive_page_update title h0) as Q3.
  rewrite Hg in *. cbn [fst snd] in *.
  unfold delete_stop. rewrite HD. cbn [page_of PageInfo.id].
  unfold delete_page, LOGGER_info, LOGGER_error.
  rewrite !bind_run. cbn [emit fst snd]. rewrite request_run. cbn [fst snd].
  rewrite raise_for_status_run.
  unfold page_deletes, page_creates, page_updates.
  destruct (status_ok _); [destruct (_ =? 204)|]; cbn [emit fst snd app];
    change (?a :: ?b :: evs ++ ?l) with ([a; b] ++ evs ++ l);
    rewrite !omap_app, Q1, Q2, Q3; cbn; eauto 6.
Qed.

(** C1, the case the program misses: in delete mode, when no page with
    the title exists, the run does not stop; it goes on to create the
    page. *)
Theorem C1_delete_of_absent_page_creates title html h :
  DELETE cfg = true -> SIMULATE cfg = false -> ANCESTOR cfg = None ->
  absent_remotely w cfg title ->
  let run := main w cfg title html h in
  page_deletes (fst run) = []
  /\ exists more, page_creates (fst run) = create_request cfg title html [] :: more.
Proof.
  intros HD HS HA Hr run. subst run. rewrite main_eq.
  unfold LOGGER_debug, LOGGER_info, simulate_stop. rewrite HS.
  rewrite bind_emit_run, bind_ret_run, bind_emit_run. cbn [fst snd].
  set (h0 := (h ++ _) ++ _).
  rewrite bind_run. destruct (get_page_absent title h0 Hr) as (evs & Hg & Hc & Hd).
  rewrite Hg. cbn [fst snd delete_stop].
  rewrite bind_ret_run. unfold main_ancestors. rewrite HA, bind_ret_run.
  rewrite bind_run.
  assert (Hq : quiet page_delete (create_page w cfg title html [])).
  { unfold create_page. quiet_auto. apply quiet_update_page;
      [apply passive_page_delete | reflexivity | reflexivity]. }
  specialize (Hq (h0 ++ evs)).
  assert (Hcr : exists tail,
    fst (create_page w cfg title html [] (h0 ++ evs))
    = [Log INFO "Creating page..." []; Log DEBUG "data: %s" [AObj];
       Http Post (CONFLUENCE_API_URL cfg +:+ "/rest/api/content/")
         (NewPage (create_request cfg title html []))] ++ tail).
  { unfold create_page, LOGGER_info, LOGGER_debug.
    rewrite !bind_emit_run. cbn [fst snd]. rewrite request_run. cbn [fst snd].
    eexists. reflexivity. }
  destruct Hcr as [tail Ht].
  destruct (create_page w cfg title html [] (h0 ++ evs)) as [ec [[]|c|x]];
    cbn [fst snd emit] in *; subst ec;
    rewrite omap_app in Hq; change (omap page_delete tail = []) in Hq;
    unfold page_deletes, page_creates in *;
    change (?a :: ?b :: evs ++ ?l) with ([a; b] ++ evs ++ l);
    rewrite ?omap_app, ?Hq, ?Hc, ?Hd; cbn; eauto.
Qed.

End Reconciler.

(** ** Local references *)

Section Local_references.

Variable cfg : config.

(** The call of [slug] ends the body of the heading loop at once,
    whatever the heading and the state of the two dictionaries. *)
Lemma headers_step_run ref_prefix ref_postfix st header h :
  headers_step cfg ref_prefix ref_postfix st header h = ([], Raise (NameError "slug")).
Proof. destruct st as [headers_map headers_count]. reflexivity. Qed.

Lemma headers_loop_run ref_prefix ref_postfix headers st h :
  headers <> [] ->
  for_fold headers st (headers_step cfg ref_prefix ref_postfix) h
  = ([], Raise (NameError "slug")).
Proof.
  destruct headers as [|header headers]; [contradiction|]. intros _.
  cbn [for_fold]. rewrite bind_run, headers_step_run. reflexivity.
Qed.

(** The local reference pass under the bitbucket dialect: a document
    without headings comes back as it is, and a heading ends the pass. *)
Lemma add_local_refs_run page_id title html h :
  MARKDOWN_SOURCE cfg = "bitbucket" ->
  add_local_refs cfg page_id title html h =
  ([Log INFO "Converting confluence local links..." []],
   match Re.findall 1 Re.heading html with
   | [] => Ret html
   | _ :: _ => Raise (NameError "slug")
   end).
Proof.
  intros Hsrc. unfold add_local_refs, ref_prefixes, ref_postfixes. rewrite Hsrc.
  cbn [lookup]. rewrite !lookup_singleton_eq.
  unfold LOGGER_info. rewrite bind_emit_run. cbn [fst snd].
  destruct (Re.findall 1 Re.heading html) as [|header headers]; [reflexivity|].
  cbn [nonempty]. rewrite bind_run, headers_loop_run by discriminate. reflexivity.
Qed.

(** With another markdown source the pass only logs its warning. *)
Lemma add_local_refs_other_source page_id title html h :
  MARKDOWN_SOURCE cfg <> "bitbucket" ->
  exists warning,
    add_local_refs cfg page_id title html h = ([Log WARNING warning []], Ret html).
Proof.
  intros Hsrc. unfold add_local_refs, ref_prefixes.
  rewrite lookup_singleton_ne by (intros He; apply Hsrc; symmetry; exact He).
  eexists. reflexivity.
Qed.

(** C4, where the program fails: [add_local_refs] computes the anchor
    key of a heading with [slug], a name [md2conf.py] never binds.  Under
    the bitbucket dialect the heading loop therefore ends with
    [NameError] at the first heading, before any key is entered in the
    mapping, and so does the pass: no heading gets an anchor key, and a
    second heading [Setup] gets no suffixed key either. *)
Theorem C4_heading_keys_never_assigned page_id title html h :
  MARKDOWN_SOURCE cfg = "bitbucket" ->
  Re.findall 1 Re.heading html <> [] ->
  (forall st h',
     for_fold (Re.findall 1 Re.heading html) st
       (headers_step cfg "#markdown-header-" "_%d") h'
     = ([], Raise (NameError "slug")))
  /\ add_local_refs cfg page_id title html h =
     ([Log INFO "Converting confluence local links..." []], Raise (NameError "slug")).
Proof.
  intros Hsrc Hh. split.
  - intros st h'. apply headers_loop_run, Hh.
  - rewrite add_local_refs_run by exact Hsrc.
    destruct (Re.findall 1 Re.heading html); [contradiction | reflexivity].
Qed.


End Local_references.

(** * The properties on the sample runs *)

Import Runs.

Lemma present_exists : exists_remotely present_world present_config "Setup guide" Sample.page.
Proof. intros h. split; reflexivity. Qed.

Lemma present_exists_delete :
  exists_remotely present_world delete_config "Setup guide" Sample.page.
Proof. intros h. split; reflexivity. Qed.

Lemma absent_absent : absent_remotely absent_world delete_config "Setup guide".
Proof. intros h. split; reflexivity. Qed.

(** A run on the existing page: one page update with version 8, then the
    two properties, [owner] at 4 (it was at 3) and [team] at 1. *)
Example run_on_present_page :
  let run := main present_world present_config "Setup guide"
               (Sample.html "<p>hello</p>") [] in
  page_updates (fst run) = [8]
  /\ prop_updates (fst run) = [("owner", 4); ("team", 1)]
  /\ snd run = Ret tt.
Proof. vm_compute. auto. Qed.

(** The failing input of C1: delete mode, no page: the page is created. *)
Lemma C1_delete_of_absent_page_creates_witness :
  DELETE delete_config = true /\ SIMULATE delete_config = false
  /\ ANCESTOR delete_config = None
  /\ absent_remotely absent_world delete_config "Setup guide"
  /\ let run := main absent_world delete_config "Setup guide"
                  (Sample.html "<p>hello</p>") [] in
     page_deletes (fst run) = []
     /\ exists more, page_creates (fst run)
                     = create_request delete_config "Setup guide"
                         (Sample.html "<p>hello</p>") [] :: more.
Proof.
  split; [reflexivity|]. split; [reflexivity|]. split; [reflexivity|].
  split; [exact absent_absent|].
  apply (C1_delete_of_absent_page_creates absent_world delete_config);
    [reflexivity | reflexivity | reflexivity | exact absent_absent].
Defined.

(** C2 as stated fails in delete mode: the page exists with version 7 and
    the run issues no page update. *)
Lemma C2_counterexample_delete_mode :
  exists_remotely present_world delete_config "Setup guide" Sample.page
  /\ page_updates (fst (main present_world delete_config "Setup guide"
                          (Sample.html "<p>hello</p>") [])) = [].
Proof. split; [exact present_exists_delete | vm_compute; reflexivity]. Qed.

Lemma C2_one_update_with_next_version_witness :
  exists_remotely present_world present_config "Setup guide" Sample.page
  /\ let run := main present_world present_config "Setup guide"
                  (Sample.html "<p>hello</p>") [] in
     (snd run = Ret tt -> page_updates (fst run) = [7 + 1])
     /\ (page_updates (fst run) = [] \/ page_updates (fst run) = [7 + 1]).
Proof.
  split; [exact present_exists|].
  apply (C2_one_update_with_next_version present_world present_config
           "Setup guide" (Sample.html "<p>hello</p>") Sample.page []).
  exact present_exists.
Defined.

Lemma C3_property_versions_witness :
  exists_remotely present_world present_config "Setup guide" Sample.page
  /\ let run := main present_world present_config "Setup guide"
                  (Sample.html "<p>hello</p>") [] in
     (forall key n, In (key, n) (prop_updates (fst run)) ->
        In key (Dict.keys (PROPERTIES present_config))
        /\ n = match default ∅ (r_properties Sample.page) !! key with
               | Some p => rp_number p + 1
               | None => 1
               end)
     /\ ((forall h u p, status_code (content_update present_world h u p) = 200) ->
         snd run = Ret tt ->
         forall key, In key (Dict.keys (PROPERTIES present_config)) ->
           In (key, next_property_version Sample.page key) (prop_updates (fst run))).
Proof.
  split; [exact present_exists|].
  apply (C3_property_versions present_world present_config
           "Setup guide" (Sample.html "<p>hello</p>") Sample.page []).
  exact present_exists.
Defined.

(** The two [Setup] headings: the pass ends at the first of them. *)
Lemma C4_heading_keys_never_assigned_witness :
  MARKDOWN_SOURCE plain_config = "bitbucket"
  /\ Re.findall 1 Re.heading two_setups = ["Setup"; "Setup"]
  /\ for_fold ["Setup"; "Setup"] (∅, ∅)
       (headers_step plain_config "#markdown-header-" "_%d") []
     = ([], Raise (NameError "slug"))
  /\ add_local_refs plain_config "4711" "Guide" two_setups [] =
     ([Log INFO "Converting confluence local links..." []], Raise (NameError "slug")).
Proof.
  assert (Hh : Re.findall 1 Re.heading two_setups = ["Setup"; "Setup"])
    by (vm_compute; reflexivity).
  split; [reflexivity|]. split; [exact Hh|].
  destruct (C4_heading_keys_never_assigned plain_config "4711" "Guide" two_setups []
              eq_refl) as [Hloop Hrun].
  - rewrite Hh. discriminate.
  - split; [|exact Hrun]. rewrite <- Hh. apply Hloop.
Defined.



(** A create on the sample service for a body with an image: the update
    pass follows, and its page update goes to the new page. *)
Example create_with_image :
  let run := create_page absent_world plain_config "Setup guide"
               (Sample.html "<p><img alt='a' src='img.png' /></p>") [] [] in
  update_passes (fst run) = [tt]
  /\ omap page_update_id (fst run) = ["4712"]
  /\ page_updates (fst run) = [2].
Proof. vm_compute. auto. Qed.

(** A body with an image is updated once after the create, at version 2
    of the new page; a plain body is not updated. *)
Lemma C6_update_pass_after_create_witness :
  status_code (create_answer absent_world plain_config "Setup guide" with_image [] []) = 200
  /\ Re.found Re.img_tag with_image = true
  /\ (let run := create_page absent_world plain_config "Setup guide" with_image [] [] in
      update_passes (fst run) = [tt]
      /\ omap page_update_id (fst run) = ["4712"]
      /\ page_updates (fst run) = [2]
      /\ snd run = Ret tt)
  /\ status_code (create_answer absent_world plain_config "Setup guide"
                    (Sample.html "<p>hello</p>") [] []) = 200
  /\ (let run := create_page absent_world plain_config "Setup guide"
                   (Sample.html "<p>hello</p>") [] [] in
      update_passes (fst run) = []
      /\ omap put_request (fst run) = []
      /\ snd run = Ret tt).
Proof.
  split; [reflexivity|]. split; [vm_compute; reflexivity|]. split; [|split; [reflexivity|]].
  - pose proof (C6_update_pass_after_create absent_world plain_config
                  "Setup guide" with_image [] [] eq_refl) as H.
    cbv zeta in H.
    assert (Hc : Re.found Re.img_tag with_image || Re.found Re.local_link_groups with_image
                 || nonempty (PROPERTIES plain_config) || truthy (ATTACHMENTS plain_config)
                 || nonempty (LABELS plain_config) = true) by (vm_compute; reflexivity).
    rewrite Hc in H. destruct H as (_ & Hp & _ & [[Hid Hv]|[_ Hn]]).
    + cbv zeta. split; [exact Hp|]. split; [exact Hid|]. split; [exact Hv|].
      vm_compute. reflexivity.
    + exfalso. apply Hn. vm_compute. reflexivity.
  - apply (C6_update_pass_after_create absent_world plain_config
             "Setup guide" (Sample.html "<p>hello</p>") [] []).
    reflexivity.
Defined.

Lemma C7_environment_before_flag_witness :
  environ keys_world "CONFLUENCE_USERNAME" = None
  /\ ARGS.username Sample.command_line = Some "bob"
  /\ environ keys_world "CONFLUENCE_API_KEY" = Some "s3cret"
  /\ ARGS.apikey Sample.command_line = Some "other"
  /\ environ keys_world "CONFLUENCE_ORGNAME" = Some "acme"
  /\ ARGS.orgname Sample.command_line = Some "wiki.example.org"
  /\ (exists cfg, assign_globals keys_world Sample.command_line [] = ([], Ret cfg)
                  /\ USERNAME cfg = "bob" /\ API_KEY cfg = "s3cret" /\ ORGNAME cfg = "acme")
  /\ (forall k, assign_globals keys_world
                  (with_flags (Some "bob") k (Some "wiki.example.org") Sample.command_line) []
                = assign_globals keys_world Sample.command_line []).
Proof.
  destruct (C7_environment_before_flag keys_world Sample.command_line []) as [Hset Hrun].
  destruct (Hrun [("owner", "alice")] "bob" "s3cret" "acme") as (cfg & Hcfg & Hu & Hk & Ho);
    try reflexivity;
    [right; split; reflexivity | left; reflexivity | left; reflexivity |].
  repeat (split; [reflexivity|]).
  split; [exists cfg; auto|].
  destruct (Hset [] cfg Hcfg) as (_ & _ & Hkey & _).
  apply (Hkey "s3cret"). reflexivity.
Defined.

(** With the variables unset, the same command line runs on its flags. *)
Example flags_without_environment :
  exists cfg, assign_globals absent_world Sample.command_line [] = ([], Ret cfg)
              /\ USERNAME cfg = "bob" /\ API_KEY cfg = "other"
              /\ ORGNAME cfg = "wiki.example.org"
              /\ CONFLUENCE_API_URL cfg = "https://wiki.example.org".
Proof. eexists. split; [vm_compute; reflexivity|]. repeat split. Qed.

Lemma C9_nossl_has_no_effect_witness :
  assign_globals env_world Sample.command_line [] = ([], Ret env_config)
  /\ ARGS.nossl Sample.command_line = true
  /\ Py.startswith "https://" (CONFLUENCE_API_URL env_config) = true
  /\ url_of (assign_globals env_world (with_nossl false Sample.command_line) [])
     = url_of (assign_globals env_world Sample.command_line []).
Proof.
  assert (H : assign_globals env_world Sample.command_line [] = ([], Ret env_config))
    by (vm_compute; reflexivity).
  split; [exact H|]. split; [reflexivity|].
  destruct (C9_nossl_has_no_effect env_world Sample.command_line []) as [Hs Hb].
  split; [apply (Hs [] env_config H) | apply (Hb false)].
Defined.

(** C8 as stated fails for a missing file whose path contains [http]:
    nothing is logged. *)
Lemma C8_counterexample_http_in_path :
  path_isfile absent_world "/docs/http/missing.png" = false
  /\ upload_attachment absent_world plain_config "4711" "/docs/http/missing.png" "" []
     = ([], Ret false)
  /\ ~ logs_error (fst (upload_attachment absent_world plain_config "4711"
                          "/docs/http/missing.png" "" [])).
Proof.
  split; [reflexivity|]. split; [vm_compute; reflexivity|].
  intros (fmt & args & []).
Qed.

Lemma C8_missing_file_logged_and_skipped_witness :
  Py.contains "http" "/docs/missing.png" = false
  /\ path_isfile absent_world "/docs/missing.png" = false
  /\ upload_attachment absent_world plain_config "4711" "/docs/missing.png" "" []
     = ([Log ERROR "File %s cannot be found --> skip " [AStr "/docs/missing.png"]],
        Ret false).
Proof.
  split; [reflexivity|]. split; [reflexivity|].
  apply (C8_missing_file_logged_and_skipped absent_world plain_config "4711"
           "/docs/missing.png" "" []); reflexivity.
Defined.

(** A list of attachments with a missing file in the middle: the file is
    skipped with an error line and the others are uploaded. *)
Example attachments_go_on_after_missing_file :
  let w := Sample.service Sample.no_env
             (fun p => negb (String.eqb p "/docs/missing.png")) [] in
  let run := add_attachments w plain_config "4711"
               (Some ["a.png"; "missing.png"; "b.png"]) [] in
  omap (fun e => match e with
                 | Http Post _ (Files u) => Some (fu_filename u)
                 | Log ERROR _ [AStr p] => Some p
                 | _ => None
                 end) (fst run)
  = ["a.png"; "/docs/missing.png"; "b.png"]
  /\ snd run = Ret tt.
Proof. vm_compute. auto. Qed.

Lemma C10_http_substring_skips_upload_witness :
  Py.contains "http" "/docs/http-notes/diagram.png" = true
  /\ path_isfile files_world "/docs/http-notes/diagram.png" = true
  /\ upload_attachment files_world plain_config "4711"
       "/docs/http-notes/diagram.png" "" [] = ([], Ret false).
Proof.
  split; [reflexivity|]. split; [reflexivity|].
  apply (C10_http_substring_skips_upload files_world plain_config "4711"
           "/docs/http-notes/diagram.png" "" []).
  reflexivity.
Defined.

(** * Further properties *)

(** ** Start-up *)

Section Startup_outcomes.

Variable w : world.

Lemma of_pairs_wellformed acc pairs :
  is_Some (Dict.of_pairs acc pairs) <-> Forall (fun p => length p = 2%nat) pairs.
Proof.
  revert acc. induction pairs as [|p pairs IH]; intros acc.
  - cbn. split; [constructor | eauto].
  - destruct p as [|k [|v [|x p]]]; cbn;
      try (split; [intros [? [=]] | intros H; inversion H; discriminate]).
    rewrite IH. split; [intros H; constructor; [reflexivity | exact H]
                       | intros H; inversion H; assumption].
Qed.

Lemma length_split_chr_aux c cur s :
  length (Py.split_chr_aux c cur s) = S (count_chr c s).
Proof.
  revert cur. induction s as [|d s IH]; intros cur; [reflexivity|].
  cbn. destruct (Ascii.eqb d c); cbn; rewrite IH; reflexivity.
Qed.

Lemma length_property_type kv : length (property_type kv) = S (count_chr "=" kv).
Proof. apply length_split_chr_aux. Qed.

Lemma startup_outcome a h :
  let r := assign_globals w a h in
  (returns (snd r) <->
     known_loglevel w (ARGS.loglevel a) = true
     /\ Forall (fun p => length p = 2%nat) (ARGS.properties a)
     /\ is_Some (getenv w "CONFLUENCE_USERNAME" (ARGS.username a))
     /\ is_Some (getenv w "CONFLUENCE_API_KEY" (ARGS.apikey a))
     /\ path_exists w (ARGS.markdownFile a) = true
     /\ is_Some (getenv w "CONFLUENCE_ORGNAME" (ARGS.orgname a)))
  /\ (returns (snd r) -> fst r = [])
  /\ (~ returns (snd r) -> snd r = Exit 1 /\ logs_error (fst r))
  /\ omap request_of (fst r) = [].
Proof.
  intros r. subst r. unfold assign_globals.
  pose proof (of_pairs_wellformed [] (ARGS.properties a)) as Hp.
  destruct (known_loglevel w (ARGS.loglevel a)); cbn [negb];
    [| cbn; unfold logs_error; cbn; intuition (try discriminate; eauto)].
  destruct (Dict.of_pairs [] (ARGS.properties a)) as [ps|];
    [| cbn; unfold logs_error; cbn; split;
       [split; [intros [] | intros (_ & H & _); apply Hp in H; destruct H; discriminate]
       | intuition eauto]].
  assert (Hps : Forall (fun p => length p = 2%nat) (ARGS.properties a))
    by (apply Hp; eauto).
  destruct (getenv w "CONFLUENCE_USERNAME" (ARGS.username a)) as [u|];
    [| cbn; unfold logs_error; cbn; split;
       [split; [intros [] | intros (_ & _ & [? [=]] & _)] | intuition eauto]].
  destruct (getenv w "CONFLUENCE_API_KEY" (ARGS.apikey a)) as [k|];
    [| cbn; unfold logs_error; cbn; split;
       [split; [intros [] | intros (_ & _ & _ & [? [=]] & _)] | intuition eauto]].
  destruct (path_exists w (ARGS.markdownFile a)); cbn [negb];
    [| cbn; unfold logs_error; cbn; split;
       [split; [intros [] | intros (_ & _ & _ & _ & [=] & _)] | intuition eauto]].
  destruct (getenv w "CONFLUENCE_ORGNAME" (ARGS.orgname a)) as [o|];
    [| cbn; unfold logs_error; cbn; split;
       [split; [intros [] | intros (_ & _ & _ & _ & _ & [? [=]])] | intuition eauto]].
  cbn. intuition eauto.
Qed.

(** X1: the start-up either yields a configuration, without a log line,
    or logs an error and exits with status 1; it sends no request and
    never ends in an uncaught exception.  It yields a configuration
    exactly when the log level is known, every property has two parts,
    user name, API key and organisation are available from the
    environment or the command line, and the markdown file exists. *)
Theorem X1_startup_outcome a h :
  let r := assign_globals w a h in
  (returns (snd r) <->
     known_loglevel w (ARGS.loglevel a) = true
     /\ Forall (fun p => length p = 2%nat) (ARGS.properties a)
     /\ is_Some (getenv w "CONFLUENCE_USERNAME" (ARGS.username a))
     /\ is_Some (getenv w "CONFLUENCE_API_KEY" (ARGS.apikey a))
     /\ path_exists w (ARGS.markdownFile a) = true
     /\ is_Some (getenv w "CONFLUENCE_ORGNAME" (ARGS.orgname a)))
  /\ (returns (snd r) -> fst r = [])
  /\ (~ returns (snd r) -> snd r = Exit 1 /\ logs_error (fst r))
  /\ omap request_of (fst r) = [].
Proof. exact (startup_outcome a h). Qed.

(** X2: a [--property] value that does not contain exactly one [=] makes
    the start-up stop with exit status 1: [kv.split("=")] then has one
    part or more than two, and [dict] rejects it. *)
Theorem X2_malformed_property_exits a h raws kv :
  ARGS.properties a = map property_type raws ->
  In kv raws -> count_chr "=" kv <> 1%nat ->
  snd (assign_globals w a h) = Exit 1.
Proof.
  intros Hraw Hin Hcount.
  destruct (startup_outcome a h) as (Hiff & _ & Hexit & _).
  apply Hexit. intros Hret. apply Hiff in Hret as (_ & Hall & _).
  rewrite Hraw, List.Forall_forall in Hall.
  specialize (Hall (property_type kv) (in_map _ _ _ Hin)).
  rewrite length_property_type in Hall. lia.
Qed.

End Startup_outcomes.

(** ** Title and body *)

Lemma append_assoc a b c : (a +:+ b) +:+ c = a +:+ (b +:+ c).
Proof.
  induction a as [|x a IH]; [reflexivity|].
  change (String x ((a +:+ b) +:+ c) = String x (a +:+ (b +:+ c))).
  rewrite IH. reflexivity.
Qed.

Lemma split_chr_aux_nonempty c cur s : Py.split_chr_aux c cur s <> [].
Proof.
  intros H. apply (f_equal (@length string)) in H.
  rewrite length_split_chr_aux in H. discriminate.
Qed.

Lemma concat_cons sep x l :
  l <> [] -> String.concat sep (x :: l) = x +:+ sep +:+ String.concat sep l.
Proof. destruct l; [contradiction | reflexivity]. Qed.

(** Splitting at a character and joining with it gives the text back. *)
Lemma join_split_chr_aux c cur s :
  Py.join (String c "") (Py.split_chr_aux c cur s) = cur +:+ s.
Proof.
  unfold Py.join. revert cur. induction s as [|d s IH]; intros cur.
  - cbn. symmetry. apply append_empty_r.
  - cbn [Py.split_chr_aux]. destruct (Ascii.eqb_spec d c) as [->|Hne].
    + rewrite concat_cons by apply split_chr_aux_nonempty. rewrite IH. reflexivity.
    + rewrite IH, append_assoc. reflexivity.
Qed.

Lemma split_chr_aux_first c cur first rest :
  count_chr c first = O ->
  Py.split_chr_aux c cur (first +:+ String c rest)
  = (cur +:+ first) :: Py.split_chr_aux c "" rest.
Proof.
  revert cur. induction first as [|d first IH]; intros cur Hc.
  - change ("" +:+ String c rest) with (String c rest). cbn.
    rewrite Ascii.eqb_refl, append_empty_r. reflexivity.
  - change (String d first +:+ String c rest) with (String d (first +:+ String c rest)).
    cbn in *. destruct (Ascii.eqb d c); [discriminate|].
    rewrite IH by exact Hc. rewrite append_assoc. reflexivity.
Qed.

Lemma split_chr_aux_whole c cur s :
  count_chr c s = O -> Py.split_chr_aux c cur s = [cur +:+ s].
Proof.
  revert cur. induction s as [|d s IH]; intros cur Hc.
  - cbn. rewrite append_empty_r. reflexivity.
  - cbn in *. destruct (Ascii.eqb d c); [discriminate|].
    rewrite IH by exact Hc. rewrite append_assoc. reflexivity.
Qed.

(** X3: the body [main] keeps is the rendered HTML without its first
    line: what follows the first newline, whatever it contains, comes back
    unchanged, and an HTML of a single line leaves an empty body. *)
Theorem X3_body_drops_first_line first rest :
  count_chr "010" first = O ->
  main_body (first +:+ String "010" rest) = rest
  /\ main_body first = "".
Proof.
  intros Hc. unfold main_body, Py.split_chr. split.
  - rewrite split_chr_aux_first by exact Hc. cbn [tail].
    apply (join_split_chr_aux "010" "" rest).
  - rewrite split_chr_aux_whole by exact Hc. reflexivity.
Qed.

Lemma one_line_tail c s : one_line (c :: s) = true -> one_line s = true.
Proof.
  destruct s as [|d s]; [reflexivity|]. cbn [one_line].
  intros H. apply andb_true_iff in H as [_ H]. exact H.
Qed.

Lemma one_line_readline text : one_line (Lines.readline text) = true.
Proof.
  induction text as [|d text IH]; [reflexivity|]. cbn [Lines.readline].
  destruct (Lines.line_break d) eqn:Hd; [reflexivity|].
  cbn [one_line]. rewrite Hd, IH. destruct (Lines.readline text); reflexivity.
Qed.

Lemma one_line_lstrip_chr c s :
  one_line s = true -> one_line (Lines.lstrip_chr c s) = true.
Proof.
  induction s as [|d s IH]; intros H; [reflexivity|]. cbn [Lines.lstrip_chr].
  destruct (d =? c)%N; [apply IH, (one_line_tail _ _ H) | exact H].
Qed.

Lemma one_line_lstrip s : one_line s = true -> one_line (Lines.lstrip s) = true.
Proof.
  induction s as [|d s IH]; intros H; [reflexivity|]. cbn [Lines.lstrip].
  destruct (Lines.isspace d); [apply IH, (one_line_tail _ _ H) | exact H].
Qed.

(** Line endings are whitespace. *)
Lemma line_break_isspace c : Lines.line_break c = true -> Lines.isspace c = true.
Proof.
  unfold Lines.line_break. intros H. apply orb_true_iff in H as [H|H];
    apply N.eqb_eq in H; subst c; reflexivity.
Qed.

Lemma no_line_break_rstrip s :
  one_line s = true -> existsb Lines.line_break (Lines.rstrip s) = false.
Proof.
  induction s as [|d s IH]; intros H; [reflexivity|].
  cbn [Lines.rstrip]. specialize (IH (one_line_tail _ _ H)).
  assert (Hd : Lines.rstrip s <> [] \/ Lines.isspace d = false ->
               Lines.line_break d = false).
  { destruct s as [|e s].
    - intros [Hr|Hs]; [cbn in Hr; contradiction|].
      destruct (Lines.line_break d) eqn:Hb; [|reflexivity].
      rewrite (line_break_isspace _ Hb) in Hs. discriminate.
    - intros _. cbn [one_line] in H. apply andb_true_iff in H as [H _].
      apply negb_true_iff in H. exact H. }
  destruct (Lines.rstrip s) as [|e r] eqn:Hr.
  - destruct (Lines.isspace d) eqn:Hs; [reflexivity|].
    cbn. rewrite Hd by auto. reflexivity.
  - cbn [existsb] in *. rewrite Hd by (left; discriminate). exact IH.
Qed.

Lemma ends_blank_rstrip s : ends_blank (Lines.rstrip s) = false.
Proof.
  induction s as [|d s IH]; [reflexivity|]. cbn [Lines.rstrip].
  destruct (Lines.rstrip s) as [|e r].
  - destruct (Lines.isspace d) eqn:Hs; [reflexivity | cbn; exact Hs].
  - exact IH.
Qed.

Lemma starts_blank_lstrip s : starts_blank (Lines.lstrip s) = false.
Proof.
  induction s as [|d s IH]; [reflexivity|]. cbn [Lines.lstrip].
  destruct (Lines.isspace d) eqn:Hs; [exact IH | cbn; exact Hs].
Qed.

Lemma starts_blank_rstrip s : starts_blank s = false -> starts_blank (Lines.rstrip s) = false.
Proof.
  destruct s as [|d s]; [reflexivity|]. cbn [starts_blank Lines.rstrip]. intros Hs.
  destruct (Lines.rstrip s); [rewrite Hs|]; exact Hs.
Qed.

(** X4: the title [main] takes from the first line of the markdown text
    never begins or ends with a whitespace character and never contains a
    line feed or a carriage return, whatever the text is. *)
Theorem X4_title_is_trimmed_single_line text :
  starts_blank (main_title text) = false
  /\ ends_blank (main_title text) = false
  /\ existsb Lines.line_break (main_title text) = false.
Proof.
  unfold main_title, Lines.strip. split; [|split].
  - apply starts_blank_rstrip, starts_blank_lstrip.
  - apply ends_blank_rstrip.
  - apply no_line_break_rstrip, one_line_lstrip, one_line_lstrip_chr, one_line_readline.
Qed.

(** A markdown title line gives its text, whichever way the line ends
    and whatever whitespace surrounds it. *)
Example title_of_heading_line :
  main_title (Lines.of_string "## Setup guide  " ++ [13; 10]%N ++ Lines.of_string "Some text")
  = Lines.of_string "Setup guide"
  /\ main_title (Lines.of_string "#" ++ [160; 8195]%N ++ Lines.of_string "Setup guide"
                 ++ [12288; 13]%N ++ Lines.of_string "more")
     = Lines.of_string "Setup guide".
Proof. split; reflexivity. Qed.

(** ** Runs that stop before changing anything *)

Section Stops.

Variable w : world.
Variable cfg : config.

Lemma quiet_modifying_get_page title : quiet modifying (get_page w cfg title).
Proof. unfold get_page. quiet_auto. Qed.

(** X5: in simulate mode [main] stops with exit status 0 before the
    lookup: the run sends no request at all. *)
Theorem X5_simulate_sends_nothing title html h :
  SIMULATE cfg = true ->
  let run := main w cfg title html h in
  omap request_of (fst run) = [] /\ snd run = Exit 0.
Proof.
  intros HS run. subst run. rewrite main_eq.
  unfold LOGGER_debug, LOGGER_info, simulate_stop. rewrite HS.
  rewrite bind_emit_run. cbn [fst snd]. rewrite bind_run.
  cbn. auto.
Qed.

Lemma status_not_ok s : status_ok s = false -> (400 <=? s) && (s <? 600) = true.
Proof. unfold status_ok. intros H. apply negb_false_iff in H. exact H. Qed.

(** A lookup answered with an error status ends [get_page] with exit
    status 1, after the error has been logged. *)
Lemma get_page_failed title h :
  lookup_fails w cfg title ->
  exists evs, get_page w cfg title h = (evs, Exit 1)
              /\ omap modifying evs = [] /\ logs_error evs.
Proof.
  intros Hbad. unfold get_page, LOGGER_info, LOGGER_debug, LOGGER_error.
  rewrite bind_emit_run, request_run. cbn [fst snd].
  set (h1 := h ++ [Log INFO "\tRetrieving page information: %s" [AStr title]]).
  specialize (Hbad h1). apply status_not_ok in Hbad.
  rewrite bind_run. unfold try_except, raise_for_status. rewrite Hbad. cbn [raise is_HTTPError].
  destruct (status_code (content_lookup w h1 (lookup_url w cfg title)) =? 404);
    cbn; eexists; (split; [reflexivity|]); (split; [reflexivity|]);
    exists "err.response: %s", [AObj]; cbn; auto.
Qed.

(** X6: when the lookup of the page is answered with an error status,
    the run logs the error and ends with exit status 1 without a create,
    update, delete or upload request. *)
Theorem X6_failed_lookup_exits title html h :
  SIMULATE cfg = false ->
  lookup_fails w cfg title ->
  let run := main w cfg title html h in
  snd run = Exit 1 /\ omap modifying (fst run) = [] /\ logs_error (fst run).
Proof.
  intros HS Hbad run. subst run. rewrite main_eq.
  unfold LOGGER_debug, LOGGER_info, simulate_stop. rewrite HS.
  rewrite bind_emit_run, bind_ret_run, bind_emit_run. cbn [fst snd].
  set (h0 := (h ++ _) ++ _). rewrite bind_run.
  destruct (get_page_failed title h0 Hbad) as (evs & -> & Hm & fmt & args & Hlog).
  cbn [fst snd]. split; [reflexivity|]. split.
  - cbn. exact Hm.
  - exists fmt, args. right. right. exact Hlog.
Qed.

(** X7: when a parent page is configured and its lookup finds nothing,
    a run outside delete mode does not complete and sends no create,
    update, delete or upload request. *)
Theorem X7_missing_parent_changes_nothing title html parent h :
  DELETE cfg = false ->
  ANCESTOR cfg = Some parent -> parent <> "" ->
  absent_remotely w cfg parent ->
  let run := main w cfg title html h in
  omap modifying (fst run) = [] /\ snd run <> Ret tt.
Proof.
  intros HD HA Hne Hparent run. subst run. rewrite main_eq.
  set (P := fun (us : list (verb * string)) (out : outcome unit) =>
              us = [] /\ out <> Ret tt).
  assert (HE : forall c, P [] (Exit c)) by (intros c; split; [reflexivity|discriminate]).
  assert (HX : forall x, P [] (Raise x)) by (intros x; split; [reflexivity|discriminate]).
  apply (bind_quiet_case modifying _ _ _ P);
    [apply quiet_emit; reflexivity | | exact HE | exact HX].
  intros e0 [] _.
  apply (bind_quiet_case modifying _ _ _ P);
    [unfold simulate_stop; quiet_auto | | exact HE | exact HX].
  intros e1 [] _.
  apply (bind_quiet_case modifying _ _ _ P);
    [apply quiet_emit; reflexivity | | exact HE | exact HX].
  intros e2 [] _.
  apply (bind_quiet_case modifying _ _ _ P);
    [apply quiet_modifying_get_page | | exact HE | exact HX].
  intros e3 page _.
  apply (bind_quiet_case modifying _ _ _ P);
    [unfold delete_stop; rewrite HD; destruct page; apply quiet_ret | | exact HE | exact HX].
  intros e4 [] _.
  apply (bind_quiet_case modifying _ _ _ P); [| | exact HE | exact HX].
  - unfold main_ancestors. quiet_auto. apply quiet_modifying_get_page.
  - intros e5 ancestors Hanc. exfalso.
    unfold main_ancestors in Hanc. rewrite HA in Hanc.
    destruct parent as [|c parent]; [contradiction|].
    rewrite bind_run in Hanc.
    destruct (get_page_absent w cfg (String c parent) (((((h ++ e0) ++ e1) ++ e2) ++ e3) ++ e4)
                Hparent) as (evs & Hg & _).
    rewrite Hg in Hanc. discriminate.
Qed.

End Stops.

(** ** Creating and deleting *)

Section Create.

Variable w : world.
Variable cfg : config.

(** Whatever a selector that ignores [PUT] requests and the opening line
    of the update pass sees of [create_page] is what it sees of the create
    request. *)
Lemma create_page_events {X} (f : event -> option X) title body ancestors h :
  passive f -> (forall u b, f (Http Put u b) = None) -> f updating_page = None ->
  omap f (fst (create_page w cfg title body ancestors h))
  = omap f [Http Post (CONFLUENCE_API_URL cfg +:+ "/rest/api/content/")
              (NewPage (create_request cfg title body ancestors))].
Proof.
  intros Hf Hp Hu. unfold create_page, LOGGER_info, LOGGER_debug.
  rewrite !bind_emit_run. cbn [fst snd]. rewrite request_run. cbn [fst snd].
  fold (create_request cfg title body ancestors).
  set (post := Http Post _ _).
  change (?a :: ?b :: post :: ?l) with ([a; b] ++ [post] ++ l).
  rewrite !omap_app.
  match goal with
  | |- _ ++ _ ++ omap f (fst (?m ?hh)) = _ =>
      assert (Hq : quiet f m); [| rewrite (Hq hh)]
  end.
  { quiet_auto. apply quiet_update_page; assumption. }
  cbn. rewrite !(passive_log f Hf) by discriminate. cbn. apply app_nil_r.
Qed.

(** X8: when no page with the title exists, a run never deletes
    anything and issues at most one create call, for that title and body;
    a run that completes has issued exactly that one. *)
Theorem X8_absent_page_created_once title html h :
  absent_remotely w cfg title ->
  let run := main w cfg title html h in
  page_deletes (fst run) = []
  /\ (page_creates (fst run) = []
      \/ exists ancestors, page_creates (fst run) = [create_request cfg title html ancestors])
  /\ (snd run = Ret tt ->
      exists ancestors, page_creates (fst run) = [create_request cfg title html ancestors]).
Proof.
  intros Habs run. subst run. split.
  - rewrite main_eq. unfold page_deletes.
    set (P := fun (us : list string) (out : outcome unit) => us = []).
    assert (HE : forall c, P [] (Exit c)) by reflexivity.
    assert (HX : forall x, P [] (Raise x)) by reflexivity.
    apply (bind_quiet_case page_delete _ _ _ P);
      [apply quiet_emit; reflexivity | | exact HE | exact HX].
    intros e0 [] _.
    apply (bind_quiet_case page_delete _ _ _ P);
      [apply quiet_simulate_stop, passive_page_delete | | exact HE | exact HX].
    intros e1 [] _.
    apply (bind_quiet_case page_delete _ _ _ P);
      [apply quiet_emit; reflexivity | | exact HE | exact HX].
    intros e2 [] _.
    apply (bind_quiet_case page_delete _ _ _ P);
      [apply quiet_get_page, passive_page_delete | | exact HE | exact HX].
    intros e3 page Hpage.
    destruct (get_page_absent w cfg title (((h ++ e0) ++ e1) ++ e2) Habs) as (evs & Hg & _).
    rewrite Hg in Hpage. injection Hpage as _ <-.
    apply (bind_quiet_case page_delete _ _ _ P); [apply quiet_ret | | exact HE | exact HX].
    intros e4 [] _.
    apply (bind_quiet_case page_delete _ _ _ P);
      [apply quiet_main_ancestors, passive_page_delete | | exact HE | exact HX].
    intros e5 ancestors _. subst P. cbn beta.
    rewrite bind_run.
    pose proof (create_page_events page_delete title html ancestors
                  ((((((h ++ e0) ++ e1) ++ e2) ++ e3) ++ e4) ++ e5)
                  passive_page_delete (fun _ _ => eq_refl) eq_refl) as Hc.
    destruct (create_page _ _ _ _ _ _) as [ec [[]|c|x]]; cbn [fst snd] in *;
      rewrite ?omap_app, Hc; reflexivity.
  - rewrite main_eq. unfold page_creates.
    set (P := fun (us : list new_page) (out : outcome unit) =>
      (us = [] \/ exists ancestors, us = [create_request cfg title html ancestors])
      /\ (out = Ret tt ->
          exists ancestors, us = [create_request cfg title html ancestors])).
    assert (HE : forall c, P [] (Exit c)) by (intros c; split; [auto | discriminate]).
    assert (HX : forall x, P [] (Raise x)) by (intros x; split; [auto | discriminate]).
    apply (bind_quiet_case page_create _ _ _ P);
      [apply quiet_emit; reflexivity | | exact HE | exact HX].
    intros e0 [] _.
    apply (bind_quiet_case page_create _ _ _ P);
      [apply quiet_simulate_stop, passive_page_create | | exact HE | exact HX].
    intros e1 [] _.
    apply (bind_quiet_case page_create _ _ _ P);
      [apply quiet_emit; reflexivity | | exact HE | exact HX].
    intros e2 [] _.
    apply (bind_quiet_case page_create _ _ _ P);
      [apply quiet_get_page, passive_page_create | | exact HE | exact HX].
    intros e3 page Hpage.
    destruct (get_page_absent w cfg title (((h ++ e0) ++ e1) ++ e2) Habs) as (evs & Hg & _).
    rewrite Hg in Hpage. injection Hpage as _ <-.
    apply (bind_quiet_case page_create _ _ _ P); [apply quiet_ret | | exact HE | exact HX].
    intros e4 [] _.
    apply (bind_quiet_case page_create _ _ _ P);
      [apply quiet_main_ancestors, passive_page_create | | exact HE | exact HX].
    intros e5 ancestors _. subst P. cbn beta.
    rewrite bind_run.
    pose proof (create_page_events page_create title html ancestors
                  ((((((h ++ e0) ++ e1) ++ e2) ++ e3) ++ e4) ++ e5)
                  passive_page_create (fun _ _ => eq_refl) eq_refl) as Hc.
    destruct (create_page _ _ _ _ _ _) as [ec [[]|c|x]]; cbn [fst snd] in *;
      rewrite ?omap_app, Hc; cbn; eauto.
Qed.

(** X9: in delete mode, a page that exists gets exactly one delete call,
    addressed to its id, and nothing is created or updated.  How the run
    ends is decided by the answer to that call: with a status that passes
    [raise_for_status] the run exits with status 1, whether the page was
    deleted (204) or not; with an error status it ends in the [HTTPError]
    of that status. *)
Theorem X9_delete_existing_page title html r h :
  DELETE cfg = true -> SIMULATE cfg = false ->
  exists_remotely w cfg title r ->
  let run := main w cfg title html h in
  let answer := delete_answer w cfg title html r h in
  page_deletes (fst run) = [CONFLUENCE_API_URL cfg +:+ "/rest/api/content/" +:+ r_id r]
  /\ page_creates (fst run) = []
  /\ page_updates (fst run) = []
  /\ snd run = (if status_ok (status_code answer) then Exit 1
                else Raise (HTTPError (status_code answer)))
  /\ (In (Log INFO "Page %s deleted successfully." [AStr (r_id r)]) (fst run)
      <-> status_code answer = 204).
Proof.
  intros HD HS Hr run answer. subst run. rewrite main_eq.
  unfold LOGGER_debug, LOGGER_info, simulate_stop. rewrite HS.
  rewrite bind_emit_run, bind_ret_run, bind_emit_run. cbn [fst snd].
  rewrite bind_run, (get_page_present_run w cfg title r _ Hr). cbn [fst snd].
  unfold delete_stop. rewrite HD. cbn [page_of PageInfo.id].
  unfold delete_page, LOGGER_info, LOGGER_error.
  rewrite !bind_run. cbn [emit fst snd]. rewrite request_run. cbn [fst snd].
  rewrite raise_for_status_run.
  rewrite <- !app_assoc. cbn [app]. fold (delete_answer w cfg title html r h).
  fold answer.
  unfold page_deletes, page_creates, page_updates.
  destruct (status_ok (status_code answer)) eqn:Hok.
  - destruct (Z.eqb_spec (status_code answer) 204) as [H204|H204]; cbn.
    + repeat split; auto 10.
    + repeat split; try reflexivity; [|contradiction].
      intros Hin. repeat (destruct Hin as [Hin|Hin]; [discriminate|]). destruct Hin.
  - cbn. repeat split; try reflexivity.
    + intros Hin. repeat (destruct Hin as [Hin|Hin]; [discriminate|]). destruct Hin.
    + intros H204. rewrite H204 in Hok. discriminate.
Qed.

(** X10: a create call that is not answered with status 200 ends
    [create_page] with exit status 1, whether the status is an error or
    another success code; no update pass is started and no [PUT] is
    sent. *)
Theorem X10_rejected_create_exits title body ancestors h :
  status_code (create_answer w cfg title body ancestors h) <> 200 ->
  let run := create_page w cfg title body ancestors h in
  snd run = Exit 1
  /\ update_passes (fst run) = []
  /\ omap put_request (fst run) = []
  /\ logs_error (fst run).
Proof.
  intros Hs run. subst run. unfold create_page, LOGGER_info, LOGGER_debug, LOGGER_error.
  rewrite !bind_emit_run. cbn [fst snd]. rewrite request_run. cbn [fst snd].
  rewrite <- !app_assoc. cbn [app].
  fold (create_request cfg title body ancestors).
  fold (create_answer w cfg title body ancestors h).
  set (resp := create_answer w cfg title body ancestors h) in *.
  rewrite bind_run. unfold try_except, raise_for_status.
  destruct ((400 <=? status_code resp) && (status_code resp <? 600)); cbn.
  - repeat split; try reflexivity. eexists _, _. right. right. right. left. reflexivity.
  - destruct (Z.eqb_spec (status_code resp) 200) as [He|_]; [contradiction|].
    cbn. repeat split; try reflexivity.
    eexists _, _. right. right. right. left. reflexivity.
Qed.

Lemma create_properties_In k e :
  In (k, e) (create_properties cfg) ->
  In k (Dict.keys (PROPERTIES cfg)) /\ pe_version e = 1.
Proof.
  unfold create_properties. intros H.
  destruct (dict_fill_In
              (fun key => {| pe_key := key; pe_version := 1;
                             pe_value := default "" (Dict.get key (PROPERTIES cfg)) |})
              _ _ _ _ H) as [[Hin ->]|[]].
  auto.
Qed.

(** X11: after a create call answered with 200, every property update
    of the follow-up pass carries a configured key and version 1, and the
    page update, if one is sent, carries the version the create call
    returned plus one. *)
Theorem X11_new_page_versions title body ancestors h :
  status_code (create_answer w cfg title body ancestors h) = 200 ->
  let run := create_page w cfg title body ancestors h in
  (forall key n, In (key, n) (prop_updates (fst run)) ->
     In key (Dict.keys (PROPERTIES cfg)) /\ n = 1)
  /\ (page_updates (fst run) = []
      \/ page_updates (fst run)
         = [c_number (json (create_answer w cfg title body ancestors h)) + 1]).
Proof.
  intros H200 run. subst run.
  rewrite (create_page_run w cfg title body ancestors h H200).
  set (data := json (create_answer w cfg title body ancestors h)).
  set (created := created_events w cfg title body ancestors h).
  assert (Hc1 : prop_updates created = []) by reflexivity.
  assert (Hc2 : page_updates created = []) by reflexivity.
  destruct (needs_update cfg body); cbn zeta; cbn [fst snd].
  - change (created ++ update_called :: ?l) with (created ++ [update_called] ++ l).
    rewrite !prop_updates_app, Hc1. unfold page_updates in *. rewrite !omap_app, Hc2.
    cbn [app]. change (omap page_update [update_called]) with (@nil Z).
    change (prop_updates [update_called]) with (@nil (string * Z)). cbn [app].
    split.
    + destruct (update_page_prop_updates w cfg (c_id data) title body (c_number data)
                  ancestors (create_properties cfg) (ATTACHMENTS cfg)
                  (h ++ created ++ [update_called])) as (n & Hn & _).
      rewrite Hn. intros key v Hin.
      apply in_map_iff in Hin as ([k e] & [= <- <-] & Hin).
      apply list_elem_of_In, elem_of_take in Hin as (i & Hi & _).
      apply list_elem_of_lookup_2, list_elem_of_In in Hi.
      apply (create_properties_In k e Hi).
    + destruct (update_page_page_updates w cfg (c_id data) title body (c_number data)
                  ancestors (create_properties cfg) (ATTACHMENTS cfg)
                  (h ++ created ++ [update_called])) as [[Hu _]|Hu]; auto.
  - rewrite prop_updates_app, Hc1. unfold page_updates in *. rewrite omap_app, Hc2.
    destruct (GO_TO_PAGE cfg); cbn; split; auto; intros key n [].
Qed.

End Create.

(** ** The update pass, step by step *)

Section Pass.

Variable w : world.
Variable cfg : config.

Lemma update_submit_not_200 page_id title body version ancestors properties h :
  (forall h u p, status_code (content_update w h u p) <> 200) ->
  prop_updates (fst (update_submit w cfg page_id title body version ancestors properties h))
  = [].
Proof.
  intros Hs. unfold update_submit, LOGGER_error. rewrite request_run. cbn [fst snd].
  rewrite raise_for_status_run.
  destruct (status_ok _); [|reflexivity].
  destruct (Z.eqb_spec (status_code (content_update w h
              (CONFLUENCE_API_URL cfg +:+ "/rest/api/content/" +:+ page_id)
              {| pj_id := page_id; pj_title := title; pj_space := SPACE_KEY cfg;
                 pj_body := body; pj_number := version + 1; pj_minorEdit := true;
                 pj_ancestors := ancestors;
                 pj_labels := if nonempty (LABELS cfg) then Some (LABELS cfg) else None |}))
              200) as [He|_]; [|reflexivity].
  exfalso. exact (Hs _ _ _ He).
Qed.

(** X12: the update pass sends its requests in a fixed order: every
    attachment upload comes before the page update, the page update is
    the first [PUT], and property updates come only after it; when the
    page update is never answered with 200, no property is updated. *)
Theorem X12_update_pass_order page_id title body version ancestors properties attachments h :
  let u := update_page w cfg page_id title body version ancestors
             properties attachments h in
  (exists before after,
     fst u = before ++ after
     /\ omap put_request before = []
     /\ omap file_upload_of after = []
     /\ (after = [] \/ exists url pj rest, after = Http Put url (PageJson pj) :: rest))
  /\ ((forall h u p, status_code (content_update w h u p) <> 200) ->
      prop_updates (fst u) = []).
Proof.
  intros u.
  destruct (update_page_run w cfg page_id title body version ancestors
              properties attachments h) as (pre & Hpre & [[Hev Hout]|(body' & Hev & Hout)]);
    fold u in Hev, Hout.
  - split.
    + exists (updating_page :: pre), []. rewrite app_nil_r.
      split; [exact Hev|]. split; [|split; [reflexivity | left; reflexivity]].
      cbn. apply (Hpre _ _ passive_put_request).
    + intros _. rewrite Hev. unfold prop_updates. cbn.
      apply (Hpre _ _ passive_prop_update).
  - destruct (update_submit_run w cfg page_id title body' version ancestors properties
                (h ++ updating_page :: pre))
      as (pj & tail & _ & _ & Heq & Htail & _).
    split.
    + exists (updating_page :: pre), (fst (update_submit w cfg page_id title body' version
                                          ancestors properties (h ++ updating_page :: pre))).
      split; [exact Hev|]. split; [cbn; apply (Hpre _ _ passive_put_request)|].
      rewrite Heq. cbn [fst]. split; [|right; eauto].
      cbn. apply Htail; intros; reflexivity.
    + intros Hs. rewrite Hev.
      change (updating_page :: pre ++ ?l) with ((updating_page :: pre) ++ l).
      rewrite prop_updates_app, (update_submit_not_200 _ _ _ _ _ _ _ Hs), app_nil_r.
      unfold prop_updates. cbn. apply (Hpre _ _ passive_prop_update).
Qed.

Lemma upload_attachment_run page_id file comment h :
  Py.contains "http" file = false ->
  path_isfile w file = true ->
  let filename := Py.basename file in
  let base := CONFLUENCE_API_URL cfg +:+ "/rest/api/content/" +:+ page_id
              +:+ "/child/attachment" in
  let lookup := attachment_lookup w (h ++ [FileOpen file])
                  (base +:+ "?filename=" +:+ filename) in
  let run := upload_attachment w cfg page_id file comment h in
  if status_ok (status_code lookup) then
    let target := match json lookup with
                  | att_id :: _ => base +:+ "/" +:+ att_id +:+ "/data"
                  | [] => base +:+ "/"
                  end in
    let upload := upload_answer w cfg page_id file comment target h in
    omap request_of (fst run) = [(Get, base +:+ "?filename=" +:+ filename); (Post, target)]
    /\ omap file_upload_of (fst run) = [(target, filename)]
    /\ snd run = (if status_ok (status_code upload) then Ret true
                  else Raise (HTTPError (status_code upload)))
  else
    omap file_upload_of (fst run) = []
    /\ snd run = Raise (HTTPError (status_code lookup)).
Proof.
  intros Hh Hf filename base lookup run. subst run.
  unfold upload_attachment. rewrite found_http_any, Hh, Hf. cbn [negb].
  rewrite bind_emit_run. cbn [fst snd]. rewrite bind_run.
  unfold get_attachment. rewrite request_run. cbn [fst snd].
  rewrite raise_for_status_run.
  assert (Hb : CONFLUENCE_API_URL cfg +:+ "/rest/api/content/" +:+ page_id
               +:+ "/child/attachment?filename=" +:+ Py.basename file
               = base +:+ "?filename=" +:+ filename).
  { subst base filename. rewrite !append_assoc. reflexivity. }
  unfold upload_answer. rewrite Hb. fold lookup.
  assert (Hd : forall i, CONFLUENCE_API_URL cfg +:+ "/rest/api/content/" +:+ page_id
                         +:+ "/child/attachment/" +:+ i = base +:+ "/" +:+ i).
  { intros i. subst base. rewrite !append_assoc. reflexivity. }
  assert (He : CONFLUENCE_API_URL cfg +:+ "/rest/api/content/" +:+ page_id
               +:+ "/child/attachment/" = base +:+ "/").
  { subst base. rewrite !append_assoc. reflexivity. }
  destruct (status_ok (status_code lookup)); [|cbn; auto].
  destruct (json lookup) as [|att_id atts]; cbn [fst snd ret app];
    unfold LOGGER_info; rewrite bind_emit_run; cbn [fst snd];
    rewrite request_run; cbn [fst snd]; rewrite raise_for_status_run;
    cbn [AttachmentInfo.id]; rewrite ?Hd, ?He;
    rewrite <- !app_assoc; cbn [app];
    destruct (status_ok _); cbn; auto.
Qed.

(** X13: for a path without [http] that names a file, the uploader opens
    the file, looks up the attachments with that file name, and, when the
    lookup passes, sends exactly one upload: to the data address of the
    first attachment found, replacing it, or to the attachment list of the
    page when there is none.  It returns [True] exactly when the answer to
    the upload passes [raise_for_status], and otherwise ends in the
    [HTTPError] of that answer's status.  When the lookup is answered with
    an error status nothing is uploaded and the [HTTPError] of the lookup
    is raised. *)
Theorem X13_upload_replaces_or_adds page_id file comment h :
  Py.contains "http" file = false ->
  path_isfile w file = true ->
  let filename := Py.basename file in
  let base := CONFLUENCE_API_URL cfg +:+ "/rest/api/content/" +:+ page_id
              +:+ "/child/attachment" in
  let lookup := attachment_lookup w (h ++ [FileOpen file])
                  (base +:+ "?filename=" +:+ filename) in
  let run := upload_attachment w cfg page_id file comment h in
  if status_ok (status_code lookup) then
    let target := match json lookup with
                  | att_id :: _ => base +:+ "/" +:+ att_id +:+ "/data"
                  | [] => base +:+ "/"
                  end in
    let upload := upload_answer w cfg page_id file comment target h in
    omap request_of (fst run) = [(Get, base +:+ "?filename=" +:+ filename); (Post, target)]
    /\ omap file_upload_of (fst run) = [(target, filename)]
    /\ snd run = (if status_ok (status_code upload) then Ret true
                  else Raise (HTTPError (status_code upload)))
  else
    omap file_upload_of (fst run) = []
    /\ snd run = Raise (HTTPError (status_code lookup)).
Proof. apply upload_attachment_run. Qed.

(** An upload that goes through: the four events, ending in the upload
    request under the file name. *)
Lemma upload_attachment_ok page_id file comment h :
  Py.contains "http" file = false ->
  path_isfile w file = true ->
  (forall h u, status_ok (status_code (attachment_lookup w h u)) = true) ->
  (forall h u f, status_ok (status_code (attachment_upload w h u f)) = true) ->
  exists evs,
    upload_attachment w cfg page_id file comment h = (evs, Ret true)
    /\ map snd (omap file_upload_of evs) = [Py.basename file].
Proof.
  intros Hh Hf Hl Hu. unfold upload_attachment.
  rewrite found_http_any, Hh, Hf. cbn [negb].
  rewrite bind_emit_run. cbn [fst snd]. rewrite bind_run.
  unfold get_attachment. rewrite request_run. cbn [fst snd].
  rewrite raise_for_status_run, Hl.
  destruct (json (attachment_lookup w _ _)) as [|att_id atts]; cbn [fst snd ret app];
    unfold LOGGER_info; rewrite bind_emit_run; cbn [fst snd];
    rewrite request_run; cbn [fst snd]; rewrite raise_for_status_run, Hu;
    cbn; eexists; split; reflexivity.
Qed.

(** X20: when every configured attachment has a path without [http]
    that names a file, and the service accepts every lookup and upload,
    [add_attachments] uploads each attachment exactly once, in the order
    given, under its file name, and returns. *)
Theorem X20_attachments_uploaded_in_order page_id files h :
  (forall file, In file files ->
     Py.contains "http" (Py.path_join (dirname_abspath w (MARKDOWN_FILE cfg)) file) = false
     /\ path_isfile w (Py.path_join (dirname_abspath w (MARKDOWN_FILE cfg)) file) = true) ->
  (forall h u, status_ok (status_code (attachment_lookup w h u)) = true) ->
  (forall h u f, status_ok (status_code (attachment_upload w h u f)) = true) ->
  let run := add_attachments w cfg page_id (Some files) h in
  map snd (omap file_upload_of (fst run))
  = map (fun file => Py.basename (Py.path_join (dirname_abspath w (MARKDOWN_FILE cfg)) file))
        files
  /\ snd run = Ret tt.
Proof.
  intros Hfiles Hl Hu run. subst run. unfold add_attachments.
  revert h. induction files as [|file files IH]; intros h; [cbn; auto|].
  cbn [for_each map]. rewrite bind_run, bind_run.
  destruct (Hfiles file (or_introl eq_refl)) as [Hh Hf].
  destruct (upload_attachment_ok page_id
              (Py.path_join (dirname_abspath w (MARKDOWN_FILE cfg)) file) "" h Hh Hf Hl Hu)
    as (evs & -> & Hup).
  cbn [ret fst snd app]. rewrite app_nil_r.
  destruct (IH (fun f Hin => Hfiles f (or_intror Hin)) (h ++ evs)) as [IHe IHo].
  rewrite omap_app, map_app, Hup, IHe, IHo. cbn. auto.
Qed.

End Pass.

(** ** Images *)

Section Images.

Variable w : world.
Variable cfg : config.

Lemma bind_raise_run {A B} (x : exn) (k : A -> M B) h :
  bind (raise x) k h = ([], Raise x).
Proof. reflexivity. Qed.

(** X14: an image tag without a [src] or without an [alt] attribute,
    when it is the first one of the body, makes the update pass fail with
    [AttributeError] right after its opening log line: nothing is
    uploaded and the page is not updated. *)
Theorem X14_image_without_attribute_fails
    page_id title body version ancestors properties attachments h tag rest :
  Re.findall 1 Re.img_tag body = tag :: rest ->
  Re.search Re.src_attr tag = None \/ Re.search Re.alt_attr tag = None ->
  update_page w cfg page_id title body version ancestors properties attachments h
  = ([updating_page], Raise AttributeError).
Proof.
  intros Htags Hmiss. rewrite update_page_eq, bind_emit_run. cbn [fst snd].
  rewrite bind_run. unfold add_images. rewrite Htags. cbn [for_fold].
  rewrite bind_run.
  destruct (Re.search Re.src_attr tag) as [ms|]; cbn [group_of].
  - destruct Hmiss as [[=]|Halt]. rewrite Halt. cbn [group_of].
    rewrite bind_ret_run, bind_raise_run. reflexivity.
  - rewrite bind_raise_run. reflexivity.
Qed.

Lemma contains_append sub a b :
  Py.contains sub b = true -> Py.contains sub (a +:+ b) = true.
Proof.
  intros H. induction a as [|c a IH]; [exact H|].
  change (String c a +:+ b) with (String c (a +:+ b)). cbn [Py.contains].
  rewrite IH. apply orb_true_r.
Qed.

Lemma contains_path_join sub folder path :
  Py.contains sub path = true -> Py.contains sub (Py.path_join folder path) = true.
Proof.
  intros H. unfold Py.path_join.
  destruct (Py.startswith "/" path); [exact H|].
  destruct (_ || _); [apply contains_append, H|].
  apply contains_append, contains_append, H.
Qed.

Lemma remote_images_loop page_id tags html h :
  (forall tag, In tag tags ->
     exists ms ma, Re.search Re.src_attr tag = Some ms
                   /\ Re.search Re.alt_attr tag = Some ma
                   /\ Py.contains "http" (Re.group 1 ms) = true) ->
  for_fold tags html (fun html tag =>
    let! rel_path := group_of (Re.search Re.src_attr tag) 1 in
    let! alt_text := group_of (Re.search Re.alt_attr tag) 1 in
    let abs_path := Py.path_join (dirname_abspath w (MARKDOWN_FILE cfg)) rel_path in
    let basename := Py.basename rel_path in
    upload_attachment w cfg page_id abs_path alt_text >>
    if Re.found Re.http_any rel_path then ret html
    else if Py.endswith "/wiki" (CONFLUENCE_API_URL cfg) then
      ret (Py.replace rel_path
             ("/wiki/download/attachments/" +:+ page_id +:+ "/" +:+ basename) html)
    else
      ret (Py.replace rel_path
             ("/download/attachments/" +:+ page_id +:+ "/" +:+ basename) html)) h
  = ([], Ret html).
Proof.
  revert h. induction tags as [|tag tags IH]; intros h Hall; [reflexivity|].
  destruct (Hall tag (or_introl eq_refl)) as (ms & ma & Hs & Ha & Hc).
  cbn [for_fold]. rewrite bind_run, Hs, Ha. cbn [group_of].
  rewrite !bind_ret_run, bind_run.
  rewrite (remote_guard w cfg) by (apply contains_path_join, Hc).
  cbn [fst snd]. rewrite found_http_any, Hc.
  cbn [ret fst snd app]. rewrite IH by (intros t Ht; apply Hall; right; exact Ht).
  reflexivity.
Qed.

(** X15: when every image tag of the body has a [src] that contains
    [http] (and an [alt]), [add_images] uploads nothing and returns the
    body unchanged. *)
Theorem X15_remote_images_untouched page_id html h :
  (forall tag, In tag (Re.findall 1 Re.img_tag html) ->
     exists ms ma, Re.search Re.src_attr tag = Some ms
                   /\ Re.search Re.alt_attr tag = Some ma
                   /\ Py.contains "http" (Re.group 1 ms) = true) ->
  add_images w cfg page_id html h = ([], Ret html).
Proof. intros Hall. unfold add_images. apply remote_images_loop, Hall. Qed.

End Images.

(** ** Local references: the whole pass *)

Section Local_refs.

Variable cfg : config.

(** X16: with a markdown source other than [bitbucket] (also when none
    is given) the local reference pass logs a warning and returns the
    HTML unchanged, whatever headings and links it holds. *)
Theorem X16_unknown_dialect_leaves_html page_id title html h :
  MARKDOWN_SOURCE cfg <> "bitbucket" ->
  exists warning,
    add_local_refs cfg page_id title html h = ([Log WARNING warning []], Ret html).
Proof.
  intros Hsrc. unfold add_local_refs, ref_prefixes.
  rewrite lookup_singleton_ne by (intros He; apply Hsrc; symmetry; exact He).
  eexists. reflexivity.
Qed.

(** X17: the local reference pass sends no request and never exits; it
    either returns the HTML it was given, unchanged, or ends with the
    [NameError] of the unbound [slug].  It returns exactly when the
    markdown source is not [bitbucket] or the document has no heading, so
    no link of any document is ever rewritten. *)
Theorem X17_local_refs_outcomes page_id title html h :
  let r := add_local_refs cfg page_id title html h in
  omap request_of (fst r) = []
  /\ (snd r = Ret html \/ snd r = Raise (NameError "slug"))
  /\ (snd r = Ret html <->
      MARKDOWN_SOURCE cfg <> "bitbucket" \/ Re.findall 1 Re.heading html = []).
Proof.
  intros r. subst r.
  destruct (decide (MARKDOWN_SOURCE cfg = "bitbucket")) as [Hsrc|Hsrc].
  - rewrite (add_local_refs_run cfg page_id title html h Hsrc). cbn [fst snd].
    split; [reflexivity|].
    destruct (Re.findall 1 Re.heading html) as [|header headers].
    + split; [left; reflexivity|]. split; auto.
    + split; [right; reflexivity|]. split; [discriminate|].
      intros [Hne|He]; [contradiction | discriminate].
  - destruct (add_local_refs_other_source cfg page_id title html h Hsrc) as [warning ->].
    cbn [fst snd]. split; [reflexivity|]. split; [left; reflexivity|]. split; auto.
Qed.

End Local_refs.

(** ** Navigation *)

Section Navigation.

Variable w : world.
Variable cfg : config.
Hypothesis nogo : GO_TO_PAGE cfg = false.

Lemma nogo_upload_attachment page_id file comment :
  quiet browser_of (upload_attachment w cfg page_id file comment).
Proof. unfold upload_attachment, get_attachment. quiet_auto. Qed.

Lemma nogo_update_page page_id title body version ancestors properties attachments :
  quiet browser_of (update_page w cfg page_id title body version ancestors
                      properties attachments).
Proof using nogo.
  unfold update_page, add_images, add_attachments, add_local_refs, headers_step, links_step.
  rewrite nogo. quiet_auto; apply nogo_upload_attachment.
Qed.

(** X21: with [--nogo] no run opens the browser, whether the page is
    created, updated or deleted and however the run ends. *)
Theorem X21_nogo_opens_no_browser title html h :
  omap browser_of (fst (main w cfg title html h)) = [].
Proof using nogo.
  revert h. change (quiet browser_of (main w cfg title html)).
  unfold main, create_page, delete_page. rewrite nogo.
  assert (Hg : forall t, quiet browser_of (get_page w cfg t))
    by (intros t; unfold get_page; quiet_auto).
  quiet_auto; first [apply Hg | apply nogo_update_page].
Qed.

End Navigation.

(** * The further properties on sample runs *)

Lemma X2_malformed_property_exits_witness :
  ARGS.properties (More.command_line ["owner"; "team=docs"])
  = map property_type ["owner"; "team=docs"]
  /\ In "owner" ["owner"; "team=docs"]
  /\ count_chr "=" "owner" <> 1%nat
  /\ snd (assign_globals absent_world (More.command_line ["owner"; "team=docs"]) []) = Exit 1.
Proof.
  split; [reflexivity|]. split; [left; reflexivity|]. split; [discriminate|].
  apply (X2_malformed_property_exits absent_world (More.command_line ["owner"; "team=docs"])
           [] ["owner"; "team=docs"] "owner");
    [reflexivity | left; reflexivity | discriminate].
Defined.

(** A property value that contains [=] is rejected as well. *)
Example property_value_with_equals_sign :
  snd (assign_globals absent_world (More.command_line ["query=a=b"]) []) = Exit 1.
Proof. reflexivity. Qed.

Lemma X3_body_drops_first_line_witness :
  count_chr "010" "<h1>Title</h1>" = O
  /\ main_body ("<h1>Title</h1>" +:+ String "010" "<p>Hello</p>") = "<p>Hello</p>"
  /\ main_body "<h1>Title</h1>" = "".
Proof.
  split; [reflexivity|].
  apply (X3_body_drops_first_line "<h1>Title</h1>" "<p>Hello</p>"). reflexivity.
Defined.

Lemma X5_simulate_sends_nothing_witness :
  SIMULATE More.simulating = true
  /\ let run := main present_world More.simulating "Setup guide" "<p>hi</p>" [] in
     omap request_of (fst run) = [] /\ snd run = Exit 0.
Proof.
  split; [reflexivity|].
  apply (X5_simulate_sends_nothing present_world More.simulating). reflexivity.
Defined.

Lemma broken_lookup_fails : lookup_fails More.broken_lookup plain_config "Setup guide".
Proof. intros h. reflexivity. Qed.

Lemma X6_failed_lookup_exits_witness :
  SIMULATE plain_config = false
  /\ lookup_fails More.broken_lookup plain_config "Setup guide"
  /\ let run := main More.broken_lookup plain_config "Setup guide" "<p>hi</p>" [] in
     snd run = Exit 1 /\ omap modifying (fst run) = [] /\ logs_error (fst run).
Proof.
  split; [reflexivity|]. split; [exact broken_lookup_fails|].
  apply (X6_failed_lookup_exits More.broken_lookup plain_config);
    [reflexivity | exact broken_lookup_fails].
Defined.

Lemma parent_absent : absent_remotely absent_world More.under_parent "Parent".
Proof. intros h. split; reflexivity. Qed.

Lemma X7_missing_parent_changes_nothing_witness :
  DELETE More.under_parent = false
  /\ ANCESTOR More.under_parent = Some "Parent"
  /\ "Parent" <> ""
  /\ absent_remotely absent_world More.under_parent "Parent"
  /\ let run := main absent_world More.under_parent "Setup guide" "<p>hi</p>" [] in
     omap modifying (fst run) = [] /\ snd run <> Ret tt.
Proof.
  split; [reflexivity|]. split; [reflexivity|]. split; [discriminate|].
  split; [exact parent_absent|].
  apply (X7_missing_parent_changes_nothing absent_world More.under_parent
           "Setup guide" "<p>hi</p>" "Parent" []);
    [reflexivity | reflexivity | discriminate | exact parent_absent].
Defined.

Lemma plain_absent : absent_remotely absent_world plain_config "Setup guide".
Proof. intros h. split; reflexivity. Qed.

Lemma X8_absent_page_created_once_witness :
  absent_remotely absent_world plain_config "Setup guide"
  /\ let run := main absent_world plain_config "Setup guide" "<p>hi</p>" [] in
     page_deletes (fst run) = []
     /\ (page_creates (fst run) = []
         \/ exists ancestors,
              page_creates (fst run)
              = [create_request plain_config "Setup guide" "<p>hi</p>" ancestors])
     /\ (snd run = Ret tt ->
         exists ancestors,
           page_creates (fst run)
           = [create_request plain_config "Setup guide" "<p>hi</p>" ancestors]).
Proof.
  split; [exact plain_absent|].
  apply (X8_absent_page_created_once absent_world plain_config).
  exact plain_absent.
Defined.

Lemma refused_exists :
  exists_remotely More.refusing_delete delete_config "Setup guide" Sample.page.
Proof. intros h. split; reflexivity. Qed.

(** The sample service deletes the page, and the run exits with 1; a
    service that answers the delete call with 403 ends the run in that
    [HTTPError]. *)
Lemma X9_delete_existing_page_witness :
  DELETE delete_config = true /\ SIMULATE delete_config = false
  /\ exists_remotely present_world delete_config "Setup guide" Sample.page
  /\ (let run := main present_world delete_config "Setup guide" "<p>hi</p>" [] in
      page_deletes (fst run) = ["https://acme.atlassian.net/wiki/rest/api/content/4711"]
      /\ page_creates (fst run) = []
      /\ page_updates (fst run) = []
      /\ snd run = Exit 1
      /\ In (Log INFO "Page %s deleted successfully." [AStr "4711"]) (fst run))
  /\ exists_remotely More.refusing_delete delete_config "Setup guide" Sample.page
  /\ (let run := main More.refusing_delete delete_config "Setup guide" "<p>hi</p>" [] in
      page_deletes (fst run) = ["https://acme.atlassian.net/wiki/rest/api/content/4711"]
      /\ snd run = Raise (HTTPError 403)
      /\ ~ In (Log INFO "Page %s deleted successfully." [AStr "4711"]) (fst run)).
Proof.
  split; [reflexivity|]. split; [reflexivity|]. split; [exact present_exists_delete|].
  split; [|split; [exact refused_exists|]].
  - destruct (X9_delete_existing_page present_world delete_config
                "Setup guide" "<p>hi</p>" Sample.page [] eq_refl eq_refl
                present_exists_delete) as (Hd & Hc & Hu & Ho & Hl).
    cbv zeta. split; [exact Hd|]. split; [exact Hc|]. split; [exact Hu|].
    split; [exact Ho|]. apply Hl. reflexivity.
  - destruct (X9_delete_existing_page More.refusing_delete delete_config
                "Setup guide" "<p>hi</p>" Sample.page [] eq_refl eq_refl
                refused_exists) as (Hd & _ & _ & Ho & Hl).
    cbv zeta. split; [exact Hd|]. split; [exact Ho|].
    intros Hin. apply Hl in Hin. discriminate Hin.
Defined.

Lemma X10_rejected_create_exits_witness :
  status_code (create_answer More.rejecting_create plain_config "Setup guide" "<p>hi</p>" [] [])
  <> 200
  /\ let run := create_page More.rejecting_create plain_config "Setup guide"
                  "<p>hi</p>" [] [] in
     snd run = Exit 1
     /\ update_passes (fst run) = []
     /\ omap put_request (fst run) = []
     /\ logs_error (fst run).
Proof.
  split; [discriminate|].
  apply (X10_rejected_create_exits More.rejecting_create plain_config).
  discriminate.
Defined.

Lemma X11_new_page_versions_witness :
  status_code (create_answer absent_world present_config "Setup guide" "<p>hi</p>" [] []) = 200
  /\ let run := create_page absent_world present_config "Setup guide"
                  "<p>hi</p>" [] [] in
     (forall key n, In (key, n) (prop_updates (fst run)) ->
        In key (Dict.keys (PROPERTIES present_config)) /\ n = 1)
     /\ (page_updates (fst run) = []
         \/ page_updates (fst run)
            = [c_number (json (create_answer absent_world present_config "Setup guide"
                                 "<p>hi</p>" [] [])) + 1]).
Proof.
  split; [reflexivity|].
  apply (X11_new_page_versions absent_world present_config). reflexivity.
Defined.

(** The follow-up pass of a new page with two properties. *)
Example new_page_with_properties :
  let run := create_page absent_world present_config "Setup guide"
               "<p>hi</p>" [] [] in
  prop_updates (fst run) = [("owner", 1); ("team", 1)] /\ page_updates (fst run) = [2].
Proof. vm_compute. auto. Qed.

(** An upload that replaces the attachment found and returns [True],
    and one that the service rejects with 413. *)
Lemma X13_upload_replaces_or_adds_witness :
  Py.contains "http" "/docs/a.png" = false
  /\ path_isfile More.with_files "/docs/a.png" = true
  /\ (let run := upload_attachment More.with_files plain_config "4711" "/docs/a.png" "" [] in
      omap request_of (fst run)
      = [(Get, "https://acme.atlassian.net/wiki/rest/api/content/4711/child/attachment"
               +:+ "?filename=" +:+ "a.png");
         (Post, "https://acme.atlassian.net/wiki/rest/api/content/4711/child/attachment"
                +:+ "/" +:+ "att9" +:+ "/data")]
      /\ omap file_upload_of (fst run)
         = [("https://acme.atlassian.net/wiki/rest/api/content/4711/child/attachment"
             +:+ "/" +:+ "att9" +:+ "/data", "a.png")]
      /\ snd run = Ret true)
  /\ path_isfile More.refusing_upload "/docs/a.png" = true
  /\ (let run := upload_attachment More.refusing_upload plain_config "4711"
                   "/docs/a.png" "" [] in
      omap file_upload_of (fst run)
      = [("https://acme.atlassian.net/wiki/rest/api/content/4711/child/attachment"
          +:+ "/", "a.png")]
      /\ snd run = Raise (HTTPError 413)).
Proof.
  assert (Hh : Py.contains "http" "/docs/a.png" = false) by (vm_compute; reflexivity).
  split; [exact Hh|]. split; [reflexivity|]. split; [|split; [reflexivity|]].
  - apply (X13_upload_replaces_or_adds More.with_files plain_config "4711" "/docs/a.png" "" []);
      [exact Hh | reflexivity].
  - destruct (X13_upload_replaces_or_adds More.refusing_upload plain_config "4711"
                "/docs/a.png" "" [] Hh eq_refl) as (_ & Hf & Ho).
    cbv zeta. split; [exact Hf | exact Ho].
Defined.

Lemma X14_image_without_attribute_fails_witness :
  Re.findall 1 Re.img_tag More.image_without_alt = [Sample.html " src='x.png' "]
  /\ Re.search Re.alt_attr (Sample.html " src='x.png' ") = None
  /\ update_page present_world plain_config "4711" "Setup guide"
       More.image_without_alt 7 [] [] None []
     = ([updating_page], Raise AttributeError).
Proof.
  split; [vm_compute; reflexivity|]. split; [vm_compute; reflexivity|].
  apply (X14_image_without_attribute_fails present_world plain_config
           "4711" "Setup guide" More.image_without_alt 7 [] [] None []
           (Sample.html " src='x.png' ") []);
    [vm_compute; reflexivity | right; vm_compute; reflexivity].
Defined.

Lemma X15_remote_images_untouched_witness :
  Re.findall 1 Re.img_tag More.remote_image
  = [Sample.html " alt='logo' src='http://example.org/logo.png' "]
  /\ add_images present_world plain_config "4711" More.remote_image []
     = ([], Ret More.remote_image).
Proof.
  assert (Htags : Re.findall 1 Re.img_tag More.remote_image
                  = [Sample.html " alt='logo' src='http://example.org/logo.png' "])
    by (vm_compute; reflexivity).
  split; [exact Htags|].
  apply (X15_remote_images_untouched present_world plain_config "4711" More.remote_image []).
  rewrite Htags. intros tag [<-|[]]. vm_compute. do 2 eexists. repeat split.
Defined.

Lemma X16_unknown_dialect_leaves_html_witness :
  MARKDOWN_SOURCE More.other_source <> "bitbucket"
  /\ exists warning,
       add_local_refs More.other_source "4711" "Guide" dangling_link []
       = ([Log WARNING warning []], Ret dangling_link).
Proof.
  split; [discriminate|].
  apply (X16_unknown_dialect_leaves_html More.other_source). discriminate.
Defined.

Lemma X20_attachments_uploaded_in_order_witness :
  (forall h u, status_ok (status_code (attachment_lookup More.with_files h u)) = true)
  /\ (forall h u f, status_ok (status_code (attachment_upload More.with_files h u f)) = true)
  /\ let run := add_attachments More.with_files plain_config "4711"
                  (Some ["a.png"; "img/b.png"]) [] in
     map snd (omap file_upload_of (fst run))
     = map (fun file =>
              Py.basename (Py.path_join
                             (dirname_abspath More.with_files (MARKDOWN_FILE plain_config))
                             file))
           ["a.png"; "img/b.png"]
     /\ snd run = Ret tt.
Proof.
  split; [reflexivity|]. split; [reflexivity|].
  apply (X20_attachments_uploaded_in_order More.with_files plain_config "4711"
           ["a.png"; "img/b.png"] []); [|reflexivity|reflexivity].
  intros file [<-|[<-|[]]]; split; reflexivity.
Defined.

Lemma X21_nogo_opens_no_browser_witness :
  GO_TO_PAGE plain_config = false
  /\ omap browser_of (fst (main present_world plain_config "Setup guide"
                             "<p>hi</p>" [])) = [].
Proof.
  split; [reflexivity|].
  apply (X21_nogo_opens_no_browser present_world plain_config). reflexivity.
Defined.

(** Without [--nogo] the updated page is opened once. *)
Example browser_opened_after_update :
  omap browser_of
    (fst (main present_world (More.configuration false None "bitbucket")
            "Setup guide" "<p>hi</p>" []))
  = ["https://acme.atlassian.net/wiki/spaces/DOC/pages/4711"].
Proof. vm_compute. reflexivity. Qed.
